(** * BaseApp ABCI surface: block execution, queries and block retention

    A shallow embedding of the ABCI methods of [package baseapp]
    ([InitChain], [Query], [CreateQueryContext], [GetBlockRetentionHeight],
    [validateFinalizeBlockHeight], [internalFinalizeBlock]) together with the
    properties the specification states about them.

    Conventions.
    - Go's [int64] and [uint64] are integers of [Z]; every arithmetic
      operation of the source is written with its wrap-around ([Int64.sub],
      [Int64.add], [Int64.of_uint64], [Int64.to_uint64]).
    - A pointer that may be [nil] is an [option]; a byte slice that may be
      [nil] is an [option (list byte)].
    - A Go panic is the [Panic] constructor of [outcome]; [defer]/[recover]
      is [recover_with].
    - A method with a pointer receiver that assigns fields of the
      application returns the new application next to its result.
    - Logging and telemetry calls have no counterpart. *)

From Stdlib Require Import ZArith List String Ascii Bool Lia.
From Stdlib.Strings Require Import Byte.
From Stdlib Require Import DecimalString.
Import ListNotations.

Set Implicit Arguments.
Open Scope string_scope.
Open Scope Z_scope.

(* ================================================================== *)
(** ** Machine integers *)
(* ================================================================== *)

Module Int64.

Definition min_signed : Z := - 2 ^ 63.
Definition max_signed : Z := 2 ^ 63 - 1.
Definition max_unsigned : Z := 2 ^ 64 - 1.

(** The values of Go's [int64]. *)
Definition in_range (z : Z) : Prop := min_signed <= z <= max_signed.

(** The values of Go's [uint64]. *)
Definition in_urange (z : Z) : Prop := 0 <= z <= max_unsigned.

(** Two's complement reduction of an integer to [int64]. *)
Definition wrap (z : Z) : Z := (z + 2 ^ 63) mod 2 ^ 64 - 2 ^ 63.

Definition add (x y : Z) : Z := wrap (x + y).
Definition sub (x y : Z) : Z := wrap (x - y).

(** The conversion [int64(u)] of a [uint64]. *)
Definition of_uint64 (u : Z) : Z := wrap u.

(** The conversion [uint64(z)] of an [int64]. *)
Definition to_uint64 (z : Z) : Z := z mod 2 ^ 64.

End Int64.

(* ================================================================== *)
(** ** Panics *)
(* ================================================================== *)

(** The result of running Go code that may panic: it returns a value or
    unwinds with the panic value (rendered as text, as [%v] prints it). *)
Inductive outcome (A : Type) : Type :=
| Return (a : A)
| Panic (v : string).

Arguments Return {A} a.
Arguments Panic {A} v.

Definition obind {A B : Type} (m : outcome A) (k : A -> outcome B) : outcome B :=
  match m with
  | Return a => k a
  | Panic v => Panic v
  end.

Notation "x <- m ;; k" := (obind m (fun x => k))
  (at level 61, m at next level, right associativity).
Notation "' pat <- m ;; k" := (obind m (fun x => match x with pat => k end))
  (at level 61, pat pattern, m at next level, right associativity).

(** [defer func() { if r := recover(); r != nil { res = h r } }()] around a
    body whose result is the named return value. *)
Definition recover_with {A : Type} (h : string -> A) (body : outcome A) : A :=
  match body with
  | Return a => a
  | Panic v => h v
  end.

(** Dereferencing a pointer: a nil pointer panics. *)
Definition deref {A : Type} (p : option A) : outcome A :=
  match p with
  | Some a => Return a
  | None => Panic "runtime error: invalid memory address or nil pointer dereference"
  end.

Definition returns {A : Type} (m : outcome A) : Prop := exists a, m = Return a.
Definition panics {A : Type} (m : outcome A) : Prop := exists v, m = Panic v.

(* ================================================================== *)
(** ** Bytes and text *)
(* ================================================================== *)

Definition bytes : Type := list byte.

(** [len(b)] of a byte slice that may be nil. *)
Definition blen (b : option bytes) : Z :=
  match b with
  | None => 0
  | Some l => Z.of_nat (List.length l)
  end.

(** Decimal rendering of an integer, the [%d] verb. *)
Definition itoa (z : Z) : string := NilZero.string_of_int (Z.to_int z).

(** [strings.Join]. *)
Fixpoint join (sep : string) (l : list string) : string :=
  match l with
  | [] => ""
  | [s] => s
  | s :: rest => s ++ sep ++ join sep rest
  end.

(** Accumulator of [strings.Split s "/"]: [cur] holds the characters of the
    segment being read, most recent first. *)
Fixpoint split_slash_aux (s : string) (cur : string) : list string :=
  match s with
  | EmptyString => [cur]
  | String c rest =>
      if Ascii.eqb c "/"%char
      then cur :: split_slash_aux rest ""
      else split_slash_aux rest (cur ++ String c "")
  end.

(** [strings.Split s "/"]: always at least one segment. *)
Definition split_slash (s : string) : list string := split_slash_aux s "".

(* ================================================================== *)
(** ** Errors *)
(* ================================================================== *)

(** Modelled from the spec: the error registry ([types/errors]) is not part
    of the sources at hand.  The specification speaks of namespaced error
    codes and of a documented decode-error code; these are the registered
    root errors the ABCI methods use, with the code each one is registered
    under in the root codespace ([ErrPanic] lives in the undefined
    codespace). *)
Inductive SdkError : Type :=
| ErrTxDecode
| ErrUnauthorized
| ErrUnknownRequest
| ErrInvalidRequest
| ErrKeyNotFound
| ErrInvalidHeight
| ErrPanic.

Definition RootCodespace : string := "sdk".
Definition UndefinedCodespace : string := "undefined".

Definition SuccessABCICode : Z := 0.
Definition internalABCICode : Z := 1.

Definition registeredCode (e : SdkError) : Z :=
  match e with
  | ErrTxDecode => 2
  | ErrUnauthorized => 4
  | ErrUnknownRequest => 6
  | ErrInvalidRequest => 18
  | ErrKeyNotFound => 22
  | ErrInvalidHeight => 26
  | ErrPanic => 111222
  end.

Definition registeredCodespace (e : SdkError) : string :=
  match e with
  | ErrPanic => UndefinedCodespace
  | _ => RootCodespace
  end.

Definition registeredText (e : SdkError) : string :=
  match e with
  | ErrTxDecode => "tx parse error"
  | ErrUnauthorized => "unauthorized"
  | ErrUnknownRequest => "unknown request"
  | ErrInvalidRequest => "invalid request"
  | ErrKeyNotFound => "key not found"
  | ErrInvalidHeight => "invalid height"
  | ErrPanic => "panic"
  end.

(** The two errors a [context.Context] reports once it is done. *)
Inductive ContextError : Type := Canceled | DeadlineExceeded.

(** The gRPC status codes [gRPCErrorToSDKError] tells apart. *)
Inductive GRPCCode : Type :=
| CodeNotFound
| CodeInvalidArgument
| CodeFailedPrecondition
| CodeUnauthenticated
| CodeOther (name : string).

(** Go's [error] values, by the way they are built in the source. *)
Inductive error : Type :=
| Registered (e : SdkError)                  (* a root error of the registry *)
| Wrap (parent : error) (description : string) (* sdkerrors.Wrap / Wrapf *)
| Errorf (msg : string)                      (* fmt.Errorf *)
| CtxError (c : ContextError)                (* ctx.Err() *)
| StatusError (code : GRPCCode) (msg : string) (* a gRPC status error *)
| External (msg : string).                   (* any other collaborator error *)

Definition grpcCodeName (c : GRPCCode) : string :=
  match c with
  | CodeNotFound => "NotFound"
  | CodeInvalidArgument => "InvalidArgument"
  | CodeFailedPrecondition => "FailedPrecondition"
  | CodeUnauthenticated => "Unauthenticated"
  | CodeOther n => n
  end.

(** [err.Error()]. *)
Fixpoint Error (err : error) : string :=
  match err with
  | Registered e => registeredText e
  | Wrap parent description => description ++ ": " ++ Error parent
  | Errorf msg => msg
  | CtxError Canceled => "context canceled"
  | CtxError DeadlineExceeded => "context deadline exceeded"
  | StatusError c msg => "rpc error: code = " ++ grpcCodeName c ++ " desc = " ++ msg
  | External msg => msg
  end.

(** The ABCI code of an error: the code of the registered root it wraps,
    the internal code for an error that wraps none. *)
Fixpoint abciCode (err : error) : Z :=
  match err with
  | Registered e => registeredCode e
  | Wrap parent _ => abciCode parent
  | _ => internalABCICode
  end.

Fixpoint abciCodespace (err : error) : string :=
  match err with
  | Registered e => registeredCodespace e
  | Wrap parent _ => abciCodespace parent
  | _ => UndefinedCodespace
  end.

(** [ABCIInfo err debug] for a non-nil error: codespace, code and log.  The
    debug encoder renders the same message followed by the stack recorded in
    the error, which this model does not carry. *)
Definition ABCIInfo (err : error) (debug : bool) : string * Z * string :=
  (abciCodespace err, abciCode err, Error err).

(* ================================================================== *)
(** ** Consensus parameters *)
(* ================================================================== *)

Module BlockParams.
Record t : Type := { MaxBytes : Z; MaxGas : Z; TimeIotaMs : Z }.
End BlockParams.

Module EvidenceParams.
Record t : Type := {
  MaxAgeNumBlocks : Z;          (* int64 *)
  MaxAgeDuration : option Z;    (* *durationpb.Duration, in nanoseconds *)
  MaxBytes : Z
}.
End EvidenceParams.

Module ValidatorParams.
Record t : Type := { PubKeyTypes : list string }.
End ValidatorParams.

Module VersionParams.
Record t : Type := { AppVersion : Z }.
End VersionParams.

Module ConsensusParams.
Record t : Type := {
  Block : option BlockParams.t;
  Evidence : option EvidenceParams.t;
  Validator : option ValidatorParams.t;
  Version : option VersionParams.t
}.
End ConsensusParams.

(* ================================================================== *)
(** ** ABCI messages *)
(* ================================================================== *)

(** [time.Time], as Unix seconds. *)
Definition Time : Type := Z.

Record Event : Type := {
  EventType : string;
  Attributes : list (string * string)
}.

Inductive PublicKey : Type :=
| NoKey
| Ed25519 (key : bytes)
| Secp256K1 (key : bytes).

Record ValidatorUpdate : Type := {
  PubKey : PublicKey;
  Power : Z
}.

Record VoteInfo : Type := {
  ValidatorAddress : bytes;
  ValidatorPower : Z;
  BlockIdFlag : Z
}.

Record CommitInfo : Type := {
  Round : Z;
  Votes : list VoteInfo
}.

Record Misbehavior : Type := {
  MisbehaviorType : Z;
  MisbehaviorHeight : Z
}.

Module Header.
Record t : Type := {
  ChainID : string;
  Height : Z;
  Time : Time;
  ProposerAddress : option bytes;
  NextValidatorsHash : option bytes;
  AppHash : option bytes
}.

(** [tmproto.Header{}]. *)
Definition zero : t :=
  {| ChainID := ""; Height := 0; Time := 0; ProposerAddress := None;
     NextValidatorsHash := None; AppHash := None |}.
End Header.

Module RequestInitChain.
Record t : Type := {
  Time : Time;
  ChainId : string;
  ConsensusParams : option ConsensusParams.t;
  Validators : list ValidatorUpdate;
  AppStateBytes : option bytes;
  InitialHeight : Z
}.
End RequestInitChain.

Module ResponseInitChain.
Record t : Type := {
  ConsensusParams : option ConsensusParams.t;
  Validators : list ValidatorUpdate;
  AppHash : option bytes
}.

(** The zero value, what a named result holds before it is assigned. *)
Definition zero : t :=
  {| ConsensusParams := None; Validators := []; AppHash := None |}.
End ResponseInitChain.

Module RequestQuery.
Record t : Type := {
  Data : option bytes;
  Path : string;
  Height : Z;
  Prove : bool
}.
End RequestQuery.

Module ResponseQuery.
Record t : Type := {
  Code : Z;
  Log : string;
  Key : option bytes;
  Value : option bytes;
  Height : Z;
  Codespace : string
}.

(** [abci.ResponseQuery{}]. *)
Definition zero : t :=
  {| Code := 0; Log := ""; Key := None; Value := None; Height := 0;
     Codespace := "" |}.

Definition withHeight (h : Z) (r : t) : t :=
  {| Code := Code r; Log := Log r; Key := Key r; Value := Value r;
     Height := h; Codespace := Codespace r |}.

(** A response that reports an error carries a non-zero code. *)
Definition IsErr (r : t) : Prop := Code r <> SuccessABCICode.
Definition isErr (r : t) : bool := negb (Code r =? SuccessABCICode).
End ResponseQuery.

Module ExecTxResult.
Record t : Type := {
  Code : Z;
  Data : option bytes;
  Log : string;
  GasWanted : Z;
  GasUsed : Z;
  Events : list Event;
  Codespace : string
}.
End ExecTxResult.

Module RequestFinalizeBlock.
Record t : Type := {
  Txs : list bytes;
  DecidedLastCommit : CommitInfo;
  Misbehaviors : list Misbehavior;
  Hash : option bytes;
  Height : Z;
  Time : Time;
  NextValidatorsHash : option bytes;
  ProposerAddress : option bytes
}.
End RequestFinalizeBlock.

Module ResponseFinalizeBlock.
Record t : Type := {
  Events : list Event;
  TxResults : list ExecTxResult.t;
  ValidatorUpdates : list ValidatorUpdate;
  ConsensusParamUpdates : option ConsensusParams.t;
  AppHash : option bytes
}.

Definition withAppHash (h : option bytes) (r : t) : t :=
  {| Events := Events r; TxResults := TxResults r;
     ValidatorUpdates := ValidatorUpdates r;
     ConsensusParamUpdates := ConsensusParamUpdates r; AppHash := h |}.
End ResponseFinalizeBlock.

(** Modelled from the spec: [sdkerrors.QueryResult] belongs to the error
    package, which is not part of the sources at hand.  It is the structured
    error response of the specification: a namespaced error code plus a
    human-readable message. *)
Definition QueryResult (err : error) (debug : bool) : ResponseQuery.t :=
  let '(space, code, log) := ABCIInfo err debug in
  {| ResponseQuery.Code := code; ResponseQuery.Log := log;
     ResponseQuery.Key := None; ResponseQuery.Value := None;
     ResponseQuery.Height := 0; ResponseQuery.Codespace := space |}.

(** Modelled from the spec: [sdkerrors.ResponseExecTxResultWithEvents] belongs
    to the error package, which is not part of the sources at hand.  It builds
    the per-transaction failure result of the specification from an error,
    the gas wanted, the gas used and the events. *)
Definition ResponseExecTxResultWithEvents
    (err : error) (gw gu : Z) (events : list Event) (debug : bool) : ExecTxResult.t :=
  let '(space, code, log) := ABCIInfo err debug in
  {| ExecTxResult.Code := code; ExecTxResult.Data := None;
     ExecTxResult.Log := log;
     ExecTxResult.GasWanted := Int64.of_uint64 gw;
     ExecTxResult.GasUsed := Int64.of_uint64 gu;
     ExecTxResult.Events := events; ExecTxResult.Codespace := space |}.

(* ================================================================== *)
(** ** The versioned store *)
(* ================================================================== *)

Definition KVStore : Type := list (string * bytes).

Module CommitID.
Record t : Type := {
  Version : Z;
  Hash : option bytes
}.

(** Modelled from the spec: [CommitID.IsZero] belongs to the store package,
    which is not part of the sources at hand.  A commit identifier is zero
    when no state has been committed yet: no version and no hash. *)
Definition IsZero (cid : t) : bool :=
  (Version cid =? 0) && (blen (Hash cid) =? 0).
End CommitID.

(** A branch of a store ([sdk.CacheMultiStore]): the contents it was taken
    from and the writes made to it since, most recent first. *)
Record CacheMultiStore : Type := {
  parent : KVStore;
  writes : list (string * bytes)
}.

Module Store.
(** Modelled from the spec: the multistore is an external collaborator,
    consumed through the store facade of the specification (branch a view,
    fetch a historical view by version, report the latest version and the
    commit metadata of a version, working hash).  Behaviour that belongs to
    the implementation behind the interface is carried as data:
    [setInitialVersionErr] is the error [SetInitialVersion] returns, if
    any; [commitTimestamp] is the commit time [GetCommitInfo] reports when
    the store is a root multistore; [queryable] is present when the store
    implements [sdk.Queryable]. *)
Record t : Type := {
  lastCommitID : CommitID.t;
  initialVersion : Z;
  contents : KVStore;
  history : list (Z * KVStore);
  hashOf : KVStore -> bytes;
  setInitialVersionErr : option error;
  commitTimestamp : Z -> option Time;
  queryable : option (RequestQuery.t -> outcome ResponseQuery.t)
}.

Definition LastCommitID (s : t) : CommitID.t := lastCommitID s.

Definition LatestVersion (s : t) : Z := CommitID.Version (lastCommitID s).

Definition SetInitialVersion (v : Z) (s : t) : t * option error :=
  match setInitialVersionErr s with
  | Some e => (s, Some e)
  | None =>
      ({| lastCommitID := lastCommitID s; initialVersion := v;
          contents := contents s; history := history s; hashOf := hashOf s;
          setInitialVersionErr := setInitialVersionErr s;
          commitTimestamp := commitTimestamp s; queryable := queryable s |},
       None)
  end.

Fixpoint lookupVersion (v : Z) (h : list (Z * KVStore)) : option KVStore :=
  match h with
  | [] => None
  | (v', kv) :: rest => if v' =? v then Some kv else lookupVersion v rest
  end.

Definition CacheMultiStoreWithVersion (v : Z) (s : t) : CacheMultiStore + error :=
  match lookupVersion v (history s) with
  | Some kv => inl {| parent := kv; writes := [] |}
  | None => inr (External ("version does not exist: " ++ itoa v))
  end.

(** [ms.Write()] of a branch of [s]: the writes reach the root. *)
Definition Write (ms : CacheMultiStore) (s : t) : t :=
  {| lastCommitID := lastCommitID s; initialVersion := initialVersion s;
     contents := (writes ms ++ contents s)%list; history := history s;
     hashOf := hashOf s; setInitialVersionErr := setInitialVersionErr s;
     commitTimestamp := commitTimestamp s; queryable := queryable s |}.

Definition WorkingHash (s : t) : option bytes := Some (hashOf s (contents s)).

(** [s.CacheMultiStore()]: a fresh branch of the current contents. *)
Definition CacheMultiStore (s : t) : CacheMultiStore :=
  {| parent := contents s; writes := [] |}.
End Store.

(* ================================================================== *)
(** ** Execution context and mode state *)
(* ================================================================== *)

Inductive GasMeter : Type :=
| InfiniteGasMeter
| BasicGasMeter (limit : Z).

Inductive ExecMode : Type :=
| ExecModeCheck
| ExecModeReCheck
| ExecModeSimulate
| ExecModePrepareProposal
| ExecModeProcessProposal
| ExecModeFinalize.

(** The mode argument of [setState]. *)
Inductive runTxMode : Type :=
| runTxModeCheck
| runTxModeReCheck
| runTxPrepareProposal
| runTxProcessProposal
| execModeFinalize.

Record HeaderInfo : Type := {
  InfoChainID : string;
  InfoHeight : Z;
  InfoTime : Time;
  InfoHash : option bytes;
  InfoAppHash : option bytes
}.

Record cometInfo : Type := {
  Misbehavior_ : list Misbehavior;
  ValidatorsHash : option bytes;
  CometProposerAddress : option bytes;
  LastCommit : CommitInfo
}.

(** [sdk.Context], without its reference to the multistore: in the source the
    context of a mode state points at the state's own branch [ms], so code
    that is handed a context and touches the store is handed the pair of
    both, the [state] below. *)
Record Context : Type := {
  header : Header.t;
  headerHash : option bytes;
  headerInfo : option HeaderInfo;
  consensusParams : option ConsensusParams.t;
  voteInfos : list VoteInfo;
  execMode : option ExecMode;
  cometInfo_ : option cometInfo;
  blockGasMeter : option GasMeter;
  checkTx : bool;
  ctxMinGasPrices : string
}.

Definition NewContext (h : Header.t) (isCheckTx : bool) : Context :=
  {| header := h; headerHash := None; headerInfo := None;
     consensusParams := None; voteInfos := []; execMode := None;
     cometInfo_ := None; blockGasMeter := None; checkTx := isCheckTx;
     ctxMinGasPrices := "" |}.

Definition WithBlockHeader (h : Header.t) (c : Context) : Context :=
  {| header := h; headerHash := headerHash c; headerInfo := headerInfo c;
     consensusParams := consensusParams c; voteInfos := voteInfos c;
     execMode := execMode c; cometInfo_ := cometInfo_ c;
     blockGasMeter := blockGasMeter c; checkTx := checkTx c;
     ctxMinGasPrices := ctxMinGasPrices c |}.

Definition WithBlockHeight (height : Z) (c : Context) : Context :=
  let h := header c in
  WithBlockHeader
    {| Header.ChainID := Header.ChainID h; Header.Height := height;
       Header.Time := Header.Time h;
       Header.ProposerAddress := Header.ProposerAddress h;
       Header.NextValidatorsHash := Header.NextValidatorsHash h;
       Header.AppHash := Header.AppHash h |} c.

Definition WithBlockTime (t : Time) (c : Context) : Context :=
  let h := header c in
  WithBlockHeader
    {| Header.ChainID := Header.ChainID h; Header.Height := Header.Height h;
       Header.Time := t;
       Header.ProposerAddress := Header.ProposerAddress h;
       Header.NextValidatorsHash := Header.NextValidatorsHash h;
       Header.AppHash := Header.AppHash h |} c.

Definition WithHeaderHash (hash : option bytes) (c : Context) : Context :=
  {| header := header c; headerHash := hash; headerInfo := headerInfo c;
     consensusParams := consensusParams c; voteInfos := voteInfos c;
     execMode := execMode c; cometInfo_ := cometInfo_ c;
     blockGasMeter := blockGasMeter c; checkTx := checkTx c;
     ctxMinGasPrices := ctxMinGasPrices c |}.

Definition WithHeaderInfo (i : HeaderInfo) (c : Context) : Context :=
  {| header := header c; headerHash := headerHash c; headerInfo := Some i;
     consensusParams := consensusParams c; voteInfos := voteInfos c;
     execMode := execMode c; cometInfo_ := cometInfo_ c;
     blockGasMeter := blockGasMeter c; checkTx := checkTx c;
     ctxMinGasPrices := ctxMinGasPrices c |}.

Definition WithConsensusParams (cp : option ConsensusParams.t) (c : Context) : Context :=
  {| header := header c; headerHash := headerHash c; headerInfo := headerInfo c;
     consensusParams := cp; voteInfos := voteInfos c;
     execMode := execMode c; cometInfo_ := cometInfo_ c;
     blockGasMeter := blockGasMeter c; checkTx := checkTx c;
     ctxMinGasPrices := ctxMinGasPrices c |}.

Definition WithVoteInfos (v : list VoteInfo) (c : Context) : Context :=
  {| header := header c; headerHash := headerHash c; headerInfo := headerInfo c;
     consensusParams := consensusParams c; voteInfos := v;
     execMode := execMode c; cometInfo_ := cometInfo_ c;
     blockGasMeter := blockGasMeter c; checkTx := checkTx c;
     ctxMinGasPrices := ctxMinGasPrices c |}.

Definition WithExecMode (m : ExecMode) (c : Context) : Context :=
  {| header := header c; headerHash := headerHash c; headerInfo := headerInfo c;
     consensusParams := consensusParams c; voteInfos := voteInfos c;
     execMode := Some m; cometInfo_ := cometInfo_ c;
     blockGasMeter := blockGasMeter c; checkTx := checkTx c;
     ctxMinGasPrices := ctxMinGasPrices c |}.

Definition WithCometInfo (i : cometInfo) (c : Context) : Context :=
  {| header := header c; headerHash := headerHash c; headerInfo := headerInfo c;
     consensusParams := consensusParams c; voteInfos := voteInfos c;
     execMode := execMode c; cometInfo_ := Some i;
     blockGasMeter := blockGasMeter c; checkTx := checkTx c;
     ctxMinGasPrices := ctxMinGasPrices c |}.

Definition WithBlockGasMeter (g : GasMeter) (c : Context) : Context :=
  {| header := header c; headerHash := headerHash c; headerInfo := headerInfo c;
     consensusParams := consensusParams c; voteInfos := voteInfos c;
     execMode := execMode c; cometInfo_ := cometInfo_ c;
     blockGasMeter := Some g; checkTx := checkTx c;
     ctxMinGasPrices := ctxMinGasPrices c |}.

Definition WithMinGasPrices (p : string) (c : Context) : Context :=
  {| header := header c; headerHash := headerHash c; headerInfo := headerInfo c;
     consensusParams := consensusParams c; voteInfos := voteInfos c;
     execMode := execMode c; cometInfo_ := cometInfo_ c;
     blockGasMeter := blockGasMeter c; checkTx := checkTx c;
     ctxMinGasPrices := p |}.

(** [type state struct { ms; mtx; ctx }]; the mutex has no counterpart in a
    sequential model. *)
Record state : Type := {
  ms : CacheMultiStore;
  ctx : Context
}.

(** [st.Context()]. *)
Definition Context_of (st : state) : Context := ctx st.

(** [st.SetContext(ctx)]. *)
Definition SetContext (c : Context) (st : state) : state :=
  {| ms := ms st; ctx := c |}.

(** [st.CacheMultiStore()]: a branch of the state's branch. *)
Definition state_CacheMultiStore (st : state) : CacheMultiStore :=
  {| parent := (writes (ms st) ++ parent (ms st))%list; writes := [] |}.

(* ================================================================== *)
(** ** The application *)
(* ================================================================== *)

Definition Tx : Type := list string.

(** The injected transaction decoder. *)
Definition TxDecoder : Type := bytes -> Tx + error.

(** The injected genesis initializer: it is handed the finalize context, may
    write to its branch, and may panic. *)
Definition InitChainer : Type :=
  state -> RequestInitChain.t -> outcome (ResponseInitChain.t * CacheMultiStore).

(** A registered gRPC query handler. *)
Definition GRPCQueryHandler : Type :=
  state -> RequestQuery.t -> outcome (ResponseQuery.t + error).

Record BeginBlock : Type := { BeginBlockEvents : list Event }.

Record EndBlock : Type := {
  EndBlockValidatorUpdates : list ValidatorUpdate;
  EndBlockEvents : list Event
}.

Record GasInfo : Type := { InfoGasWanted : Z; InfoGasUsed : Z }.

Record Result : Type := {
  ResultData : option bytes;
  ResultLog : string;
  ResultEvents : list Event
}.

Record SimulationResponse : Type := {
  SimGasInfo : GasInfo;
  SimResult : Result
}.

(** The consensus-parameter store, read and written through a context. *)
Record ParamStore : Type := {
  Get : state -> option ConsensusParams.t + error;
  Set_ : state -> ConsensusParams.t -> CacheMultiStore
}.

(** The snapshot manager, as far as retention needs it. *)
Record SnapshotManager : Type := {
  GetSnapshotBlockRetentionHeights : Z
}.

(** [type BaseApp struct].  Modelled from the spec: the methods [preBlock],
    [beginBlock], [endBlock], [deliverTx] and [Simulate] are defined in a
    file that is not part of the sources at hand; following the
    specification they run the injected module hooks and the transaction
    executor against the finalize branch, return events, results or an
    error, and may panic, so they appear here as functions of the mode state
    carried by the application. *)
Record BaseApp : Type := {
  name : string;   (* [Name()] *)
  version : string;
  chainID : string;
  trace : bool;
  cms : Store.t;   (* the root multistore *)
  qms : option Store.t;   (* the query multistore, when one is provided *)
  initChainer : option InitChainer;
  txDecoder : TxDecoder;
  preBlock : RequestFinalizeBlock.t -> state -> outcome ((list Event + error) * state);
  beginBlock : RequestFinalizeBlock.t -> state -> outcome ((BeginBlock + error) * state);
  endBlock : state -> outcome ((EndBlock + error) * state);
  deliverTx : bytes -> state -> outcome (ExecTxResult.t * state);
  Simulate : option bytes -> outcome ((GasInfo * Result) + error);
  interfaceRegistry : SimulationResponse -> option bytes + error;
  grpcQueryRouter : string -> option GRPCQueryHandler;
  addrPeerFilter : option (string -> outcome ResponseQuery.t);
  idPeerFilter : option (string -> outcome ResponseQuery.t);
  paramStore : option ParamStore;
  snapshotManager : option SnapshotManager;
  checkState : option state;
  prepareProposalState : option state;
  processProposalState : option state;
  finalizeBlockState : option state;
  initialHeight : Z;   (* int64 *)
  minRetainBlocks : Z;   (* uint64 *)
  haltHeight : Z;   (* uint64 *)
  haltTime : Z;   (* uint64 *)
  minGasPrices : string
}.

Definition set_cms (v : Store.t) (app : BaseApp) : BaseApp :=
  {| name := name app; version := version app; chainID := chainID app;
     trace := trace app; cms := v; qms := qms app;
     initChainer := initChainer app; txDecoder := txDecoder app;
     preBlock := preBlock app; beginBlock := beginBlock app;
     endBlock := endBlock app; deliverTx := deliverTx app;
     Simulate := Simulate app; interfaceRegistry := interfaceRegistry app;
     grpcQueryRouter := grpcQueryRouter app;
     addrPeerFilter := addrPeerFilter app; idPeerFilter := idPeerFilter app;
     paramStore := paramStore app; snapshotManager := snapshotManager app;
     checkState := checkState app;
     prepareProposalState := prepareProposalState app;
     processProposalState := processProposalState app;
     finalizeBlockState := finalizeBlockState app;
     initialHeight := initialHeight app;
     minRetainBlocks := minRetainBlocks app; haltHeight := haltHeight app;
     haltTime := haltTime app; minGasPrices := minGasPrices app |}.

Definition set_initialHeight (v : Z) (app : BaseApp) : BaseApp :=
  {| name := name app; version := version app; chainID := chainID app;
     trace := trace app; cms := cms app; qms := qms app;
     initChainer := initChainer app; txDecoder := txDecoder app;
     preBlock := preBlock app; beginBlock := beginBlock app;
     endBlock := endBlock app; deliverTx := deliverTx app;
     Simulate := Simulate app; interfaceRegistry := interfaceRegistry app;
     grpcQueryRouter := grpcQueryRouter app;
     addrPeerFilter := addrPeerFilter app; idPeerFilter := idPeerFilter app;
     paramStore := paramStore app; snapshotManager := snapshotManager app;
     checkState := checkState app;
     prepareProposalState := prepareProposalState app;
     processProposalState := processProposalState app;
     finalizeBlockState := finalizeBlockState app; initialHeight := v;
     minRetainBlocks := minRetainBlocks app; haltHeight := haltHeight app;
     haltTime := haltTime app; minGasPrices := minGasPrices app |}.

Definition set_checkState (v : option state) (app : BaseApp) : BaseApp :=
  {| name := name app; version := version app; chainID := chainID app;
     trace := trace app; cms := cms app; qms := qms app;
     initChainer := initChainer app; txDecoder := txDecoder app;
     preBlock := preBlock app; beginBlock := beginBlock app;
     endBlock := endBlock app; deliverTx := deliverTx app;
     Simulate := Simulate app; interfaceRegistry := interfaceRegistry app;
     grpcQueryRouter := grpcQueryRouter app;
     addrPeerFilter := addrPeerFilter app; idPeerFilter := idPeerFilter app;
     paramStore := paramStore app; snapshotManager := snapshotManager app;
     checkState := v; prepareProposalState := prepareProposalState app;
     processProposalState := processProposalState app;
     finalizeBlockState := finalizeBlockState app;
     initialHeight := initialHeight app;
     minRetainBlocks := minRetainBlocks app; haltHeight := haltHeight app;
     haltTime := haltTime app; minGasPrices := minGasPrices app |}.

Definition set_prepareProposalState (v : option state) (app : BaseApp) : BaseApp :=
  {| name := name app; version := version app; chainID := chainID app;
     trace := trace app; cms := cms app; qms := qms app;
     initChainer := initChainer app; txDecoder := txDecoder app;
     preBlock := preBlock app; beginBlock := beginBlock app;
     endBlock := endBlock app; deliverTx := deliverTx app;
     Simulate := Simulate app; interfaceRegistry := interfaceRegistry app;
     grpcQueryRouter := grpcQueryRouter app;
     addrPeerFilter := addrPeerFilter app; idPeerFilter := idPeerFilter app;
     paramStore := paramStore app; snapshotManager := snapshotManager app;
     checkState := checkState app; prepareProposalState := v;
     processProposalState := processProposalState app;
     finalizeBlockState := finalizeBlockState app;
     initialHeight := initialHeight app;
     minRetainBlocks := minRetainBlocks app; haltHeight := haltHeight app;
     haltTime := haltTime app; minGasPrices := minGasPrices app |}.

Definition set_processProposalState (v : option state) (app : BaseApp) : BaseApp :=
  {| name := name app; version := version app; chainID := chainID app;
     trace := trace app; cms := cms app; qms := qms app;
     initChainer := initChainer app; txDecoder := txDecoder app;
     preBlock := preBlock app; beginBlock := beginBlock app;
     endBlock := endBlock app; deliverTx := deliverTx app;
     Simulate := Simulate app; interfaceRegistry := interfaceRegistry app;
     grpcQueryRouter := grpcQueryRouter app;
     addrPeerFilter := addrPeerFilter app; idPeerFilter := idPeerFilter app;
     paramStore := paramStore app; snapshotManager := snapshotManager app;
     checkState := checkState app;
     prepareProposalState := prepareProposalState app;
     processProposalState := v; finalizeBlockState := finalizeBlockState app;
     initialHeight := initialHeight app;
     minRetainBlocks := minRetainBlocks app; haltHeight := haltHeight app;
     haltTime := haltTime app; minGasPrices := minGasPrices app |}.

Definition set_finalizeBlockState (v : option state) (app : BaseApp) : BaseApp :=
  {| name := name app; version := version app; chainID := chainID app;
     trace := trace app; cms := cms app; qms := qms app;
     initChainer := initChainer app; txDecoder := txDecoder app;
     preBlock := preBlock app; beginBlock := beginBlock app;
     endBlock := endBlock app; deliverTx := deliverTx app;
     Simulate := Simulate app; interfaceRegistry := interfaceRegistry app;
     grpcQueryRouter := grpcQueryRouter app;
     addrPeerFilter := addrPeerFilter app; idPeerFilter := idPeerFilter app;
     paramStore := paramStore app; snapshotManager := snapshotManager app;
     checkState := checkState app;
     prepareProposalState := prepareProposalState app;
     processProposalState := processProposalState app;
     finalizeBlockState := v; initialHeight := initialHeight app;
     minRetainBlocks := minRetainBlocks app; haltHeight := haltHeight app;
     haltTime := haltTime app; minGasPrices := minGasPrices app |}.

(* ------------------------------------------------------------------ *)
(** *** Methods of the application defined outside the ABCI file *)
(* ------------------------------------------------------------------ *)

(** Modelled from the spec: [LastCommitID], [LastBlockHeight], [Name],
    [setState], [GetConsensusParams], [StoreConsensusParams] and
    [getBlockGasMeter] are defined in a file that is not part of the sources
    at hand.  The last commit identifier and the last committed height are
    the root store's; entering a mode pairs a fresh branch of the root store
    with a fresh context; consensus parameters are read from the parameter
    store through the context of the active branch; the block gas meter is
    sized from the effective [Block.MaxGas], the sentinel [-1] (and an unset
    value) giving an unbounded meter. *)
Definition LastCommitID (app : BaseApp) : CommitID.t :=
  Store.LastCommitID (cms app).

Definition LastBlockHeight (app : BaseApp) : Z :=
  CommitID.Version (LastCommitID app).

Definition Name (app : BaseApp) : string := name app.

Definition setState (mode : runTxMode) (h : Header.t) (app : BaseApp) : outcome BaseApp :=
  let branch := Store.CacheMultiStore (cms app) in
  let baseState := {| ms := branch; ctx := NewContext h false |} in
  match mode with
  | runTxModeCheck =>
      let st := {| ms := branch;
                   ctx := WithMinGasPrices (minGasPrices app) (NewContext h true) |} in
      Return (set_checkState (Some st) app)
  | runTxPrepareProposal => Return (set_prepareProposalState (Some baseState) app)
  | runTxProcessProposal => Return (set_processProposalState (Some baseState) app)
  | execModeFinalize => Return (set_finalizeBlockState (Some baseState) app)
  | runTxModeReCheck => Panic "invalid runTxMode for setState"
  end.

Definition GetConsensusParams (app : BaseApp) (st : state)
  : outcome (option ConsensusParams.t) :=
  match paramStore app with
  | None => Return None
  | Some ps =>
      match Get ps st with
      | inl cp => Return cp
      | inr err => Panic (Error err)
      end
  end.

Definition StoreConsensusParams (app : BaseApp) (st : state)
    (cp : option ConsensusParams.t) : outcome state :=
  match paramStore app with
  | None => Panic "cannot store consensus params with no params store set"
  | Some ps =>
      match cp with
      | None => Return st
      | Some p => Return {| ms := Set_ ps st p; ctx := ctx st |}
      end
  end.

Definition getBlockGasMeter (app : BaseApp) (st : state) : outcome GasMeter :=
  cp <- GetConsensusParams app st ;;
  match cp with
  | None => Return InfiniteGasMeter
  | Some p =>
      match ConsensusParams.Block p with
      | None => Return InfiniteGasMeter
      | Some b =>
          let maxGas := BlockParams.MaxGas b in
          if maxGas <? -1 then Panic ("invalid maximum block gas: " ++ itoa maxGas)
          else if 0 <? maxGas then Return (BasicGasMeter maxGas)
          else Return InfiniteGasMeter
      end
  end.

(* ================================================================== *)
(** ** Block retention *)
(* ================================================================== *)

(** The closure [minNonZero] of [GetBlockRetentionHeight]. *)
Definition minNonZero (x y : Z) : Z :=
  if x =? 0 then y
  else if y =? 0 then x
  else if x <? y then x
  else y.

(** [GetBlockRetentionHeight].  Reading [app.finalizeBlockState.ctx] panics
    when no finalize state is set. *)
Definition GetBlockRetentionHeight (app : BaseApp) (commitHeight : Z) : outcome Z :=
  (* pruning is disabled if minRetainBlocks is zero *)
  if minRetainBlocks app =? 0 then Return 0
  else
    st <- deref (finalizeBlockState app) ;;
    cp <- GetConsensusParams app st ;;
    let retentionHeight :=
      match cp with
      | Some p =>
          match ConsensusParams.Evidence p with
          | Some e =>
              if 0 <? EvidenceParams.MaxAgeNumBlocks e
              then Int64.sub commitHeight (EvidenceParams.MaxAgeNumBlocks e)
              else 0
          | None => 0
          end
      | None => 0
      end in
    let retentionHeight :=
      match snapshotManager app with
      | Some sm =>
          let snapshotRetentionHeights := GetSnapshotBlockRetentionHeights sm in
          if 0 <? snapshotRetentionHeights
          then minNonZero retentionHeight (Int64.sub commitHeight snapshotRetentionHeights)
          else retentionHeight
      | None => retentionHeight
      end in
    let v := Int64.sub commitHeight (Int64.of_uint64 (minRetainBlocks app)) in
    let retentionHeight := minNonZero retentionHeight v in
    if retentionHeight <=? 0
    then Return 0 (* prune nothing in the case of a non-positive height *)
    else Return retentionHeight.

(* ================================================================== *)
(** ** Halting and height validation *)
(* ================================================================== *)

(** [checkHalt]. *)
Definition checkHalt (app : BaseApp) (height : Z) (time : Time) : option error :=
  let halt :=
    if (0 <? haltHeight app) && (haltHeight app <? Int64.to_uint64 height) then true
    else if (0 <? haltTime app) && (Int64.of_uint64 (haltTime app) <? time) then true
    else false in
  if halt
  then Some (Errorf ("halt per configuration height " ++ itoa (haltHeight app)
                     ++ " time " ++ itoa (haltTime app)))
  else None.

(** The height [validateFinalizeBlockHeight] expects. *)
Definition expectedHeight (app : BaseApp) : Z :=
  let lastBlockHeight := LastBlockHeight app in
  if (lastBlockHeight =? 0) && (1 <? initialHeight app)
  then
    (* the first block of the chain: no previous commit *)
    initialHeight app
  else
    (* a previous commit, or no previous commit and a start at version 1 *)
    Int64.add lastBlockHeight 1.

(** The expected height in the words of the specification: the configured
    initial height when no prior commit exists and the initial height is
    greater than 1, the last committed height plus one otherwise. *)
Definition spec_expectedHeight (lastCommitted initial : Z) : Z :=
  if (lastCommitted =? 0) && (1 <? initial) then initial else lastCommitted + 1.

(** [validateFinalizeBlockHeight]. *)
Definition validateFinalizeBlockHeight (app : BaseApp) (req : RequestFinalizeBlock.t)
  : option error :=
  let height := RequestFinalizeBlock.Height req in
  if height <? 1 then Some (Errorf ("invalid height: " ++ itoa height))
  else
    let expected := expectedHeight app in
    if negb (height =? expected)
    then Some (Errorf ("invalid height: " ++ itoa height ++ "; expected: "
                       ++ itoa expected))
    else None.

(* ------------------------------------------------------------------ *)
(** *** The retention height in the words of the specification *)
(* ------------------------------------------------------------------ *)

(** The constraints that are configured, as the specification writes them:
    [commitHeight - evidence.max_age_num_blocks] when the evidence parameters
    are present and the age is positive, [commitHeight -] the span of the
    oldest live snapshot when a snapshot manager is configured and the span is
    positive, and [commitHeight - operatorMinRetainBlocks].  The differences
    are those of the integers, not of [int64]. *)
Definition evidenceConstraint (cp : option ConsensusParams.t) (commitHeight : Z) : list Z :=
  match cp with
  | Some p =>
      match ConsensusParams.Evidence p with
      | Some e =>
          if 0 <? EvidenceParams.MaxAgeNumBlocks e
          then [commitHeight - EvidenceParams.MaxAgeNumBlocks e]
          else []
      | None => []
      end
  | None => []
  end.

Definition snapshotConstraint (sm : option SnapshotManager) (commitHeight : Z) : list Z :=
  match sm with
  | Some m =>
      if 0 <? GetSnapshotBlockRetentionHeights m
      then [commitHeight - GetSnapshotBlockRetentionHeights m]
      else []
  | None => []
  end.

Definition operatorConstraint (minRetain commitHeight : Z) : list Z :=
  [commitHeight - minRetain].

Definition retentionConstraints
    (cp : option ConsensusParams.t) (sm : option SnapshotManager)
    (minRetain commitHeight : Z) : list Z :=
  (evidenceConstraint cp commitHeight ++ snapshotConstraint sm commitHeight
     ++ operatorConstraint minRetain commitHeight)%list.

(** The least element of a list, 0 for the empty list. *)
Definition minimumOf (l : list Z) : Z :=
  match l with
  | [] => 0
  | x :: rest => fold_left Z.min rest x
  end.

Definition nonZero (z : Z) : bool := negb (z =? 0).

(** Zero when the operator retains no minimum; otherwise the minimum of the
    non-zero constraints, floored at zero. *)
Definition spec_RetentionHeight
    (cp : option ConsensusParams.t) (sm : option SnapshotManager)
    (minRetain commitHeight : Z) : Z :=
  if minRetain =? 0 then 0
  else Z.max 0 (minimumOf (filter nonZero (retentionConstraints cp sm minRetain commitHeight))).

(* ================================================================== *)
(** ** SHA-256 *)
(* ================================================================== *)

(** [crypto/sha256], after FIPS 180-4, on 32-bit words held in [Z]. *)
Module Sha256.

Definition w32 (x : Z) : Z := x mod 2 ^ 32.

Definition rotr (n x : Z) : Z :=
  Z.lor (Z.shiftr x n) (w32 (Z.shiftl x (32 - n))).

Definition shr (n x : Z) : Z := Z.shiftr x n.

Definition not32 (x : Z) : Z := Z.lxor x (2 ^ 32 - 1).

Definition Ch (x y z : Z) : Z := Z.lxor (Z.land x y) (Z.land (not32 x) z).

Definition Maj (x y z : Z) : Z :=
  Z.lxor (Z.lxor (Z.land x y) (Z.land x z)) (Z.land y z).

Definition bigSigma0 (x : Z) : Z := Z.lxor (Z.lxor (rotr 2 x) (rotr 13 x)) (rotr 22 x).
Definition bigSigma1 (x : Z) : Z := Z.lxor (Z.lxor (rotr 6 x) (rotr 11 x)) (rotr 25 x).
Definition smallSigma0 (x : Z) : Z := Z.lxor (Z.lxor (rotr 7 x) (rotr 18 x)) (shr 3 x).
Definition smallSigma1 (x : Z) : Z := Z.lxor (Z.lxor (rotr 17 x) (rotr 19 x)) (shr 10 x).

(** The first sixty-four primes. *)
Definition primes : list Z :=
  [2; 3; 5; 7; 11; 13; 17; 19; 23; 29; 31; 37; 41; 43; 47; 53; 59; 61; 67; 71;
   73; 79; 83; 89; 97; 101; 103; 107; 109; 113; 127; 131; 137; 139; 149; 151;
   157; 163; 167; 173; 179; 181; 191; 193; 197; 199; 211; 223; 227; 229; 233;
   239; 241; 251; 257; 263; 269; 271; 277; 281; 283; 293; 307; 311].

(** The integer cube root, one bit at a time from bit [bits - 1] down. *)
Fixpoint cbrt_bits (bits : nat) (n r : Z) : Z :=
  match bits with
  | O => r
  | S k =>
      let c := r + 2 ^ Z.of_nat k in
      if c * c * c <=? n then cbrt_bits k n c else cbrt_bits k n r
  end.

Definition cbrt (n : Z) : Z := cbrt_bits 40 n 0.

(** The round constants: the first thirty-two bits of the fractional parts of
    the cube roots of the first sixty-four primes. *)
Definition K : list Z :=
  Eval cbv in map (fun p => cbrt (p * 2 ^ 96) mod 2 ^ 32) primes.

(** The initial hash value: the first thirty-two bits of the fractional parts
    of the square roots of the first eight primes. *)
Definition H0 : list Z :=
  Eval cbv in map (fun p => Z.sqrt (p * 2 ^ 64) mod 2 ^ 32) (firstn 8 primes).

(** Big-endian bytes of a number, [n] of them. *)
Fixpoint be_bytes (n : nat) (x : Z) : list Z :=
  match n with
  | O => []
  | S k => (Z.shiftr x (8 * Z.of_nat k) mod 256) :: be_bytes k x
  end.

(** The message followed by the bit 1, zeros up to 56 modulo 64 bytes, and
    the bit length on 8 bytes. *)
Definition pad (msg : list Z) : list Z :=
  let len := Z.of_nat (List.length msg) in
  let zeros := Z.to_nat ((55 - len) mod 64) in
  (msg ++ 0x80 :: repeat 0 zeros ++ be_bytes 8 (8 * len))%list.

(** Words of a byte string, four bytes each, big-endian. *)
Fixpoint words (fuel : nat) (l : list Z) : list Z :=
  match fuel, l with
  | S k, a :: b :: c :: d :: rest =>
      (Z.shiftl a 24 + Z.shiftl b 16 + Z.shiftl c 8 + d) :: words k rest
  | _, _ => []
  end.

(** The message schedule, most recent word first: [n] more words after the
    sixteen words of the block. *)
Fixpoint schedule (n : nat) (w : list Z) : list Z :=
  match n with
  | O => w
  | S k =>
      let next :=
        w32 (smallSigma1 (nth 1 w 0) + nth 6 w 0 + smallSigma0 (nth 14 w 0) + nth 15 w 0) in
      schedule k (next :: w)
  end.

Definition round (s : list Z) (kw : Z * Z) : list Z :=
  match s with
  | [a; b; c; d; e; f; g; h] =>
      let t1 := h + bigSigma1 e + Ch e f g + fst kw + snd kw in
      let t2 := bigSigma0 a + Maj a b c in
      [w32 (t1 + t2); a; b; c; w32 (d + t1); e; f; g]
  | _ => s
  end.

Definition compress (h : list Z) (block : list Z) : list Z :=
  let w := rev (schedule 48 (rev block)) in
  let s := fold_left round (combine K w) h in
  map (fun p => w32 (fst p + snd p)) (combine h s).

(** The blocks of a padded message, sixteen words each. *)
Fixpoint blocks (fuel : nat) (ws : list Z) : list (list Z) :=
  match fuel, ws with
  | _, [] => []
  | O, _ => []
  | S k, _ => firstn 16 ws :: blocks k (skipn 16 ws)
  end.

Definition digest (msg : list Z) : list Z :=
  let p := pad msg in
  let ws := words (List.length p) p in
  let h := fold_left compress (blocks (List.length ws) ws) H0 in
  flat_map (be_bytes 4) h.

(** [sha256.Sum256]. *)
Definition Sum256 (msg : bytes) : bytes :=
  map (fun z => match Byte.of_N (Z.to_N z) with Some b => b | None => x00 end)
      (digest (map (fun b => Z.of_N (Byte.to_N b)) msg)).

End Sha256.

(* ================================================================== *)
(** ** Block execution *)
(* ================================================================== *)

(** The places where [internalFinalizeBlock] polls the caller's context. *)
Inductive YieldPoint : Type :=
| AfterBeginBlock
| AfterTx (i : nat)
| AfterEndBlock.

(** The caller's [context.Context], as the block executor sees it: whether
    [ctx.Done()] is closed when a given yield point polls it, and the error
    [ctx.Err()] reports once it is. *)
Record CallerContext : Type := {
  Done : YieldPoint -> bool;
  Err : ContextError
}.

(** [context.Background()]: never done. *)
Definition Background : CallerContext :=
  {| Done := fun _ => false; Err := Canceled |}.

(** The result pair [( *abci.ResponseFinalizeBlock, error)]. *)
Definition FinalizeResult : Type := (option ResponseFinalizeBlock.t * option error)%type.

(** The response for one raw transaction, lines 1049-1064. *)
Definition txResponse (app : BaseApp) (rawTx : bytes) (st : state)
  : outcome (ExecTxResult.t * state) :=
  match txDecoder app rawTx with
  | inl _ => deliverTx app rawTx st
  | inr _ =>
      (* a malformed transaction still gets a response *)
      Return (ResponseExecTxResultWithEvents (Registered ErrTxDecode) 0 0 [] false, st)
  end.

(** The transaction loop, lines 1046-1075: [i] is the index of the first
    transaction of [txs] in the request, [txResults] the results so far. *)
Fixpoint executeTxs (app : BaseApp) (cctx : CallerContext) (txs : list bytes)
    (i : nat) (st : state) (txResults : list ExecTxResult.t)
  : outcome ((list ExecTxResult.t + error) * state) :=
  match txs with
  | [] => Return (inl txResults, st)
  | rawTx :: rest =>
      '(response, st) <- txResponse app rawTx st ;;
      (* check after every tx if we should abort *)
      if Done cctx (AfterTx i)
      then Return (inr (CtxError (Err cctx)), st)
      else executeTxs app cctx rest (S i) st (txResults ++ [response])%list
  end.

Definition finalizeHeader (app : BaseApp) (req : RequestFinalizeBlock.t) : Header.t :=
  {| Header.ChainID := chainID app;
     Header.Height := RequestFinalizeBlock.Height req;
     Header.Time := RequestFinalizeBlock.Time req;
     Header.ProposerAddress := RequestFinalizeBlock.ProposerAddress req;
     Header.NextValidatorsHash := RequestFinalizeBlock.NextValidatorsHash req;
     Header.AppHash := CommitID.Hash (LastCommitID app) |}.

(** The finalize context after line 984-1002. *)
Definition finalizeContext (app : BaseApp) (req : RequestFinalizeBlock.t)
    (cp : option ConsensusParams.t) (c : Context) : Context :=
  WithCometInfo
    {| Misbehavior_ := RequestFinalizeBlock.Misbehaviors req;
       ValidatorsHash := RequestFinalizeBlock.NextValidatorsHash req;
       CometProposerAddress := RequestFinalizeBlock.ProposerAddress req;
       LastCommit := RequestFinalizeBlock.DecidedLastCommit req |}
    (WithExecMode ExecModeFinalize
       (WithVoteInfos (Votes (RequestFinalizeBlock.DecidedLastCommit req))
          (WithConsensusParams cp
             (WithHeaderInfo
                {| InfoChainID := chainID app;
                   InfoHeight := RequestFinalizeBlock.Height req;
                   InfoTime := RequestFinalizeBlock.Time req;
                   InfoHash := RequestFinalizeBlock.Hash req;
                   InfoAppHash := CommitID.Hash (LastCommitID app) |}
                (WithHeaderHash (RequestFinalizeBlock.Hash req)
                   (WithBlockHeader (finalizeHeader app req) c)))))).

(** Lines 967-1012 of [internalFinalizeBlock]: the finalize state is created
    when it is missing (block replay), its context receives the header, the
    consensus parameters in effect and a block gas meter, and the check
    state, when there is one, receives the gas meter and the header hash.
    The result is the application and the finalize state it now holds. *)
Definition prepareFinalizeState (req : RequestFinalizeBlock.t) (app : BaseApp)
  : outcome (BaseApp * state) :=
  let header := finalizeHeader app req in
  (* the state is set on InitChain or ProcessProposal; it is nil on replay *)
  app <- match finalizeBlockState app with
         | None => setState execModeFinalize header app
         | Some _ => Return app
         end ;;
  st <- deref (finalizeBlockState app) ;;
  cp <- GetConsensusParams app st ;;
  let st := SetContext (finalizeContext app req cp (Context_of st)) st in
  (* the gas meter is set after the context has the consensus params *)
  gasMeter <- getBlockGasMeter app st ;;
  let st := SetContext (WithBlockGasMeter gasMeter (Context_of st)) st in
  let app :=
    match checkState app with
    | Some cs =>
        set_checkState
          (Some (SetContext
                   (WithHeaderHash (RequestFinalizeBlock.Hash req)
                      (WithBlockGasMeter gasMeter (Context_of cs))) cs)) app
    | None => app
    end in
  Return (set_finalizeBlockState (Some st) app, st).

(** Lines 1014-1100 of [internalFinalizeBlock]: the stages of the block, run
    on the finalize state [st] of the application.  The result pair comes
    with the finalize state as the stages left it. *)
Definition runStages (cctx : CallerContext) (req : RequestFinalizeBlock.t)
    (app : BaseApp) (st : state) : outcome (FinalizeResult * state) :=
  '(pre, st) <- preBlock app req st ;;
  match pre with
  | inr err => Return ((None, Some err), st)
  | inl preblockEvents =>
  let events := preblockEvents in
  '(bb, st) <- beginBlock app req st ;;
  match bb with
  | inr err => Return ((None, Some err), st)
  | inl beginBlock =>
  (* first check for an abort signal after beginBlock *)
  if Done cctx AfterBeginBlock
  then Return ((None, Some (CtxError (Err cctx))), st)
  else
  let events := (events ++ BeginBlockEvents beginBlock)%list in
  (* reset the gas meter *)
  gasMeter <- getBlockGasMeter app st ;;
  let st := SetContext (WithBlockGasMeter gasMeter (Context_of st)) st in
  '(txs, st) <- executeTxs app cctx (RequestFinalizeBlock.Txs req) 0 st [] ;;
  match txs with
  | inr err => Return ((None, Some err), st)
  | inl txResults =>
  '(eb, st) <- endBlock app st ;;
  match eb with
  | inr err => Return ((None, Some err), st)
  | inl endBlock =>
  (* check after endBlock if we should abort *)
  if Done cctx AfterEndBlock
  then Return ((None, Some (CtxError (Err cctx))), st)
  else
  let events := (events ++ EndBlockEvents endBlock)%list in
  cp <- GetConsensusParams app st ;;
  Return
    ((Some {| ResponseFinalizeBlock.Events := events;
              ResponseFinalizeBlock.TxResults := txResults;
              ResponseFinalizeBlock.ValidatorUpdates := EndBlockValidatorUpdates endBlock;
              ResponseFinalizeBlock.ConsensusParamUpdates := cp;
              ResponseFinalizeBlock.AppHash := None |},
      None), st)
  end end end end.

(** [internalFinalizeBlock]. *)
Definition internalFinalizeBlock (cctx : CallerContext) (req : RequestFinalizeBlock.t)
    (app : BaseApp) : outcome (FinalizeResult * BaseApp) :=
  match checkHalt app (RequestFinalizeBlock.Height req) (RequestFinalizeBlock.Time req) with
  | Some err => Return ((None, Some err), app)
  | None =>
  match validateFinalizeBlockHeight app req with
  | Some err => Return ((None, Some err), app)
  | None =>
      '(app, st) <- prepareFinalizeState req app ;;
      '(r, st) <- runStages cctx req app st ;;
      Return (r, set_finalizeBlockState (Some st) app)
  end end.

(** What the specification asks of the slot of a raw transaction: the
    synthetic decode failure when the transaction does not decode, the result
    of the executor on the transaction otherwise. *)
Definition decodeFailure : ExecTxResult.t :=
  ResponseExecTxResultWithEvents (Registered ErrTxDecode) 0 0 [] false.

Definition slotHolds (app : BaseApp) (rawTx : bytes) (r : ExecTxResult.t) : Prop :=
  match txDecoder app rawTx with
  | inr _ => r = decodeFailure
  | inl _ => exists st st', deliverTx app rawTx st = Return (r, st')
  end.

(** The yield points of a request: after begin-block, after each of its
    transactions, after end-block. *)
Definition yieldPointOf (req : RequestFinalizeBlock.t) (y : YieldPoint) : Prop :=
  match y with
  | AfterTx i => (i < List.length (RequestFinalizeBlock.Txs req))%nat
  | _ => True
  end.

(** The collaborators of a block run neither fail nor panic: the parameter
    store can be read, the effective maximum block gas is at least -1, the
    three block hooks return their events and the executor returns a result
    for every transaction. *)
Record stagesSucceed (app : BaseApp) (req : RequestFinalizeBlock.t) : Prop := {
  params_readable : forall st, exists cp, GetConsensusParams app st = Return cp;
  gas_meter_built : forall st, exists g, getBlockGasMeter app st = Return g;
  preBlock_ok : forall st, exists ev st', preBlock app req st = Return (inl ev, st');
  beginBlock_ok : forall st, exists bb st', beginBlock app req st = Return (inl bb, st');
  endBlock_ok : forall st, exists eb st', endBlock app st = Return (inl eb, st');
  deliverTx_ok : forall raw st, exists r st', deliverTx app raw st = Return (r, st')
}.

(** [workingHash]: the finalize branch is written into the root multistore,
    whose working hash is the application hash of the block. *)
Definition workingHash (app : BaseApp) : outcome (option bytes * BaseApp) :=
  st <- deref (finalizeBlockState app) ;;
  let root := Store.Write (ms st) (cms app) in
  let st := {| ms := Store.CacheMultiStore root; ctx := ctx st |} in
  let app := set_finalizeBlockState (Some st) (set_cms root app) in
  Return (Store.WorkingHash root, app).

(** What [FinalizeBlock] does with the outcome of [internalFinalizeBlock],
    lines 1130-1134 for a run of the optimistic execution that was not
    aborted and lines 1144-1148 for a run in the calling goroutine:
    [if res != nil { res.AppHash = app.workingHash() }; return res, err]. *)
Definition attachWorkingHash (r : FinalizeResult) (app : BaseApp)
  : outcome (FinalizeResult * BaseApp) :=
  match fst r with
  | Some res =>
      '(h, app) <- workingHash app ;;
      Return ((Some (ResponseFinalizeBlock.withAppHash h res), snd r), app)
  | None => Return (r, app)
  end.

(** A block run followed by the step above. *)
Definition finalizeAndHash (cctx : CallerContext) (req : RequestFinalizeBlock.t)
    (app : BaseApp) : outcome (FinalizeResult * BaseApp) :=
  '(r, app) <- internalFinalizeBlock cctx req app ;;
  attachWorkingHash r app.

(* ================================================================== *)
(** ** Chain initialisation *)
(* ================================================================== *)

Definition bytes_eqb (a b : bytes) : bool :=
  if list_eq_dec Byte.byte_eq_dec a b then true else false.

Definition PublicKey_eqb (a b : PublicKey) : bool :=
  match a, b with
  | NoKey, NoKey => true
  | Ed25519 x, Ed25519 y => bytes_eqb x y
  | Secp256K1 x, Secp256K1 y => bytes_eqb x y
  | _, _ => false
  end.

(** [proto.Equal] on validator updates: the same key and the same power. *)
Definition ValidatorUpdate_eqb (a b : ValidatorUpdate) : bool :=
  PublicKey_eqb (PubKey a) (PubKey b) && (Power a =? Power b).

(** The loop of lines 97-101 over the sorted lists: the index of the first
    position where the initializer's validator differs from the request's;
    reading the request's list past its end is an index out of range. *)
Fixpoint compareValidators (i : nat) (resV reqV : list ValidatorUpdate) : outcome unit :=
  match resV with
  | [] => Return tt
  | r :: resV' =>
      match reqV with
      | [] => Panic "runtime error: index out of range"
      | q :: reqV' =>
          if ValidatorUpdate_eqb r q
          then compareValidators (S i) resV' reqV'
          else Panic ("genesisValidators[" ++ itoa (Z.of_nat i) ++ "] != req.Validators["
                      ++ itoa (Z.of_nat i) ++ "] ")
      end
  end.

Section InitChain.

(** [sort.Sort(abci.ValidatorUpdates(l))]: the canonical order belongs to the
    consensus engine's library and the sorting algorithm to the standard
    library; the initialisation is stated for any sorting function. *)
Variable sortValidatorUpdates : list ValidatorUpdate -> list ValidatorUpdate.

(** The sanity check of lines 84-102; the initializer's validators come back
    sorted when the check ran, as the sort is in place. *)
Definition checkGenesisValidators (reqV resV : list ValidatorUpdate)
  : outcome (list ValidatorUpdate) :=
  if 0 <? Z.of_nat (List.length reqV)
  then
    if negb (Z.of_nat (List.length reqV) =? Z.of_nat (List.length resV))
    then Panic ("len(RequestInitChain.Validators) != len(GenesisValidators) ("
                ++ itoa (Z.of_nat (List.length reqV)) ++ " != "
                ++ itoa (Z.of_nat (List.length resV)) ++ ")")
    else
      let reqV := sortValidatorUpdates reqV in
      let resV := sortValidatorUpdates resV in
      _ <- compareValidators 0 resV reqV ;;
      Return resV
  else Return resV.

(** The application hash of lines 104-114. *)
Definition initChainAppHash (app : BaseApp) : option bytes :=
  if negb (CommitID.IsZero (LastCommitID app))
  then CommitID.Hash (LastCommitID app)
  else Some (Sha256.Sum256 []).

(** [InitChain]. *)
Definition InitChain (app : BaseApp) (req : RequestInitChain.t)
  : outcome (ResponseInitChain.t * BaseApp) :=
  if negb (RequestInitChain.ChainId req =? chainID app)%string
  then Panic ("invalid chain-id on InitChain; expected: " ++ chainID app
              ++ ", got: " ++ RequestInitChain.ChainId req)
  else
    (* on a new chain the init chain block height is 0 *)
    let initHeader :=
      {| Header.ChainID := RequestInitChain.ChainId req; Header.Height := 0;
         Header.Time := RequestInitChain.Time req; Header.ProposerAddress := None;
         Header.NextValidatorsHash := None; Header.AppHash := None |} in
    let app := set_initialHeight (RequestInitChain.InitialHeight req) app in
    (* an initial height above 1 sets the initial version on all stores *)
    '(initHeader, app) <-
      (if 1 <? RequestInitChain.InitialHeight req
       then
         match Store.SetInitialVersion (RequestInitChain.InitialHeight req) (cms app) with
         | (_, Some err) => Panic (Error err)
         | (root, None) =>
             Return
               ({| Header.ChainID := RequestInitChain.ChainId req;
                   Header.Height := RequestInitChain.InitialHeight req;
                   Header.Time := RequestInitChain.Time req;
                   Header.ProposerAddress := None;
                   Header.NextValidatorsHash := None; Header.AppHash := None |},
                set_cms root app)
         end
       else Return (initHeader, app)) ;;
    (* initialize states with a correct header *)
    app <- setState execModeFinalize initHeader app ;;
    app <- setState runTxModeCheck initHeader app ;;
    app <- match RequestInitChain.ConsensusParams req with
           | Some cp =>
               st <- deref (finalizeBlockState app) ;;
               st <- StoreConsensusParams app st (Some cp) ;;
               Return (set_finalizeBlockState (Some st) app)
           | None => Return app
           end ;;
    match initChainer app with
    | None => Return (ResponseInitChain.zero, app)
    | Some initChainer =>
        (* genesis transactions get an infinite block gas meter *)
        st <- deref (finalizeBlockState app) ;;
        let st := SetContext (WithBlockGasMeter InfiniteGasMeter (Context_of st)) st in
        let app := set_finalizeBlockState (Some st) app in
        '(res, branch) <- initChainer st req ;;
        let app := set_finalizeBlockState (Some {| ms := branch; ctx := ctx st |}) app in
        (* sanity check *)
        validators <- checkGenesisValidators (RequestInitChain.Validators req)
                        (ResponseInitChain.Validators res) ;;
        Return
          ({| ResponseInitChain.ConsensusParams := ResponseInitChain.ConsensusParams res;
              ResponseInitChain.Validators := validators;
              ResponseInitChain.AppHash := initChainAppHash app |},
           app)
    end.

(** A mismatch between the request's and the initializer's validators after
    sorting, in the words of the specification: different lengths, or some
    position where the two sorted lists hold different validators. *)
Definition validatorsMismatch (reqV resV : list ValidatorUpdate) : Prop :=
  List.length reqV <> List.length resV
  \/ exists i a b,
       nth_error (sortValidatorUpdates resV) i = Some a
       /\ nth_error (sortValidatorUpdates reqV) i = Some b
       /\ a <> b.

End InitChain.

(** [e3b0c44298fc1c149afbf4c8996fb92427ae41e4649b934ca495991b7852b855], the
    digest the source quotes for the empty input. *)
Definition emptyHash : bytes :=
  [xe3; xb0; xc4; x42; x98; xfc; x1c; x14; x9a; xfb; xf4; xc8; x99; x6f; xb9; x24;
   x27; xae; x41; xe4; x64; x9b; x93; x4c; xa4; x95; x99; x1b; x78; x52; xb8; x55].

(* ================================================================== *)
(** ** Queries *)
(* ================================================================== *)

(** Supported ABCI Query prefixes. *)
Definition QueryPathApp : string := "app".
Definition QueryPathCustom : string := "custom".
Definition QueryPathP2P : string := "p2p".
Definition QueryPathStore : string := "store".

Definition setHeight (h : Z) (req : RequestQuery.t) : RequestQuery.t :=
  {| RequestQuery.Data := RequestQuery.Data req;
     RequestQuery.Path := RequestQuery.Path req;
     RequestQuery.Height := h;
     RequestQuery.Prove := RequestQuery.Prove req |}.

Definition setPath (p : string) (req : RequestQuery.t) : RequestQuery.t :=
  {| RequestQuery.Data := RequestQuery.Data req;
     RequestQuery.Path := p;
     RequestQuery.Height := RequestQuery.Height req;
     RequestQuery.Prove := RequestQuery.Prove req |}.

(** [FilterPeerByAddrPort]. *)
Definition FilterPeerByAddrPort (app : BaseApp) (info : string) : outcome ResponseQuery.t :=
  match addrPeerFilter app with
  | Some f => f info
  | None => Return ResponseQuery.zero
  end.

(** [FilterPeerByID]. *)
Definition FilterPeerByID (app : BaseApp) (info : string) : outcome ResponseQuery.t :=
  match idPeerFilter app with
  | Some f => f info
  | None => Return ResponseQuery.zero
  end.

(** [codes.Unknown], the gRPC code of an error registered without one. *)
Definition codeUnknown : GRPCCode := CodeOther "Unknown".

(** [grpcstatus.FromError err] for a non-nil error: the code of the status the
    error carries, [None] when it carries none ([ok] false).  A gRPC status
    error carries its own status.  The errors of the sdk registry implement
    [GRPCStatus()]: a root reports the gRPC code it was registered with, which
    is [codes.Unknown] for every root of [SdkError] (they are registered with
    [Register], none with [RegisterWithGRPCCode]); a wrapping reports the
    status of the first error of its chain that has one, and [codes.Unknown]
    when the chain has none.  An error of [fmt], of a context or of another
    collaborator has no such method. *)
Fixpoint FromError (err : error) : option GRPCCode :=
  match err with
  | StatusError code _ => Some code
  | Registered _ => Some codeUnknown
  | Wrap parent _ =>
      match FromError parent with
      | Some code => Some code
      | None => Some codeUnknown
      end
  | Errorf _ | CtxError _ | External _ => None
  end.

(** [gRPCErrorToSDKError]. *)
Definition gRPCErrorToSDKError (err : error) : error :=
  match FromError err with
  | None => Wrap (Registered ErrInvalidRequest) (Error err)
  | Some code =>
      match code with
      | CodeNotFound => Wrap (Registered ErrKeyNotFound) (Error err)
      | CodeInvalidArgument => Wrap (Registered ErrInvalidRequest) (Error err)
      | CodeFailedPrecondition => Wrap (Registered ErrInvalidRequest) (Error err)
      | CodeUnauthenticated => Wrap (Registered ErrUnauthorized) (Error err)
      | CodeOther _ => Wrap (Registered ErrUnknownRequest) (Error err)
      end
  end.

Definition errNegativeHeight : error :=
  Wrap (Registered ErrInvalidRequest)
    "cannot query with height < 0; please provide a valid height".

Definition errNotReady (app : BaseApp) : error :=
  Wrap (Registered ErrInvalidHeight)
    (Name app ++ " is not ready; please wait for first block").

Definition errFutureHeight : error :=
  Wrap (Registered ErrInvalidHeight)
    "cannot query with height in the future; please provide a valid height".

Definition errProofHeight : error :=
  Wrap (Registered ErrInvalidRequest)
    "cannot query with proof when height <= 1; please provide a valid height".

(** [checkNegativeHeight]. *)
Definition checkNegativeHeight (height : Z) : option error :=
  if height <? 0 then Some errNegativeHeight (* reject invalid heights *)
  else None.

(** The multistore queries read: the custom query multistore if provided. *)
Definition queryMultiStore (app : BaseApp) : Store.t :=
  match qms app with
  | Some q => q
  | None => cms app
  end.

(** [CreateQueryContext]: the context of a query and the branch it reads, or
    an error. *)
Definition CreateQueryContext (app : BaseApp) (height : Z) (prove : bool)
  : outcome (state + error) :=
  match checkNegativeHeight height with
  | Some err => Return (inr err)
  | None =>
      let qms := queryMultiStore app in
      let lastBlockHeight := Store.LatestVersion qms in
      if lastBlockHeight =? 0 then Return (inr (errNotReady app))
      else if lastBlockHeight <? height then Return (inr errFutureHeight)
      else
        (* when a client did not provide a query height, inject the latest *)
        let height := if height =? 0 then lastBlockHeight else height in
        if (height <=? 1) && prove then Return (inr errProofHeight)
        else
          match Store.CacheMultiStoreWithVersion height qms with
          | inr err =>
              Return (inr (Wrap (Registered ErrInvalidRequest)
                             ("failed to load state at height " ++ itoa height ++ "; "
                              ++ Error err ++ " (latest height: "
                              ++ itoa lastBlockHeight ++ ")")))
          | inl cacheMS =>
              (* branch the commit-multistore for safety *)
              cs <- deref (checkState app) ;;
              let c := WithBlockHeight height
                         (WithMinGasPrices (minGasPrices app)
                            (NewContext (header (ctx cs)) true)) in
              let c :=
                if negb (height =? lastBlockHeight)
                then match Store.commitTimestamp (cms app) height with
                     | Some t => WithBlockTime t c
                     | None => c
                     end
                else c in
              Return (inl {| ms := cacheMS; ctx := c |})
          end
  end.

(** [handleQueryGRPC]. *)
Definition handleQueryGRPC (app : BaseApp) (handler : GRPCQueryHandler)
    (req : RequestQuery.t) : outcome ResponseQuery.t :=
  r <- CreateQueryContext app (RequestQuery.Height req) (RequestQuery.Prove req) ;;
  match r with
  | inr err => Return (QueryResult err (trace app))
  | inl qctx =>
      hr <- handler qctx req ;;
      match hr with
      | inr err =>
          Return (ResponseQuery.withHeight (RequestQuery.Height req)
                    (QueryResult (gRPCErrorToSDKError err) (trace app)))
      | inl res => Return res
      end
  end.

(** [codec.ProtoMarshalJSON] with the application's interface registry. *)
Definition ProtoMarshalJSON (simRes : SimulationResponse)
    (registry : SimulationResponse -> option bytes + error) : option bytes + error :=
  registry simRes.

(** [handleQueryApp]. *)
Definition handleQueryApp (app : BaseApp) (path : list string) (req : RequestQuery.t)
  : outcome ResponseQuery.t :=
  match path with
  | _ :: second :: _ =>
      if (second =? "simulate")%string then
        let txBytes := RequestQuery.Data req in
        sim <- Simulate app txBytes ;;
        match sim with
        | inr err =>
            Return (QueryResult (Wrap err "failed to simulate tx") (trace app))
        | inl (gInfo, res) =>
            let simRes := {| SimGasInfo := gInfo; SimResult := res |} in
            match ProtoMarshalJSON simRes (interfaceRegistry app) with
            | inr err =>
                Return (QueryResult
                          (Wrap err "failed to JSON encode simulation response")
                          (trace app))
            | inl bz =>
                Return {| ResponseQuery.Code := 0; ResponseQuery.Log := "";
                          ResponseQuery.Key := None; ResponseQuery.Value := bz;
                          ResponseQuery.Height := RequestQuery.Height req;
                          ResponseQuery.Codespace := RootCodespace |}
            end
        end
      else if (second =? "version")%string then
        Return {| ResponseQuery.Code := 0; ResponseQuery.Log := "";
                  ResponseQuery.Key := None;
                  ResponseQuery.Value := Some (list_byte_of_string (version app));
                  ResponseQuery.Height := RequestQuery.Height req;
                  ResponseQuery.Codespace := RootCodespace |}
      else
        Return (QueryResult
                  (Wrap (Registered ErrUnknownRequest)
                     ("unknown query: [" ++ join " " path ++ "]"))
                  (trace app))
  | _ =>
      Return (QueryResult
                (Wrap (Registered ErrUnknownRequest)
                   "expected second parameter to be either 'simulate' or 'version', neither was present")
                (trace app))
  end.

(** [handleQueryStore]. *)
Definition handleQueryStore (app : BaseApp) (path : list string) (req : RequestQuery.t)
  : outcome ResponseQuery.t :=
  (* "/store" prefix for store queries *)
  match Store.queryable (cms app) with
  | None =>
      Return (QueryResult
                (Wrap (Registered ErrUnknownRequest) "multistore doesn't support queries")
                (trace app))
  | Some queryable =>
      let req := setPath ("/" ++ join "/" (tl path)) req in
      if (RequestQuery.Height req <=? 1) && RequestQuery.Prove req
      then Return (QueryResult errProofHeight (trace app))
      else
        resp <- queryable req ;;
        Return (ResponseQuery.withHeight (RequestQuery.Height req) resp)
  end.

(** [handleQueryP2P]. *)
Definition handleQueryP2P (app : BaseApp) (path : list string) : outcome ResponseQuery.t :=
  (* "/p2p" prefix for p2p queries *)
  match path with
  | _ :: cmd :: typ :: arg :: _ =>
      if (cmd =? "filter")%string then
        if (typ =? "addr")%string then FilterPeerByAddrPort app arg
        else if (typ =? "id")%string then FilterPeerByID app arg
        else Return ResponseQuery.zero (* [var resp abci.ResponseQuery], never assigned *)
      else
        Return (QueryResult
                  (Wrap (Registered ErrUnknownRequest)
                     "expected second parameter to be 'filter'")
                  (trace app))
  | _ =>
      Return (QueryResult
                (Wrap (Registered ErrUnknownRequest)
                   "path should be p2p filter <addr|id> <parameter>")
                (trace app))
  end.

(** [SplitABCIQueryPath]. *)
Definition SplitABCIQueryPath (requestPath : string) : list string :=
  let path := split_slash requestPath in
  (* first element is empty string *)
  match path with
  | first :: rest => if (first =? "")%string then rest else path
  | [] => path
  end.

Definition broadcastTxPath : string := "/cosmos.tx.v1beta1.Service/BroadcastTx".

(** The height [Query] works with: the latest committed height when the
    client did not provide one. *)
Definition resolveHeight (app : BaseApp) (req : RequestQuery.t) : RequestQuery.t :=
  if RequestQuery.Height req =? 0
  then setHeight (LastBlockHeight app) req
  else req.

(** The body of [Query], below its deferred recovery. *)
Definition queryBody (app : BaseApp) (req : RequestQuery.t) : outcome ResponseQuery.t :=
  (* when a client did not provide a query height, manually inject the latest *)
  let req := resolveHeight app req in
  if (RequestQuery.Path req =? broadcastTxPath)%string
  then Return (QueryResult
                 (Wrap (Registered ErrInvalidRequest) "can't route a broadcast tx message")
                 (trace app))
  else
    (* gRPC routes first: '/' characters are part of gRPC paths *)
    match grpcQueryRouter app (RequestQuery.Path req) with
    | Some grpcHandler => handleQueryGRPC app grpcHandler req
    | None =>
        let path := SplitABCIQueryPath (RequestQuery.Path req) in
        match path with
        | [] =>
            Return (QueryResult
                      (Wrap (Registered ErrUnknownRequest) "no query path provided")
                      (trace app))
        | first :: _ =>
            if (first =? QueryPathApp)%string then handleQueryApp app path req
            else if (first =? QueryPathStore)%string then handleQueryStore app path req
            else if (first =? QueryPathP2P)%string then handleQueryP2P app path
            else Return (QueryResult
                           (Wrap (Registered ErrUnknownRequest) "unknown query path")
                           (trace app))
        end
    end.

(** A request that [Query] hands to a registered gRPC handler. *)
Definition grpcRouted (app : BaseApp) (req : RequestQuery.t) (h : GRPCQueryHandler) : Prop :=
  RequestQuery.Path req <> broadcastTxPath
  /\ grpcQueryRouter app (RequestQuery.Path req) = Some h.

(** A request that [Query] hands to the store. *)
Definition storeRouted (app : BaseApp) (req : RequestQuery.t) : Prop :=
  RequestQuery.Path req <> broadcastTxPath
  /\ grpcQueryRouter app (RequestQuery.Path req) = None
  /\ exists rest, SplitABCIQueryPath (RequestQuery.Path req) = QueryPathStore :: rest.

(** [Query]: the body under [defer func() { if r := recover(); r != nil {...} }()]. *)
Definition Query (app : BaseApp) (req : RequestQuery.t) : ResponseQuery.t :=
  recover_with
    (fun r => QueryResult (Wrap (Registered ErrPanic) r) (trace app))
    (queryBody app req).

(* ================================================================== *)
(** ** A concrete application *)
(* ================================================================== *)

(** A small application on which the statements below are exercised: one
    registered gRPC route, a decoder that rejects the empty transaction,
    hooks that succeed and emit one event each, and a parameter store that
    holds an evidence age of 100 000 blocks. *)
Module Example.

Definition store (version : Z) (hash : option bytes) : Store.t :=
  {| Store.lastCommitID := {| CommitID.Version := version; CommitID.Hash := hash |};
     Store.initialVersion := 0;
     Store.contents := [];
     Store.history := [(version, [])];
     Store.hashOf := fun kv => flat_map snd kv;
     Store.setInitialVersionErr := None;
     Store.commitTimestamp := fun _ => None;
     Store.queryable := None |}.

Definition evidence : EvidenceParams.t :=
  {| EvidenceParams.MaxAgeNumBlocks := 100000;
     EvidenceParams.MaxAgeDuration := None;
     EvidenceParams.MaxBytes := 10000 |}.

Definition params : ConsensusParams.t :=
  {| ConsensusParams.Block :=
       Some {| BlockParams.MaxBytes := 200000; BlockParams.MaxGas := -1;
               BlockParams.TimeIotaMs := 0 |};
     ConsensusParams.Evidence := Some evidence;
     ConsensusParams.Validator := None;
     ConsensusParams.Version := None |}.

Definition parameterStore : ParamStore :=
  {| Get := fun _ => inl (Some params);
     Set_ := fun st _ => ms st |}.

Definition event (name : string) : Event :=
  {| EventType := name; Attributes := [] |}.

Definition decoder : TxDecoder :=
  fun raw =>
    match raw with
    | [] => inr (Wrap (Registered ErrTxDecode) "empty tx")
    | _ => inl ["msg"]
    end.

Definition okResult : ExecTxResult.t :=
  {| ExecTxResult.Code := 0; ExecTxResult.Data := None; ExecTxResult.Log := "";
     ExecTxResult.GasWanted := 10; ExecTxResult.GasUsed := 7;
     ExecTxResult.Events := [event "tx"]; ExecTxResult.Codespace := "" |}.

Definition balanceRoute : string := "/cosmos.bank.v1beta1.Query/Balance".

Definition balanceHandler : GRPCQueryHandler :=
  fun qctx req =>
    Return (inl {| ResponseQuery.Code := 0; ResponseQuery.Log := "";
                   ResponseQuery.Key := None; ResponseQuery.Value := Some [x2a];
                   ResponseQuery.Height := Header.Height (header (ctx qctx));
                   ResponseQuery.Codespace := "" |}).

Definition panicRoute : string := "/cosmos.bank.v1beta1.Query/Broken".

Definition panicHandler : GRPCQueryHandler :=
  fun _ _ => Panic "nil map".

Definition modeState (root : Store.t) : state :=
  {| ms := Store.CacheMultiStore root; ctx := NewContext Header.zero false |}.

(** The application over a root store, with the given initializer, minimum
    of retained blocks, initial height and pre-block hook. *)
Definition app (root : Store.t) (initializer : option InitChainer)
    (minRetain initial : Z)
    (pre : RequestFinalizeBlock.t -> state -> outcome ((list Event + error) * state))
  : BaseApp :=
  {| name := "example"; version := "v1"; chainID := "example-1"; trace := false;
     cms := root; qms := None;
     initChainer := initializer;
     txDecoder := decoder;
     preBlock := pre;
     beginBlock := fun _ st => Return (inl {| BeginBlockEvents := [event "begin"] |}, st);
     endBlock := fun st =>
       Return (inl {| EndBlockValidatorUpdates := [];
                      EndBlockEvents := [event "end"] |}, st);
     deliverTx := fun raw st =>
       Return (okResult,
               {| ms := {| parent := parent (ms st);
                           writes := ("tx", raw) :: writes (ms st) |};
                  ctx := ctx st |});
     Simulate := fun _ => Return (inr (Registered ErrTxDecode));
     interfaceRegistry := fun _ => inl None;
     grpcQueryRouter := fun p =>
       if (p =? balanceRoute)%string then Some balanceHandler
       else if (p =? panicRoute)%string then Some panicHandler
       else None;
     addrPeerFilter := None; idPeerFilter := None;
     paramStore := Some parameterStore;
     snapshotManager := None;
     checkState := Some (modeState root);
     prepareProposalState := None; processProposalState := None;
     finalizeBlockState := Some (modeState root);
     initialHeight := initial; minRetainBlocks := minRetain;
     haltHeight := 0; haltTime := 0; minGasPrices := "" |}.

Definition preOk : RequestFinalizeBlock.t -> state -> outcome ((list Event + error) * state) :=
  fun _ st => Return (inl [event "pre"], st).

Definition preFails : RequestFinalizeBlock.t -> state -> outcome ((list Event + error) * state) :=
  fun _ st => Return (inr (External "pre-block failed"), st).

(** An application at version 7 whose operator retains [m] blocks. *)
Definition retaining (m : Z) : BaseApp := app (store 7 None) None m 1 preOk.

(** Its finalize state. *)
Definition retainingState : state := modeState (store 7 None).

(** An application that has committed nothing. *)
Definition fresh : BaseApp := app (store 0 None) None 0 1 preOk.

(** An application whose last commit is version 7. *)
Definition running : BaseApp := app (store 7 (Some [x01; x02])) None 0 1 preOk.

(** A caller context that is cancelled once the first transaction has run. *)
Definition cancelledAfterFirstTx : CallerContext :=
  {| Done := fun y => match y with
                      | AfterBeginBlock => false
                      | _ => true
                      end;
     Err := Canceled |}.

Definition query (path : string) (height : Z) (prove : bool) : RequestQuery.t :=
  {| RequestQuery.Data := None; RequestQuery.Path := path;
     RequestQuery.Height := height; RequestQuery.Prove := prove |}.

Definition block (height : Z) (txs : list bytes) : RequestFinalizeBlock.t :=
  {| RequestFinalizeBlock.Txs := txs;
     RequestFinalizeBlock.DecidedLastCommit := {| Round := 0; Votes := [] |};
     RequestFinalizeBlock.Misbehaviors := [];
     RequestFinalizeBlock.Hash := None;
     RequestFinalizeBlock.Height := height;
     RequestFinalizeBlock.Time := 0;
     RequestFinalizeBlock.NextValidatorsHash := None;
     RequestFinalizeBlock.ProposerAddress := None |}.

Definition genesis (initial : Z) (validators : list ValidatorUpdate) : RequestInitChain.t :=
  {| RequestInitChain.Time := 0; RequestInitChain.ChainId := "example-1";
     RequestInitChain.ConsensusParams := None;
     RequestInitChain.Validators := validators;
     RequestInitChain.AppStateBytes := None;
     RequestInitChain.InitialHeight := initial |}.

(** Insertion sort of validator updates by voting power, a stand-in for the
    canonical order. *)
Fixpoint insertByPower (v : ValidatorUpdate) (l : list ValidatorUpdate) : list ValidatorUpdate :=
  match l with
  | [] => [v]
  | w :: rest => if Power v <=? Power w then v :: l else w :: insertByPower v rest
  end.

Definition sortByPower (l : list ValidatorUpdate) : list ValidatorUpdate :=
  fold_right insertByPower [] l.

Definition validator (key : byte) (power : Z) : ValidatorUpdate :=
  {| PubKey := Ed25519 [key]; Power := power |}.

(** The example application with an initializer. *)
Definition withInitializer (root : Store.t) (f : InitChainer) : BaseApp :=
  app root (Some f) 0 1 preOk.

(** An initializer that announces the given validators. *)
Definition announce (validators : list ValidatorUpdate) : InitChainer :=
  fun st _ =>
    Return ({| ResponseInitChain.ConsensusParams := None;
               ResponseInitChain.Validators := validators;
               ResponseInitChain.AppHash := None |}, ms st).

End Example.

(* ================================================================== *)
(** ** Configuration of an application *)
(* ================================================================== *)

(** The options [SetHaltHeight] and [SetHaltTime]. *)
Definition set_halt (height time : Z) (app : BaseApp) : BaseApp :=
  {| name := name app; version := version app; chainID := chainID app;
     trace := trace app; cms := cms app; qms := qms app;
     initChainer := initChainer app; txDecoder := txDecoder app;
     preBlock := preBlock app; beginBlock := beginBlock app;
     endBlock := endBlock app; deliverTx := deliverTx app;
     Simulate := Simulate app; interfaceRegistry := interfaceRegistry app;
     grpcQueryRouter := grpcQueryRouter app;
     addrPeerFilter := addrPeerFilter app; idPeerFilter := idPeerFilter app;
     paramStore := paramStore app; snapshotManager := snapshotManager app;
     checkState := checkState app;
     prepareProposalState := prepareProposalState app;
     processProposalState := processProposalState app;
     finalizeBlockState := finalizeBlockState app;
     initialHeight := initialHeight app;
     minRetainBlocks := minRetainBlocks app; haltHeight := height;
     haltTime := time; minGasPrices := minGasPrices app |}.

(** The option [SetSnapshot]. *)
Definition set_snapshotManager (sm : option SnapshotManager) (app : BaseApp) : BaseApp :=
  {| name := name app; version := version app; chainID := chainID app;
     trace := trace app; cms := cms app; qms := qms app;
     initChainer := initChainer app; txDecoder := txDecoder app;
     preBlock := preBlock app; beginBlock := beginBlock app;
     endBlock := endBlock app; deliverTx := deliverTx app;
     Simulate := Simulate app; interfaceRegistry := interfaceRegistry app;
     grpcQueryRouter := grpcQueryRouter app;
     addrPeerFilter := addrPeerFilter app; idPeerFilter := idPeerFilter app;
     paramStore := paramStore app; snapshotManager := sm;
     checkState := checkState app;
     prepareProposalState := prepareProposalState app;
     processProposalState := processProposalState app;
     finalizeBlockState := finalizeBlockState app;
     initialHeight := initialHeight app;
     minRetainBlocks := minRetainBlocks app; haltHeight := haltHeight app;
     haltTime := haltTime app; minGasPrices := minGasPrices app |}.

(** The root multistore and the query multistore. *)
Definition set_queryable_store (root : Store.t) (q : option Store.t) (app : BaseApp) : BaseApp :=
  {| name := name app; version := version app; chainID := chainID app;
     trace := trace app; cms := root; qms := q;
     initChainer := initChainer app; txDecoder := txDecoder app;
     preBlock := preBlock app; beginBlock := beginBlock app;
     endBlock := endBlock app; deliverTx := deliverTx app;
     Simulate := Simulate app; interfaceRegistry := interfaceRegistry app;
     grpcQueryRouter := grpcQueryRouter app;
     addrPeerFilter := addrPeerFilter app; idPeerFilter := idPeerFilter app;
     paramStore := paramStore app; snapshotManager := snapshotManager app;
     checkState := checkState app;
     prepareProposalState := prepareProposalState app;
     processProposalState := processProposalState app;
     finalizeBlockState := finalizeBlockState app;
     initialHeight := initialHeight app;
     minRetainBlocks := minRetainBlocks app; haltHeight := haltHeight app;
     haltTime := haltTime app; minGasPrices := minGasPrices app |}.


(* ================================================================== *)
(** ** Path segments *)
(* ================================================================== *)

(** A text without the path delimiter. *)
Fixpoint noSlash (s : string) : bool :=
  match s with
  | EmptyString => true
  | String c rest => negb (Ascii.eqb c "/"%char) && noSlash rest
  end.

(** A list of path segments: at least one, none of them holding the
    delimiter. *)
Definition segments (l : list string) : Prop :=
  l <> [] /\ Forall (fun s => noSlash s = true) l.

(** [SetGRPCQueryRouter], as a routing function. *)
Definition set_grpcQueryRouter (router : string -> option GRPCQueryHandler)
    (app : BaseApp) : BaseApp :=
  {| name := name app; version := version app; chainID := chainID app;
     trace := trace app; cms := cms app; qms := qms app;
     initChainer := initChainer app; txDecoder := txDecoder app;
     preBlock := preBlock app; beginBlock := beginBlock app;
     endBlock := endBlock app; deliverTx := deliverTx app;
     Simulate := Simulate app; interfaceRegistry := interfaceRegistry app;
     grpcQueryRouter := router;
     addrPeerFilter := addrPeerFilter app; idPeerFilter := idPeerFilter app;
     paramStore := paramStore app; snapshotManager := snapshotManager app;
     checkState := checkState app;
     prepareProposalState := prepareProposalState app;
     processProposalState := processProposalState app;
     finalizeBlockState := finalizeBlockState app;
     initialHeight := initialHeight app;
     minRetainBlocks := minRetainBlocks app; haltHeight := haltHeight app;
     haltTime := haltTime app; minGasPrices := minGasPrices app |}.

(** [SetAddrPeerFilter] and [SetIDPeerFilter]. *)
Definition set_peerFilters (byAddr byID : option (string -> outcome ResponseQuery.t))
    (app : BaseApp) : BaseApp :=
  {| name := name app; version := version app; chainID := chainID app;
     trace := trace app; cms := cms app; qms := qms app;
     initChainer := initChainer app; txDecoder := txDecoder app;
     preBlock := preBlock app; beginBlock := beginBlock app;
     endBlock := endBlock app; deliverTx := deliverTx app;
     Simulate := Simulate app; interfaceRegistry := interfaceRegistry app;
     grpcQueryRouter := grpcQueryRouter app;
     addrPeerFilter := byAddr; idPeerFilter := byID;
     paramStore := paramStore app; snapshotManager := snapshotManager app;
     checkState := checkState app;
     prepareProposalState := prepareProposalState app;
     processProposalState := processProposalState app;
     finalizeBlockState := finalizeBlockState app;
     initialHeight := initialHeight app;
     minRetainBlocks := minRetainBlocks app; haltHeight := haltHeight app;
     haltTime := haltTime app; minGasPrices := minGasPrices app |}.

(* ================================================================== *)
(** ** Proposals *)
(* ================================================================== *)

Module RequestPrepareProposal.
Record t : Type := {
  MaxTxBytes : Z;
  Txs : list bytes;
  Height : Z;
  Time : Time;
  NextValidatorsHash : option bytes;
  ProposerAddress : option bytes
}.
End RequestPrepareProposal.

Module ResponsePrepareProposal.
Record t : Type := { Txs : list bytes }.
End ResponsePrepareProposal.

Module RequestProcessProposal.
Record t : Type := {
  Txs : list bytes;
  Hash : option bytes;
  Height : Z;
  Time : Time;
  NextValidatorsHash : option bytes;
  ProposerAddress : option bytes
}.
End RequestProcessProposal.

Inductive ProposalStatus : Type :=
| ResponseProcessProposal_UNKNOWN
| ResponseProcessProposal_ACCEPT
| ResponseProcessProposal_REJECT.

Module ResponseProcessProposal.
Record t : Type := { Status : ProposalStatus }.
End ResponseProcessProposal.

(** A proposal handler receives a context together with the multistore that
    context reads and writes, and returns its response with the multistore
    as it left it. *)
Definition PrepareProposalHandler : Type :=
  state -> RequestPrepareProposal.t -> outcome (ResponsePrepareProposal.t * CacheMultiStore).

Definition ProcessProposalHandler : Type :=
  state -> RequestProcessProposal.t -> outcome (ResponseProcessProposal.t * CacheMultiStore).

(** The fields [prepareProposal], [processProposal] and [voteInfos] of the
    application. *)
Record ProposalHandlers : Type := {
  prepareProposal : option PrepareProposalHandler;
  processProposal : option ProcessProposalHandler;
  appVoteInfos : list VoteInfo
}.

(** Modelled from the spec: [Context.WithProposer] and [Context.CacheContext]
    belong to the types package, which is not part of the sources at hand.
    The first records the proposer in the block header of the context; the
    second is the same context over a branch of its multistore, whose writes
    reach that multistore only when they are written back. *)
Definition WithProposer (addr : option bytes) (c : Context) : Context :=
  let h := header c in
  WithBlockHeader
    {| Header.ChainID := Header.ChainID h; Header.Height := Header.Height h;
       Header.Time := Header.Time h;
       Header.ProposerAddress := addr;
       Header.NextValidatorsHash := Header.NextValidatorsHash h;
       Header.AppHash := Header.AppHash h |} c.

Definition CacheContext (st : state) : state :=
  {| ms := state_CacheMultiStore st; ctx := ctx st |}.

(** [getContextForProposal]: the context of the finalize state on the first
    block, to see the changes of [InitChain]; [view] is the context of the
    proposal state with its multistore. *)
Definition getContextForProposal (app : BaseApp) (view : state) (height : Z)
  : outcome state :=
  if height =? initialHeight app
  then
    fs <- deref (finalizeBlockState app) ;;
    let view := CacheContext fs in
    (* clear all context data set during InitChain *)
    Return (SetContext (WithBlockHeader Header.zero (ctx view)) view)
  else Return view.

(** [tmproto.Header{ChainID: app.chainID}]. *)
Definition emptyHeader (app : BaseApp) : Header.t :=
  {| Header.ChainID := chainID app; Header.Height := 0; Header.Time := 0;
     Header.ProposerAddress := None; Header.NextValidatorsHash := None;
     Header.AppHash := None |}.

(** Where the writes of a proposal handler end up: in the branch of the
    proposal state, except on the first block, where the handler wrote to a
    branch of the finalize state that nobody writes back. *)
Definition proposalBranch (app : BaseApp) (height : Z) (ps : state)
    (written : CacheMultiStore) : CacheMultiStore :=
  if height =? initialHeight app then ms ps else written.

(** [PrepareProposal].  The deferred recovery is installed at line 194, after
    the context has been built; the writes of a handler that panics are not
    modelled. *)
Definition PrepareProposal (ph : ProposalHandlers) (app : BaseApp)
    (req : RequestPrepareProposal.t)
  : outcome (ResponsePrepareProposal.t * BaseApp) :=
  match prepareProposal ph with
  | None => Panic "PrepareProposal method not set"
  | Some handler =>
      (* always reset state given that PrepareProposal can timeout and be called again *)
      app <- setState runTxPrepareProposal (emptyHeader app) app ;;
      (* CometBFT must never call PrepareProposal with a height of 0 *)
      if RequestPrepareProposal.Height req <? 1
      then Panic "PrepareProposal called with invalid height"
      else
        ps <- deref (prepareProposalState app) ;;
        view <- getContextForProposal app ps (RequestPrepareProposal.Height req) ;;
        let view :=
          SetContext
            (WithProposer (RequestPrepareProposal.ProposerAddress req)
               (WithBlockTime (RequestPrepareProposal.Time req)
                  (WithBlockHeight (RequestPrepareProposal.Height req)
                     (WithVoteInfos (appVoteInfos ph) (ctx view))))) view in
        cp <- GetConsensusParams app view ;;
        gasMeter <- getBlockGasMeter app view ;;
        let view :=
          SetContext (WithBlockGasMeter gasMeter (WithConsensusParams cp (ctx view)))
            view in
        let keep (written : CacheMultiStore) :=
          set_prepareProposalState
            (Some {| ms := proposalBranch app (RequestPrepareProposal.Height req) ps written;
                     ctx := ctx view |}) app in
        match handler view req with
        | Return (resp, written) => Return (resp, keep written)
        | Panic _ =>
            (* panic recovered in PrepareProposal *)
            Return ({| ResponsePrepareProposal.Txs := RequestPrepareProposal.Txs req |},
                    keep (ms ps))
        end
  end.

(** [ProcessProposal]. *)
Definition ProcessProposal (ph : ProposalHandlers) (app : BaseApp)
    (req : RequestProcessProposal.t)
  : outcome (ResponseProcessProposal.t * BaseApp) :=
  match processProposal ph with
  | None => Panic "app.ProcessProposal is not set"
  | Some handler =>
      (* CometBFT must never call ProcessProposal with a height of 0 *)
      if RequestProcessProposal.Height req <? 1
      then Panic "ProcessProposal called with invalid height"
      else
        (* always reset state given that ProcessProposal can timeout and be called again *)
        app <- setState runTxProcessProposal (emptyHeader app) app ;;
        ps <- deref (processProposalState app) ;;
        view <- getContextForProposal app ps (RequestProcessProposal.Height req) ;;
        let view :=
          SetContext
            (WithProposer (RequestProcessProposal.ProposerAddress req)
               (WithHeaderHash (RequestProcessProposal.Hash req)
                  (WithBlockTime (RequestProcessProposal.Time req)
                     (WithBlockHeight (RequestProcessProposal.Height req)
                        (WithVoteInfos (appVoteInfos ph) (ctx view)))))) view in
        cp <- GetConsensusParams app view ;;
        gasMeter <- getBlockGasMeter app view ;;
        let view :=
          SetContext (WithBlockGasMeter gasMeter (WithConsensusParams cp (ctx view)))
            view in
        let keep (written : CacheMultiStore) :=
          set_processProposalState
            (Some {| ms := proposalBranch app (RequestProcessProposal.Height req) ps written;
                     ctx := ctx view |}) app in
        match handler view req with
        | Return (resp, written) => Return (resp, keep written)
        | Panic _ =>
            (* panic recovered in ProcessProposal *)
            Return ({| ResponseProcessProposal.Status := ResponseProcessProposal_REJECT |},
                    keep (ms ps))
        end
  end.

(** The proposal context can be built: the finalize state is there when the
    height is the initial height, the parameter store can be read and the
    block gas meter can be built. *)
Definition proposalContextBuilds (app : BaseApp) (height : Z) : Prop :=
  (height = initialHeight app -> finalizeBlockState app <> None)
  /\ (forall st, returns (GetConsensusParams app st))
  /\ (forall st, returns (getBlockGasMeter app st)).

(* ================================================================== *)
(** ** Commit *)
(* ================================================================== *)

Module ResponseCommit.
Record t : Type := { RetainHeight : Z }.
End ResponseCommit.

(** The call [app.snapshotManager.SnapshotIfApplicable(height)] that ends
    [Commit]: its receiver and its argument. *)
Record SnapshotRequest : Type := {
  snapshotReceiver : option SnapshotManager;
  snapshotHeight : Z
}.

Section Commit.

(** [rms.SetCommitHeader(header)] followed by [app.cms.Commit()]: what is
    persisted belongs to the store; the commit of the application is stated
    for any store. *)
Variable commitStore : Header.t -> Store.t -> outcome Store.t.

(** [Commit]. *)
Definition Commit (app : BaseApp)
  : outcome (ResponseCommit.t * SnapshotRequest * BaseApp) :=
  fs <- deref (finalizeBlockState app) ;;
  let header := header (Context_of fs) in
  retainHeight <- GetBlockRetentionHeight app (Header.Height header) ;;
  root <- commitStore header (cms app) ;;
  let app := set_cms root app in
  let resp := {| ResponseCommit.RetainHeight := retainHeight |} in
  (* reset the CheckTx state to the latest committed *)
  app <- setState runTxModeCheck header app ;;
  let app := set_finalizeBlockState None app in
  (* SnapshotIfApplicable creates the snapshot in a goroutine of its own *)
  Return (resp,
          {| snapshotReceiver := snapshotManager app;
             snapshotHeight := Header.Height header |},
          app).

End Commit.

(* ================================================================== *)
(** ** State sync snapshots *)
(* ================================================================== *)

(** [abci.Snapshot]. *)
Module Snapshot.
Record t : Type := {
  Height : Z;
  Format : Z;
  Chunks : Z;
  Hash : option bytes;
  Metadata : option bytes
}.
End Snapshot.

(** The sentinel errors of the snapshot types the ABCI methods test for, and
    the errors a snapshot manager returns: a sentinel, an error that wraps
    another, or some other failure.  [errorsIs] is [errors.Is] on them. *)
Inductive SnapshotSentinel : Type :=
| ErrUnknownFormat
| ErrInvalidMetadata
| ErrChunkHashMismatch.

Inductive SnapshotError : Type :=
| Sentinel (s : SnapshotSentinel)
| WrapSnapshotError (parent : SnapshotError) (description : string)
| OtherSnapshotError (msg : string).

Definition SnapshotSentinel_eqb (a b : SnapshotSentinel) : bool :=
  match a, b with
  | ErrUnknownFormat, ErrUnknownFormat => true
  | ErrInvalidMetadata, ErrInvalidMetadata => true
  | ErrChunkHashMismatch, ErrChunkHashMismatch => true
  | _, _ => false
  end.

Fixpoint errorsIs (err : SnapshotError) (target : SnapshotSentinel) : bool :=
  match err with
  | Sentinel s => SnapshotSentinel_eqb s target
  | WrapSnapshotError parent _ => errorsIs parent target
  | OtherSnapshotError _ => false
  end.

(** The methods of the snapshot manager the ABCI methods call, and the two
    conversions of the snapshot types, over the manager's own snapshot type
    [M]. *)
Record SnapshotMethods (M : Type) : Type := {
  ManagerList : list M + SnapshotError;
  ManagerLoadChunk : Z -> Z -> Z -> option bytes + SnapshotError;
  ManagerRestore : M -> option SnapshotError;
  ManagerRestoreChunk : option bytes -> bool * option SnapshotError;
  ToABCI : M -> Snapshot.t + SnapshotError;
  SnapshotFromABCI : Snapshot.t -> M + SnapshotError
}.

Module ResponseListSnapshots.
Record t : Type := { Snapshots : list Snapshot.t }.
End ResponseListSnapshots.

Module RequestLoadSnapshotChunk.
Record t : Type := { Height : Z; Format : Z; Chunk : Z }.
End RequestLoadSnapshotChunk.

Module ResponseLoadSnapshotChunk.
Record t : Type := { Chunk : option bytes }.
End ResponseLoadSnapshotChunk.

Module RequestOfferSnapshot.
Record t : Type := { Snapshot : option Snapshot.t; AppHash : option bytes }.
End RequestOfferSnapshot.

Inductive OfferSnapshotResult : Type :=
| ResponseOfferSnapshot_UNKNOWN
| ResponseOfferSnapshot_ACCEPT
| ResponseOfferSnapshot_ABORT
| ResponseOfferSnapshot_REJECT
| ResponseOfferSnapshot_REJECT_FORMAT
| ResponseOfferSnapshot_REJECT_SENDER.

Module ResponseOfferSnapshot.
Record t : Type := { Result : OfferSnapshotResult }.
End ResponseOfferSnapshot.

Module RequestApplySnapshotChunk.
Record t : Type := { Index : Z; Chunk : option bytes; Sender : string }.
End RequestApplySnapshotChunk.

Inductive ApplySnapshotChunkResult : Type :=
| ResponseApplySnapshotChunk_UNKNOWN
| ResponseApplySnapshotChunk_ACCEPT
| ResponseApplySnapshotChunk_ABORT
| ResponseApplySnapshotChunk_RETRY
| ResponseApplySnapshotChunk_RETRY_SNAPSHOT
| ResponseApplySnapshotChunk_REJECT_SNAPSHOT.

Module ResponseApplySnapshotChunk.
Record t : Type := {
  Result : ApplySnapshotChunkResult;
  RefetchChunks : list Z;
  RejectSenders : list string
}.
End ResponseApplySnapshotChunk.

Section Snapshots.

Variable M : Type.
Variable manager : SnapshotMethods M.

(** The loop of lines 463-470: [resp] holds the snapshots converted so far
    and is what a failed conversion returns. *)
Fixpoint convertSnapshots (snapshots : list M) (resp : list Snapshot.t)
  : list Snapshot.t :=
  match snapshots with
  | [] => resp
  | snapshot :: rest =>
      match ToABCI manager snapshot with
      | inr _ => resp
      | inl abciSnapshot => convertSnapshots rest (resp ++ [abciSnapshot])%list
      end
  end.

(** [ListSnapshots]. *)
Definition ListSnapshots (app : BaseApp) : ResponseListSnapshots.t :=
  match snapshotManager app with
  | None => {| ResponseListSnapshots.Snapshots := [] |}
  | Some _ =>
      match ManagerList manager with
      | inr _ => {| ResponseListSnapshots.Snapshots := [] |}
      | inl snapshots =>
          {| ResponseListSnapshots.Snapshots := convertSnapshots snapshots [] |}
      end
  end.

(** [LoadSnapshotChunk]. *)
Definition LoadSnapshotChunk (app : BaseApp) (req : RequestLoadSnapshotChunk.t)
  : ResponseLoadSnapshotChunk.t :=
  match snapshotManager app with
  | None => {| ResponseLoadSnapshotChunk.Chunk := None |}
  | Some _ =>
      match ManagerLoadChunk manager (RequestLoadSnapshotChunk.Height req)
              (RequestLoadSnapshotChunk.Format req)
              (RequestLoadSnapshotChunk.Chunk req) with
      | inr _ => {| ResponseLoadSnapshotChunk.Chunk := None |}
      | inl chunk => {| ResponseLoadSnapshotChunk.Chunk := chunk |}
      end
  end.

(** [OfferSnapshot]. *)
Definition OfferSnapshot (app : BaseApp) (req : RequestOfferSnapshot.t)
  : ResponseOfferSnapshot.t :=
  match snapshotManager app with
  | None => {| ResponseOfferSnapshot.Result := ResponseOfferSnapshot_ABORT |}
  | Some _ =>
      match RequestOfferSnapshot.Snapshot req with
      | None => {| ResponseOfferSnapshot.Result := ResponseOfferSnapshot_REJECT |}
      | Some abciSnapshot =>
          match SnapshotFromABCI manager abciSnapshot with
          | inr _ => {| ResponseOfferSnapshot.Result := ResponseOfferSnapshot_REJECT |}
          | inl snapshot =>
              match ManagerRestore manager snapshot with
              | None =>
                  {| ResponseOfferSnapshot.Result := ResponseOfferSnapshot_ACCEPT |}
              | Some err =>
                  if errorsIs err ErrUnknownFormat
                  then {| ResponseOfferSnapshot.Result :=
                            ResponseOfferSnapshot_REJECT_FORMAT |}
                  else if errorsIs err ErrInvalidMetadata
                  then {| ResponseOfferSnapshot.Result := ResponseOfferSnapshot_REJECT |}
                  else
                    (* resetting the stores and retrying another snapshot is
                       not supported: abort all snapshot restoration *)
                    {| ResponseOfferSnapshot.Result := ResponseOfferSnapshot_ABORT |}
              end
          end
      end
  end.

(** [ApplySnapshotChunk]. *)
Definition ApplySnapshotChunk (app : BaseApp) (req : RequestApplySnapshotChunk.t)
  : ResponseApplySnapshotChunk.t :=
  match snapshotManager app with
  | None =>
      {| ResponseApplySnapshotChunk.Result := ResponseApplySnapshotChunk_ABORT;
         ResponseApplySnapshotChunk.RefetchChunks := [];
         ResponseApplySnapshotChunk.RejectSenders := [] |}
  | Some _ =>
      match snd (ManagerRestoreChunk manager (RequestApplySnapshotChunk.Chunk req)) with
      | None =>
          {| ResponseApplySnapshotChunk.Result := ResponseApplySnapshotChunk_ACCEPT;
             ResponseApplySnapshotChunk.RefetchChunks := [];
             ResponseApplySnapshotChunk.RejectSenders := [] |}
      | Some err =>
          if errorsIs err ErrChunkHashMismatch
          then
            (* chunk checksum mismatch; rejecting sender and requesting refetch *)
            {| ResponseApplySnapshotChunk.Result := ResponseApplySnapshotChunk_RETRY;
               ResponseApplySnapshotChunk.RefetchChunks :=
                 [RequestApplySnapshotChunk.Index req];
               ResponseApplySnapshotChunk.RejectSenders :=
                 [RequestApplySnapshotChunk.Sender req] |}
          else
            {| ResponseApplySnapshotChunk.Result := ResponseApplySnapshotChunk_ABORT;
               ResponseApplySnapshotChunk.RefetchChunks := [];
               ResponseApplySnapshotChunk.RejectSenders := [] |}
      end
  end.

End Snapshots.

(* ================================================================== *)
(** ** Streaming listeners of a finalized block *)
(* ================================================================== *)

(** [ListenFinalizeBlock] of a streaming listener. *)
Definition ABCIListener : Type :=
  Context -> RequestFinalizeBlock.t -> ResponseFinalizeBlock.t -> outcome (option error).

(** The deferred loop of lines 1113-1120: every listener is called with the
    context of the finalize state, [*req] and [*res]; an error of a listener
    is logged. *)
Fixpoint listenFinalizeBlock (listeners : list ABCIListener) (app : BaseApp)
    (req : RequestFinalizeBlock.t) (res : option ResponseFinalizeBlock.t)
  : outcome unit :=
  match listeners with
  | [] => Return tt
  | streamingListener :: rest =>
      fs <- deref (finalizeBlockState app) ;;
      r <- deref res ;;
      _ <- streamingListener (Context_of fs) req r ;;
      listenFinalizeBlock rest app req res
  end.

(** [FinalizeBlock] of an application whose optimistic execution is not
    initialized: the block runs in the calling goroutine (lines 1143-1148),
    then the deferred loop runs. *)
Definition FinalizeBlock (listeners : list ABCIListener)
    (req : RequestFinalizeBlock.t) (app : BaseApp)
  : outcome (FinalizeResult * BaseApp) :=
  '(r, app) <- finalizeAndHash Background req app ;;
  _ <- listenFinalizeBlock listeners app req (fst r) ;;
  Return (r, app).

(* ================================================================== *)
(** ** The protocol buffer methods of the block parameters *)
(* ================================================================== *)

Module Wire.

(** The value of a byte, and [uint8(z)]. *)
Definition byteVal (b : byte) : Z := Z.of_N (Byte.to_N b).

Definition toByte (z : Z) : byte :=
  match Byte.of_N (Z.to_N (z mod 256)) with
  | Some b => b
  | None => x00
  end.

(** [int32(z)]. *)
Definition wrap32 (z : Z) : Z := (z + 2 ^ 31) mod 2 ^ 32 - 2 ^ 31.

(** The errors of unmarshalling: the three of the runtime, the ones the
    generated code formats, and whatever [runtime.Skip] reports. *)
Inductive WireError : Type :=
| ErrIntOverflow
| ErrUnexpectedEOF
| ErrInvalidLength
| ErrEndGroup                                (* wiretype end group for non-group *)
| ErrIllegalTag (fieldNum wire : Z)          (* illegal tag %d (wire type %d) *)
| ErrWrongWireType (wireType : Z) (field : string)
| ErrSkip (msg : string).

(** [runtime.Sov] and [runtime.EncodeVarint] of the protocol buffer runtime:
    the number of base-128 groups of an unsigned 64-bit value, and the bytes
    of its encoding, least significant group first, every group but the
    last with its high bit set.  [EncodeVarint] writes these bytes so that
    they end just before the offset it is given. *)
Definition Sov (x : Z) : Z := (Z.log2 (Z.lor x 1) + 1 + 6) / 7.

Fixpoint varintGroups (n : nat) (v : Z) : bytes :=
  match n with
  | O => []
  | S n =>
      if v <? 128 then [toByte v]
      else toByte (Z.lor (Z.land v 127) 128) :: varintGroups n (Z.shiftr v 7)
  end.

Definition EncodeVarint (v : Z) : bytes := varintGroups 10 v.

(** The loop that reads the tag, lines 1073-1086:
    [wire |= uint64(b&0x7F) << shift].  The value read so far comes with the
    rest of the buffer, or with the error that stopped the loop. *)
Fixpoint readTag (buf : bytes) (shift wire : Z) : Z * (bytes + WireError) :=
  if 64 <=? shift then (wire, inr ErrIntOverflow)
  else
    match buf with
    | [] => (wire, inr ErrUnexpectedEOF)
    | b :: rest =>
        let wire := Z.lor wire (Z.shiftl (Z.land (byteVal b) 127) shift mod 2 ^ 64) in
        if byteVal b <? 128 then (wire, inl rest)
        else readTag rest (shift + 7) wire
    end.

(** The loop that reads a field, lines 1101-1114:
    [x.MaxBytes |= int64(b&0x7F) << shift]. *)
Fixpoint readInt64 (buf : bytes) (shift v : Z) : Z * (bytes + WireError) :=
  if 64 <=? shift then (v, inr ErrIntOverflow)
  else
    match buf with
    | [] => (v, inr ErrUnexpectedEOF)
    | b :: rest =>
        let v := Z.lor v (Int64.wrap (Z.shiftl (Z.land (byteVal b) 127) shift)) in
        if byteVal b <? 128 then (v, inl rest)
        else readInt64 rest (shift + 7) v
    end.

End Wire.

Module BlockParamsProto.

Import Wire.

(** [type BlockParams struct]: the three parameters and the unknown fields
    (a nil slice and an empty one behave alike in the methods below). *)
Record Message : Type := {
  params : BlockParams.t;
  unknownFields : bytes
}.

Definition MaxBytes (x : Message) : Z := BlockParams.MaxBytes (params x).
Definition MaxGas (x : Message) : Z := BlockParams.MaxGas (params x).
Definition TimeIotaMs (x : Message) : Z := BlockParams.TimeIotaMs (params x).

Definition setMaxBytes (v : Z) (x : Message) : Message :=
  {| params := {| BlockParams.MaxBytes := v; BlockParams.MaxGas := MaxGas x;
                  BlockParams.TimeIotaMs := TimeIotaMs x |};
     unknownFields := unknownFields x |}.

Definition setMaxGas (v : Z) (x : Message) : Message :=
  {| params := {| BlockParams.MaxBytes := MaxBytes x; BlockParams.MaxGas := v;
                  BlockParams.TimeIotaMs := TimeIotaMs x |};
     unknownFields := unknownFields x |}.

Definition setTimeIotaMs (v : Z) (x : Message) : Message :=
  {| params := {| BlockParams.MaxBytes := MaxBytes x; BlockParams.MaxGas := MaxGas x;
                  BlockParams.TimeIotaMs := v |};
     unknownFields := unknownFields x |}.

(** [new(fastReflection_BlockParams)]. *)
Definition New : Message :=
  {| params := {| BlockParams.MaxBytes := 0; BlockParams.MaxGas := 0;
                  BlockParams.TimeIotaMs := 0 |};
     unknownFields := [] |}.

(* ------------------------------------------------------------------ *)
(** *** Reflection *)
(* ------------------------------------------------------------------ *)

(** A field descriptor, as far as the methods look at it. *)
Record FieldDescriptor : Type := {
  FullName : string;
  IsExtension : bool
}.

Definition fd_BlockParams_max_bytes : FieldDescriptor :=
  {| FullName := "tendermint.types.BlockParams.max_bytes"; IsExtension := false |}.

Definition fd_BlockParams_max_gas : FieldDescriptor :=
  {| FullName := "tendermint.types.BlockParams.max_gas"; IsExtension := false |}.

Definition fd_BlockParams_time_iota_ms : FieldDescriptor :=
  {| FullName := "tendermint.types.BlockParams.time_iota_ms"; IsExtension := false |}.

(** [protoreflect.Value]: an [int64], or a value of another kind, on which
    [Int] panics. *)
Inductive Value : Type :=
| ValueOfInt64 (v : Z)
| ValueOfString (s : string).

Definition Int (value : Value) : outcome Z :=
  match value with
  | ValueOfInt64 v => Return v
  | ValueOfString _ => Panic "type mismatch: cannot convert string to int"
  end.

(** The [default] case the accessors share. *)
Definition noSuchField {A : Type} (fd : FieldDescriptor) : outcome A :=
  if IsExtension fd
  then Panic "proto3 declared messages do not support extensions: tendermint.types.BlockParams"
  else Panic ("message tendermint.types.BlockParams does not contain field "
              ++ FullName fd).

(** [Range]: the calls of [f], in order; it stops after a call that
    returns false. *)
Definition Range (x : Message) (f : FieldDescriptor -> Value -> bool)
  : list (FieldDescriptor * Value) :=
  let third :=
    if negb (TimeIotaMs x =? 0)
    then [(fd_BlockParams_time_iota_ms, ValueOfInt64 (TimeIotaMs x))]
    else [] in
  let second :=
    if negb (MaxGas x =? 0)
    then (fd_BlockParams_max_gas, ValueOfInt64 (MaxGas x))
         :: (if f fd_BlockParams_max_gas (ValueOfInt64 (MaxGas x)) then third else [])
    else third in
  if negb (MaxBytes x =? 0)
  then (fd_BlockParams_max_bytes, ValueOfInt64 (MaxBytes x))
       :: (if f fd_BlockParams_max_bytes (ValueOfInt64 (MaxBytes x)) then second else [])
  else second.

(** [Has]. *)
Definition Has (x : Message) (fd : FieldDescriptor) : outcome bool :=
  if (FullName fd =? "tendermint.types.BlockParams.max_bytes")%string
  then Return (negb (MaxBytes x =? 0))
  else if (FullName fd =? "tendermint.types.BlockParams.max_gas")%string
  then Return (negb (MaxGas x =? 0))
  else if (FullName fd =? "tendermint.types.BlockParams.time_iota_ms")%string
  then Return (negb (TimeIotaMs x =? 0))
  else noSuchField fd.

(** [Clear]. *)
Definition Clear (x : Message) (fd : FieldDescriptor) : outcome Message :=
  if (FullName fd =? "tendermint.types.BlockParams.max_bytes")%string
  then Return (setMaxBytes 0 x)
  else if (FullName fd =? "tendermint.types.BlockParams.max_gas")%string
  then Return (setMaxGas 0 x)
  else if (FullName fd =? "tendermint.types.BlockParams.time_iota_ms")%string
  then Return (setTimeIotaMs 0 x)
  else noSuchField fd.

(** [Get]. *)
Definition Get (x : Message) (descriptor : FieldDescriptor) : outcome Value :=
  if (FullName descriptor =? "tendermint.types.BlockParams.max_bytes")%string
  then Return (ValueOfInt64 (MaxBytes x))
  else if (FullName descriptor =? "tendermint.types.BlockParams.max_gas")%string
  then Return (ValueOfInt64 (MaxGas x))
  else if (FullName descriptor =? "tendermint.types.BlockParams.time_iota_ms")%string
  then Return (ValueOfInt64 (TimeIotaMs x))
  else noSuchField descriptor.

(** [Set]. *)
Definition Set_ (x : Message) (fd : FieldDescriptor) (value : Value) : outcome Message :=
  if (FullName fd =? "tendermint.types.BlockParams.max_bytes")%string
  then v <- Int value ;; Return (setMaxBytes v x)
  else if (FullName fd =? "tendermint.types.BlockParams.max_gas")%string
  then v <- Int value ;; Return (setMaxGas v x)
  else if (FullName fd =? "tendermint.types.BlockParams.time_iota_ms")%string
  then v <- Int value ;; Return (setTimeIotaMs v x)
  else noSuchField fd.

(** [NewField]. *)
Definition NewField (fd : FieldDescriptor) : outcome Value :=
  if (FullName fd =? "tendermint.types.BlockParams.max_bytes")%string
  then Return (ValueOfInt64 0)
  else if (FullName fd =? "tendermint.types.BlockParams.max_gas")%string
  then Return (ValueOfInt64 0)
  else if (FullName fd =? "tendermint.types.BlockParams.time_iota_ms")%string
  then Return (ValueOfInt64 0)
  else noSuchField fd.

(* ------------------------------------------------------------------ *)
(** *** Size, marshal, unmarshal *)
(* ------------------------------------------------------------------ *)

(** [size]. *)
Definition size (x : Message) : Z :=
  let n := 0 in
  let n := if negb (MaxBytes x =? 0)
           then n + (1 + Sov (Int64.to_uint64 (MaxBytes x))) else n in
  let n := if negb (MaxGas x =? 0)
           then n + (1 + Sov (Int64.to_uint64 (MaxGas x))) else n in
  let n := if negb (TimeIotaMs x =? 0)
           then n + (1 + Sov (Int64.to_uint64 (TimeIotaMs x))) else n in
  n + Z.of_nat (List.length (unknownFields x)).

(** [marshal]: the buffer of [size] bytes is filled from its end, the
    unknown fields first, then the third, the second and the first
    parameter, each behind its tag; the result is appended to the buffer of
    the input. *)
Definition marshal (inputBuf : bytes) (x : Message) : bytes :=
  let dAtA := unknownFields x in
  let dAtA := if negb (TimeIotaMs x =? 0)
              then x18 :: EncodeVarint (Int64.to_uint64 (TimeIotaMs x)) ++ dAtA
              else dAtA in
  let dAtA := if negb (MaxGas x =? 0)
              then x10 :: EncodeVarint (Int64.to_uint64 (MaxGas x)) ++ dAtA
              else dAtA in
  let dAtA := if negb (MaxBytes x =? 0)
              then x08 :: EncodeVarint (Int64.to_uint64 (MaxBytes x)) ++ dAtA
              else dAtA in
  (inputBuf ++ dAtA)%list.

Section Unmarshal.

(** [runtime.Skip] on the rest of the buffer: the length of the field that
    starts there, or an error. *)
Variable Skip : bytes -> Z + WireError.

(** [options.DiscardUnknown]. *)
Variable discardUnknown : bool.

(** One round of the loop of lines 1070-1170, on the message as the rounds
    before left it, at index [iNdEx] with [buf] still to read: the message
    with the error that ends the loop, or the message, the index and the
    buffer for the next round.  A field keeps what was read of it when its
    loop fails. *)
Definition unmarshalRound (x : Message) (iNdEx : Z) (buf : bytes)
  : (Message * WireError) + (Message * Z * bytes) :=
  match readTag buf 0 0 with
  | (_, inr err) => inl (x, err)
  | (wire, inl rest) =>
      let fieldNum := wrap32 (Z.shiftr wire 3) in
      let wireType := Z.land wire 7 in
      let after (rest' : bytes) :=
        iNdEx + Z.of_nat (List.length buf) - Z.of_nat (List.length rest') in
      if wireType =? 4 then inl (x, ErrEndGroup)
      else if fieldNum <=? 0 then inl (x, ErrIllegalTag fieldNum wire)
      else if fieldNum =? 1 then
        if negb (wireType =? 0) then inl (x, ErrWrongWireType wireType "MaxBytes")
        else
          match readInt64 rest 0 0 with
          | (v, inr err) => inl (setMaxBytes v x, err)
          | (v, inl rest') => inr (setMaxBytes v x, after rest', rest')
          end
      else if fieldNum =? 2 then
        if negb (wireType =? 0) then inl (x, ErrWrongWireType wireType "MaxGas")
        else
          match readInt64 rest 0 0 with
          | (v, inr err) => inl (setMaxGas v x, err)
          | (v, inl rest') => inr (setMaxGas v x, after rest', rest')
          end
      else if fieldNum =? 3 then
        if negb (wireType =? 0) then inl (x, ErrWrongWireType wireType "TimeIotaMs")
        else
          match readInt64 rest 0 0 with
          | (v, inr err) => inl (setTimeIotaMs v x, err)
          | (v, inl rest') => inr (setTimeIotaMs v x, after rest', rest')
          end
      else
        (* iNdEx = preIndex *)
        match Skip buf with
        | inr err => inl (x, err)
        | inl skippy =>
            if (skippy <? 0) || (Int64.add iNdEx skippy <? 0)
            then inl (x, ErrInvalidLength)
            else if Z.of_nat (List.length buf) <? skippy
            then inl (x, ErrUnexpectedEOF)
            else
              let x :=
                if negb discardUnknown
                then {| params := params x;
                        unknownFields :=
                          (unknownFields x ++ firstn (Z.to_nat skippy) buf)%list |}
                else x in
              inr (x, iNdEx + skippy, skipn (Z.to_nat skippy) buf)
        end
  end.

(** The loop [for iNdEx < l]; it runs out of rounds only when [Skip] keeps
    returning the length 0, on which the source does not terminate. *)
Fixpoint unmarshalLoop (rounds : nat) (x : Message) (iNdEx : Z) (buf : bytes)
  : option (Message * option WireError) :=
  match buf with
  | [] => Some (x, None)
  | _ =>
      match rounds with
      | O => None
      | S rounds =>
          match unmarshalRound x iNdEx buf with
          | inl (x, err) => Some (x, Some err)
          | inr (x, iNdEx, buf) => unmarshalLoop rounds x iNdEx buf
          end
      end
  end.

(** [unmarshal] into the message [x]. *)
Definition unmarshal (x : Message) (dAtA : bytes) : option (Message * option WireError) :=
  unmarshalLoop (List.length dAtA) x 0 dAtA.

End Unmarshal.

(** What unmarshalling the encoding of [src] into [dst] is to give: the
    parameters of [src] that are set, those of [dst] otherwise. *)
Definition overlay (dst src : Message) : Message :=
  {| params :=
       {| BlockParams.MaxBytes :=
            if MaxBytes src =? 0 then MaxBytes dst else MaxBytes src;
          BlockParams.MaxGas :=
            if MaxGas src =? 0 then MaxGas dst else MaxGas src;
          BlockParams.TimeIotaMs :=
            if TimeIotaMs src =? 0 then TimeIotaMs dst else TimeIotaMs src |};
     unknownFields := unknownFields dst |}.

(** A byte with its high bit set: one that continues a varint. *)
Definition continues (b : byte) : bool := 128 <=? byteVal b.

End BlockParamsProto.

(* ================================================================== *)
(** ** More concrete collaborators *)
(* ================================================================== *)

Module Samples.

(** A root store at version 7 that answers a query with the path it was
    asked, at height 0. *)
Definition echoStore : Store.t :=
  {| Store.lastCommitID := {| CommitID.Version := 7; CommitID.Hash := Some [x01] |};
     Store.initialVersion := 0;
     Store.contents := [];
     Store.history := [(7, []); (3, [("k", [x03])])];
     Store.hashOf := fun kv => flat_map snd kv;
     Store.setInitialVersionErr := None;
     Store.commitTimestamp := fun v => if v =? 3 then Some 33 else None;
     Store.queryable :=
       Some (fun r =>
               Return {| ResponseQuery.Code := 0; ResponseQuery.Log := "";
                         ResponseQuery.Key := None;
                         ResponseQuery.Value :=
                           Some (list_byte_of_string (RequestQuery.Path r));
                         ResponseQuery.Height := 0;
                         ResponseQuery.Codespace := "" |}) |}.

(** The running example over that store. *)
Definition echoApp : BaseApp := set_queryable_store echoStore None Example.running.

(** A gRPC route whose handler reports that the key is missing. *)
Definition missingRoute : string := "/cosmos.bank.v1beta1.Query/Missing".

Definition missingHandler : GRPCQueryHandler :=
  fun _ _ => Return (inr (StatusError CodeNotFound "no such key")).

(** Proposal handlers that panic on a proposal without transactions: the
    first proposes the first transaction it is given, the second accepts. *)
Definition handlers : ProposalHandlers :=
  {| prepareProposal :=
       Some (fun view req =>
               match RequestPrepareProposal.Txs req with
               | [] => Panic "no transactions"
               | tx :: _ => Return ({| ResponsePrepareProposal.Txs := [tx] |}, ms view)
               end);
     processProposal :=
       Some (fun view req =>
               match RequestProcessProposal.Txs req with
               | [] => Panic "no transactions"
               | _ =>
                   Return ({| ResponseProcessProposal.Status :=
                                ResponseProcessProposal_ACCEPT |}, ms view)
               end);
     appVoteInfos := [] |}.

Definition proposal (height : Z) (txs : list bytes) : RequestPrepareProposal.t :=
  {| RequestPrepareProposal.MaxTxBytes := 1000;
     RequestPrepareProposal.Txs := txs;
     RequestPrepareProposal.Height := height;
     RequestPrepareProposal.Time := 0;
     RequestPrepareProposal.NextValidatorsHash := None;
     RequestPrepareProposal.ProposerAddress := Some [x0a] |}.

Definition proposed (height : Z) (txs : list bytes) : RequestProcessProposal.t :=
  {| RequestProcessProposal.Txs := txs;
     RequestProcessProposal.Hash := Some [x0b];
     RequestProcessProposal.Height := height;
     RequestProcessProposal.Time := 0;
     RequestProcessProposal.NextValidatorsHash := None;
     RequestProcessProposal.ProposerAddress := Some [x0a] |}.

(** A store commit that persists the contents at the height of the header. *)
Definition commitAtHeader (h : Header.t) (s : Store.t) : outcome Store.t :=
  Return {| Store.lastCommitID :=
              {| CommitID.Version := Header.Height h;
                 CommitID.Hash := Some (Store.hashOf s (Store.contents s)) |};
            Store.initialVersion := Store.initialVersion s;
            Store.contents := Store.contents s;
            Store.history := (Header.Height h, Store.contents s) :: Store.history s;
            Store.hashOf := Store.hashOf s;
            Store.setInitialVersionErr := Store.setInitialVersionErr s;
            Store.commitTimestamp := Store.commitTimestamp s;
            Store.queryable := Store.queryable s |}.

(** The running example with block 8 in its finalize state. *)
Definition finalized : BaseApp :=
  set_finalizeBlockState
    (Some {| ms := {| parent := []; writes := [("k", [x08])] |};
             ctx := NewContext (finalizeHeader Example.running (Example.block 8 []))
                      false |})
    Example.running.

(** A snapshot manager over heights: it lists the snapshots at heights 5, 0
    and 7, cannot convert the one at height 0, restores the snapshot of
    height 5 only, and finds the checksum of every chunk wrong. *)
Definition snapshots : SnapshotMethods Z :=
  {| ManagerList := inl [5; 0; 7];
     ManagerLoadChunk := fun _ _ _ => inl (Some [x01]);
     ManagerRestore := fun h =>
       if h =? 5 then None
       else Some (WrapSnapshotError (Sentinel ErrUnknownFormat) "format 9");
     ManagerRestoreChunk := fun _ =>
       (false, Some (WrapSnapshotError (Sentinel ErrChunkHashMismatch) "chunk 3"));
     ToABCI := fun h =>
       if h =? 0 then inr (OtherSnapshotError "no metadata")
       else inl {| Snapshot.Height := h; Snapshot.Format := 1; Snapshot.Chunks := 1;
                   Snapshot.Hash := None; Snapshot.Metadata := None |};
     SnapshotFromABCI := fun a => inl (Snapshot.Height a) |}.

(** The running example with a snapshot manager. *)
Definition snapshotting : BaseApp :=
  set_snapshotManager (Some {| GetSnapshotBlockRetentionHeights := 0 |}) Example.running.

(** A streaming listener that reports an error for every block. *)
Definition failingListener : ABCIListener :=
  fun _ _ _ => Return (Some (External "listener is down")).

(** The running example with an address filter that refuses the peer
    [10.0.0.9:26656] with code 3 and accepts every other. *)
Definition filtering : BaseApp :=
  set_peerFilters
    (Some (fun info =>
             Return (if (info =? "10.0.0.9:26656")%string
                     then {| ResponseQuery.Code := 3; ResponseQuery.Log := "banned";
                             ResponseQuery.Key := None; ResponseQuery.Value := None;
                             ResponseQuery.Height := 0;
                             ResponseQuery.Codespace := "" |}
                     else ResponseQuery.zero)))
    None Example.running.

Definition missingApp : BaseApp :=
  set_grpcQueryRouter
    (fun p => if (p =? missingRoute)%string then Some missingHandler
              else grpcQueryRouter Example.running p)
    Example.running.

End Samples.

(* ================================================================== *)
(** * Properties *)
(* ================================================================== *)

(* ------------------------------------------------------------------ *)
(** ** Machine integers *)
(* ------------------------------------------------------------------ *)

Lemma wrap_in_range (z : Z) : Int64.in_range (Int64.wrap z).
Proof.
  unfold Int64.in_range, Int64.wrap, Int64.min_signed, Int64.max_signed.
  pose proof (Z.mod_pos_bound (z + 2 ^ 63) (2 ^ 64) ltac:(lia)). lia.
Qed.

Lemma wrap_small (z : Z) : Int64.in_range z -> Int64.wrap z = z.
Proof.
  unfold Int64.in_range, Int64.wrap, Int64.min_signed, Int64.max_signed. intros H.
  rewrite Z.mod_small; lia.
Qed.

Lemma sub_exact (x y : Z) : Int64.in_range (x - y) -> Int64.sub x y = x - y.
Proof. apply wrap_small. Qed.

Lemma add_exact (x y : Z) : Int64.in_range (x + y) -> Int64.add x y = x + y.
Proof. apply wrap_small. Qed.

Lemma of_uint64_small (u : Z) : 0 <= u <= Int64.max_signed -> Int64.of_uint64 u = u.
Proof.
  intros H. apply wrap_small. unfold Int64.in_range, Int64.min_signed, Int64.max_signed in *. lia.
Qed.

Lemma to_uint64_nonneg (z : Z) : 0 <= z <= Int64.max_signed -> Int64.to_uint64 z = z.
Proof.
  unfold Int64.to_uint64, Int64.max_signed. intros H. apply Z.mod_small. lia.
Qed.

(* ------------------------------------------------------------------ *)
(** ** Panics and error responses *)
(* ------------------------------------------------------------------ *)

Lemma returns_not_panics {A : Type} (m : outcome A) : returns m -> ~ panics m.
Proof. intros [a ->] [v H]. discriminate. Qed.

Lemma obind_Return {A B : Type} (m : outcome A) (k : A -> outcome B) (b : B) :
  obind m k = Return b -> exists a, m = Return a /\ k a = Return b.
Proof. destruct m as [a|v]; simpl; intros H; [eauto | discriminate]. Qed.

Lemma obind_panics {A B : Type} (m : outcome A) (k : A -> outcome B) :
  panics m -> panics (obind m k).
Proof. intros [v ->]. exists v. reflexivity. Qed.

Lemma abciCode_nonzero (err : error) : abciCode err <> SuccessABCICode.
Proof.
  induction err as [e|p IH d|m|c|c m|m]; simpl;
    try (unfold internalABCICode, SuccessABCICode; lia); auto.
  destruct e; unfold SuccessABCICode; simpl; lia.
Qed.

Lemma QueryResult_IsErr (err : error) (debug : bool) :
  ResponseQuery.IsErr (QueryResult err debug).
Proof. unfold ResponseQuery.IsErr, QueryResult. simpl. apply abciCode_nonzero. Qed.

(* ------------------------------------------------------------------ *)
(** ** Block retention *)
(* ------------------------------------------------------------------ *)

Section Retention.

Lemma minNonZero_zero_l (y : Z) : minNonZero 0 y = y.
Proof. reflexivity. Qed.

Lemma minNonZero_min (x y : Z) : x <> 0 -> y <> 0 -> minNonZero x y = Z.min x y.
Proof.
  intros Hx Hy. unfold minNonZero.
  destruct (Z.eqb_spec x 0); [contradiction|].
  destruct (Z.eqb_spec y 0); [contradiction|].
  destruct (Z.ltb_spec x y); lia.
Qed.

Lemma minNonZero_zero_r (x : Z) : minNonZero x 0 = x.
Proof.
  unfold minNonZero. destruct (Z.eqb_spec x 0); [congruence | reflexivity].
Qed.

Lemma fold_min_nonzero (l : list Z) (x : Z) :
  x <> 0 -> Forall (fun z => z <> 0) l -> fold_left Z.min l x <> 0.
Proof.
  revert x. induction l as [|y l IH]; intros x Hx Hl; simpl; [assumption|].
  inversion Hl; subst. apply IH; [lia | assumption].
Qed.

(** Folding [minNonZero] from a non-zero start is the plain minimum over the
    non-zero elements. *)
Lemma fold_minNonZero_from (l : list Z) (x : Z) :
  x <> 0 ->
  fold_left minNonZero l x = fold_left Z.min (filter nonZero l) x.
Proof.
  revert x. induction l as [|y l IH]; intros x Hx; simpl; [reflexivity|].
  unfold nonZero at 1. destruct (Z.eqb_spec y 0) as [->|Hy]; simpl.
  - rewrite minNonZero_zero_r. apply IH. assumption.
  - rewrite minNonZero_min by assumption. apply IH. lia.
Qed.

(** Folding [minNonZero] from zero, as the source does from the zero value of
    [retentionHeight], is the minimum of the non-zero elements. *)
Lemma fold_minNonZero (l : list Z) :
  fold_left minNonZero l 0 = minimumOf (filter nonZero l).
Proof.
  induction l as [|y l IH]; simpl; [reflexivity|].
  unfold nonZero at 1. destruct (Z.eqb_spec y 0) as [->|Hy]; simpl.
  - exact IH.
  - apply fold_minNonZero_from. assumption.
Qed.

Lemma floor_is_max (r : Z) : (if r <=? 0 then 0 else r) = Z.max 0 r.
Proof. destruct (Z.leb_spec r 0); lia. Qed.

(** The conversion [int64(minRetainBlocks)] and the subtraction after it
    reduce the integer difference once. *)
Lemma sub_of_uint64 (x u : Z) : Int64.sub x (Int64.of_uint64 u) = Int64.wrap (x - u).
Proof.
  unfold Int64.sub, Int64.of_uint64, Int64.wrap. f_equal.
  replace (x - ((u + 2 ^ 63) mod 2 ^ 64 - 2 ^ 63) + 2 ^ 63)
    with (x + 2 ^ 64 - (u + 2 ^ 63) mod 2 ^ 64) by lia.
  rewrite Zminus_mod_idemp_r. f_equal. lia.
Qed.

(** The value computed by the source once the consensus parameters are read,
    when no difference leaves [int64]: the fold of [minNonZero] over the
    configured constraints. *)
Lemma GetBlockRetentionHeight_fold (app : BaseApp) (commitHeight : Z)
    (st : state) (cp : option ConsensusParams.t) :
  minRetainBlocks app <> 0 ->
  finalizeBlockState app = Some st ->
  GetConsensusParams app st = Return cp ->
  Forall Int64.in_range
    (retentionConstraints cp (snapshotManager app) (minRetainBlocks app) commitHeight) ->
  GetBlockRetentionHeight app commitHeight =
  Return (Z.max 0 (fold_left minNonZero
                     (retentionConstraints cp (snapshotManager app)
                        (minRetainBlocks app) commitHeight) 0)).
Proof.
  intros Hm Hst Hcp Hfit. unfold GetBlockRetentionHeight.
  destruct (Z.eqb_spec (minRetainBlocks app) 0) as [E|_]; [contradiction|].
  rewrite Hst. simpl. rewrite Hcp. simpl.
  rewrite <- floor_is_max. rewrite sub_of_uint64.
  unfold retentionConstraints, evidenceConstraint, snapshotConstraint,
    operatorConstraint in *.
  destruct cp as [p|]; [destruct (ConsensusParams.Evidence p) as [e|] |];
    try destruct (0 <? EvidenceParams.MaxAgeNumBlocks e);
    destruct (snapshotManager app) as [sm|];
    try destruct (0 <? GetSnapshotBlockRetentionHeights sm);
    simpl in Hfit |- *;
    repeat match goal with
           | H : Forall _ (_ :: _) |- _ => apply Forall_cons_iff in H as [? H]
           end;
    rewrite ?sub_exact by assumption; rewrite ?wrap_small by assumption;
    destruct (_ <=? 0); reflexivity.
Qed.

(** With or without a minimum of retained blocks: the source returns the
    retention height of the specification when no difference leaves
    [int64]. *)
Lemma GetBlockRetentionHeight_value (app : BaseApp) (commitHeight : Z)
    (st : state) (cp : option ConsensusParams.t) :
  finalizeBlockState app = Some st ->
  GetConsensusParams app st = Return cp ->
  Forall Int64.in_range
    (retentionConstraints cp (snapshotManager app) (minRetainBlocks app) commitHeight) ->
  GetBlockRetentionHeight app commitHeight =
  Return (spec_RetentionHeight cp (snapshotManager app)
            (minRetainBlocks app) commitHeight).
Proof.
  intros Hst Hcp Hfit. unfold spec_RetentionHeight.
  destruct (Z.eqb_spec (minRetainBlocks app) 0) as [E|N].
  - unfold GetBlockRetentionHeight. rewrite E. reflexivity.
  - rewrite (GetBlockRetentionHeight_fold app commitHeight N Hst Hcp Hfit).
    rewrite fold_minNonZero. reflexivity.
Qed.

(** No difference leaves [int64] for the heights and configurations that
    occur: a non-negative commit height, a minimum of retained blocks below
    [2^63], and an evidence age and a snapshot span that are [int64]
    values. *)
Lemma retention_constraints_fit
    (cp : option ConsensusParams.t) (sm : option SnapshotManager)
    (minRetain commitHeight : Z) :
  0 <= commitHeight <= Int64.max_signed ->
  0 <= minRetain <= Int64.max_signed ->
  (forall p e, cp = Some p -> ConsensusParams.Evidence p = Some e ->
               Int64.in_range (EvidenceParams.MaxAgeNumBlocks e)) ->
  (forall m, sm = Some m -> Int64.in_range (GetSnapshotBlockRetentionHeights m)) ->
  Forall Int64.in_range (retentionConstraints cp sm minRetain commitHeight).
Proof.
  intros Hh Hm He Hs.
  unfold retentionConstraints, evidenceConstraint, snapshotConstraint, operatorConstraint.
  apply Forall_app; split; [|apply Forall_app; split].
  - destruct cp as [p|]; [|constructor].
    destruct (ConsensusParams.Evidence p) as [e|] eqn:Ee; [|constructor].
    specialize (He p e eq_refl Ee).
    destruct (Z.ltb_spec 0 (EvidenceParams.MaxAgeNumBlocks e)); constructor;
      [|constructor].
    unfold Int64.in_range, Int64.min_signed, Int64.max_signed in *. lia.
  - destruct sm as [m|]; [|constructor]. specialize (Hs m eq_refl).
    destruct (Z.ltb_spec 0 (GetSnapshotBlockRetentionHeights m)); constructor;
      [|constructor].
    unfold Int64.in_range, Int64.min_signed, Int64.max_signed in *. lia.
  - constructor; [|constructor].
    unfold Int64.in_range, Int64.min_signed, Int64.max_signed in *. lia.
Qed.

End Retention.

(** C4, as stated, fails.  The operator's minimum is a [uint64] and the
    source converts it with [int64(app.minRetainBlocks)] before subtracting:
    with [minRetainBlocks = 2^64 - 1], an evidence age of 100 000 blocks and
    no snapshot manager, at commit height 100 000, the evidence difference is
    0 and is left out, the operator's difference [100000 - (2^64 - 1)] is
    negative, so the floored minimum of the claim is 0; the source computes
    [100000 - (-1)] and returns 100 001. *)
Lemma retention_height_wraps_large_minimum :
  minRetainBlocks (Example.retaining (2 ^ 64 - 1)) = 2 ^ 64 - 1
  /\ Int64.in_urange (minRetainBlocks (Example.retaining (2 ^ 64 - 1)))
  /\ snapshotManager (Example.retaining (2 ^ 64 - 1)) = None
  /\ finalizeBlockState (Example.retaining (2 ^ 64 - 1)) = Some Example.retainingState
  /\ GetConsensusParams (Example.retaining (2 ^ 64 - 1)) Example.retainingState
     = Return (Some Example.params)
  /\ ConsensusParams.Evidence Example.params = Some Example.evidence
  /\ EvidenceParams.MaxAgeNumBlocks Example.evidence = 100000
  /\ retentionConstraints (Some Example.params) None (2 ^ 64 - 1) 100000
     = [100000 - 100000; 100000 - (2 ^ 64 - 1)]
  /\ spec_RetentionHeight (Some Example.params) None (2 ^ 64 - 1) 100000 = 0
  /\ GetBlockRetentionHeight (Example.retaining (2 ^ 64 - 1)) 100000 = Return 100001
  /\ GetBlockRetentionHeight (Example.retaining (2 ^ 64 - 1)) 100000
     <> Return (spec_RetentionHeight (Some Example.params) None (2 ^ 64 - 1) 100000).
Proof.
  repeat split; try reflexivity; vm_compute; discriminate.
Qed.

(** C4, as the source has it.  [GetBlockRetentionHeight] returns 0 when the
    operator's [minRetainBlocks] is 0, whatever the evidence age and the
    snapshot manager say (and without reading the finalize state).
    Otherwise, once the consensus parameters of the finalize state are read
    and provided each configured difference [commitHeight - evidence age],
    [commitHeight - snapshot span], [commitHeight - minRetainBlocks] is an
    [int64] value, it returns the minimum of the non-zero ones, floored at 0.
    A returned value is never negative, with or without that proviso. *)
Theorem retention_height_is_floored_minimum (app : BaseApp) (commitHeight : Z) :
  (minRetainBlocks app = 0 -> GetBlockRetentionHeight app commitHeight = Return 0)
  /\ (forall st cp,
        finalizeBlockState app = Some st ->
        GetConsensusParams app st = Return cp ->
        Forall Int64.in_range
          (retentionConstraints cp (snapshotManager app)
             (minRetainBlocks app) commitHeight) ->
        GetBlockRetentionHeight app commitHeight =
        Return (spec_RetentionHeight cp (snapshotManager app)
                  (minRetainBlocks app) commitHeight))
  /\ (forall r, GetBlockRetentionHeight app commitHeight = Return r -> 0 <= r).
Proof.
  split; [|split].
  - intros E. unfold GetBlockRetentionHeight. rewrite E. reflexivity.
  - intros st cp Hst Hcp Hfit.
    exact (GetBlockRetentionHeight_value app commitHeight Hst Hcp Hfit).
  - intros r H. unfold GetBlockRetentionHeight in H.
    destruct (minRetainBlocks app =? 0); [injection H; lia|].
    destruct (finalizeBlockState app) as [st|]; simpl in H; [|discriminate].
    destruct (GetConsensusParams app st) as [cp|v]; simpl in H; [|discriminate].
    match type of H with
    | (if ?c <=? 0 then _ else _) = _ => destruct (Z.leb_spec c 0)
    end; injection H; lia.
Qed.

(** The statement above at the example application retaining at least 1000
    blocks, at commit height 150 000: the minimum of 50 000 and 149 000. *)
Lemma retention_height_is_floored_minimum_witness :
  finalizeBlockState (Example.retaining 1000) = Some Example.retainingState
  /\ GetConsensusParams (Example.retaining 1000) Example.retainingState
     = Return (Some Example.params)
  /\ Forall Int64.in_range
       (retentionConstraints (Some Example.params)
          (snapshotManager (Example.retaining 1000))
          (minRetainBlocks (Example.retaining 1000)) 150000)
  /\ spec_RetentionHeight (Some Example.params)
       (snapshotManager (Example.retaining 1000))
       (minRetainBlocks (Example.retaining 1000)) 150000 = 50000
  /\ GetBlockRetentionHeight (Example.retaining 1000) 150000 = Return 50000.
Proof.
  assert (Forall Int64.in_range
            (retentionConstraints (Some Example.params)
               (snapshotManager (Example.retaining 1000))
               (minRetainBlocks (Example.retaining 1000)) 150000)) as Hfit.
  { repeat constructor; vm_compute; discriminate. }
  split; [reflexivity|]. split; [reflexivity|]. split; [exact Hfit|].
  split; [vm_compute; reflexivity|].
  pose proof (retention_height_is_floored_minimum (Example.retaining 1000) 150000)
    as [_ [H _]].
  rewrite (H Example.retainingState (Some Example.params) eq_refl eq_refl Hfit).
  vm_compute. reflexivity.
Defined.

(** C3, as stated, fails: in the scenario of the specification (an evidence
    age of 100 000 blocks, no snapshot manager and no minimum of retained
    blocks, at commit height 150 000) the source returns 0, not 50 000. *)
Lemma retention_scenario_returns_zero_not_50000 :
  minRetainBlocks (Example.retaining 0) = 0
  /\ snapshotManager (Example.retaining 0) = None
  /\ finalizeBlockState (Example.retaining 0) = Some Example.retainingState
  /\ GetConsensusParams (Example.retaining 0) Example.retainingState
     = Return (Some Example.params)
  /\ ConsensusParams.Evidence Example.params = Some Example.evidence
  /\ EvidenceParams.MaxAgeNumBlocks Example.evidence = 100000
  /\ GetBlockRetentionHeight (Example.retaining 0) 150000 = Return 0
  /\ GetBlockRetentionHeight (Example.retaining 0) 150000 <> Return 50000.
Proof.
  repeat split; try reflexivity. vm_compute. discriminate.
Qed.

(** C3, as the source has it.  With an evidence age of 100 000 blocks and no
    snapshot manager, at commit height 150 000: when [minRetainBlocks] is 0
    pruning is disabled and the retention height is 0; when the operator
    retains a non-zero minimum of at most 100 000 blocks the retention height
    is 50 000. *)
Theorem retention_scenario (app : BaseApp) (st : state)
    (cp : ConsensusParams.t) (e : EvidenceParams.t) :
  finalizeBlockState app = Some st ->
  GetConsensusParams app st = Return (Some cp) ->
  ConsensusParams.Evidence cp = Some e ->
  EvidenceParams.MaxAgeNumBlocks e = 100000 ->
  snapshotManager app = None ->
  (minRetainBlocks app = 0 -> GetBlockRetentionHeight app 150000 = Return 0)
  /\ (0 < minRetainBlocks app <= 100000 ->
      GetBlockRetentionHeight app 150000 = Return 50000).
Proof.
  intros Hst Hcp He Hage Hsm. split.
  - intros E. unfold GetBlockRetentionHeight. rewrite E. reflexivity.
  - intros Hm.
    assert (retentionConstraints (Some cp) (snapshotManager app)
              (minRetainBlocks app) 150000
            = [50000; 150000 - minRetainBlocks app]) as Ec.
    { rewrite Hsm. unfold retentionConstraints, evidenceConstraint, snapshotConstraint,
        operatorConstraint. rewrite He, Hage. reflexivity. }
    rewrite (@GetBlockRetentionHeight_fold app 150000 st (Some cp));
      [ | lia | assumption | assumption | ].
    + rewrite Ec. cbn [fold_left].
      rewrite minNonZero_zero_l, minNonZero_min by lia. f_equal. lia.
    + rewrite Ec. repeat constructor;
        unfold Int64.in_range, Int64.min_signed, Int64.max_signed; lia.
Qed.

Lemma retention_scenario_witness :
  GetBlockRetentionHeight (Example.retaining 0) 150000 = Return 0
  /\ 0 < minRetainBlocks (Example.retaining 100000) <= 100000
  /\ GetBlockRetentionHeight (Example.retaining 100000) 150000 = Return 50000.
Proof.
  split; [|split].
  - apply (@retention_scenario (Example.retaining 0) Example.retainingState
             Example.params Example.evidence); reflexivity.
  - simpl. lia.
  - apply (@retention_scenario (Example.retaining 100000) Example.retainingState
             Example.params Example.evidence); try reflexivity.
    simpl. lia.
Defined.

(* ------------------------------------------------------------------ *)
(** ** Height validation *)
(* ------------------------------------------------------------------ *)

Lemma validate_accepts_iff (app : BaseApp) (req : RequestFinalizeBlock.t) :
  Int64.in_range (RequestFinalizeBlock.Height req) ->
  Int64.in_range (LastBlockHeight app) ->
  (validateFinalizeBlockHeight app req = None <->
   1 <= RequestFinalizeBlock.Height req
   /\ RequestFinalizeBlock.Height req
      = spec_expectedHeight (LastBlockHeight app) (initialHeight app)).
Proof.
  intros Hh Hl. unfold validateFinalizeBlockHeight, expectedHeight, spec_expectedHeight.
  set (h := RequestFinalizeBlock.Height req) in *.
  set (l := LastBlockHeight app) in *.
  destruct (Z.ltb_spec h 1) as [Hlt|Hge].
  - split; [discriminate | lia].
  - destruct ((l =? 0) && (1 <? initialHeight app)).
    + destruct (Z.eqb_spec h (initialHeight app)); simpl; split;
        try discriminate; try tauto; intros [_ ?]; contradiction.
    + assert (Int64.add l 1 = l + 1 \/ (l = Int64.max_signed /\ Int64.add l 1 = Int64.min_signed))
        as [E|[E1 E2]].
      { unfold Int64.in_range, Int64.min_signed, Int64.max_signed in *.
        destruct (Z.eq_dec l (2 ^ 63 - 1)) as [->|N].
        - right. split; reflexivity.
        - left. apply add_exact.
          unfold Int64.in_range, Int64.min_signed, Int64.max_signed. lia. }
      * rewrite E. destruct (Z.eqb_spec h (l + 1)); simpl; split;
          try discriminate; try tauto; intros [_ ?]; contradiction.
      * rewrite E2.
        unfold Int64.in_range, Int64.min_signed, Int64.max_signed in *.
        destruct (Z.eqb_spec h (- 2 ^ 63)); simpl; split; try discriminate; lia.
Qed.

(** What [InitChain] leaves behind when it returns: the initial height of the
    request, and a root store with the last commit it had. *)
Lemma InitChain_leaves (sortV : list ValidatorUpdate -> list ValidatorUpdate)
    (app : BaseApp) (req : RequestInitChain.t)
    (res : ResponseInitChain.t) (app' : BaseApp) :
  InitChain sortV app req = Return (res, app') ->
  initialHeight app' = RequestInitChain.InitialHeight req
  /\ LastCommitID app' = LastCommitID app.
Proof.
  unfold InitChain. intros H.
  destruct (negb _); [discriminate|].
  apply obind_Return in H as [[hdr app1] [E H]].
  assert (initialHeight app1 = RequestInitChain.InitialHeight req
          /\ LastCommitID app1 = LastCommitID app) as [I1 L1].
  { destruct (1 <? RequestInitChain.InitialHeight req).
    - unfold Store.SetInitialVersion in E. cbn in E.
      destruct (Store.setInitialVersionErr (cms app)); [discriminate|].
      injection E as <- <-. split; reflexivity.
    - injection E as <- <-. split; reflexivity. }
  clear E.
  apply obind_Return in H as [app2 [E H]]. injection E as <-.
  apply obind_Return in H as [app3 [E H]]. injection E as <-.
  apply obind_Return in H as [app4 [E H]].
  assert (initialHeight app4 = RequestInitChain.InitialHeight req
          /\ LastCommitID app4 = LastCommitID app) as [I4 L4].
  { destruct (RequestInitChain.ConsensusParams req).
    - apply obind_Return in E as [st [_ E]].
      apply obind_Return in E as [st' [_ E]].
      injection E as <-. split; [exact I1 | exact L1].
    - injection E as <-. split; [exact I1 | exact L1]. }
  clear E. destruct (initChainer app4) as [f|].
  - apply obind_Return in H as [st [_ H]].
    apply obind_Return in H as [[r branch] [_ H]].
    apply obind_Return in H as [vals [_ H]].
    injection H as _ <-. split; [exact I4 | exact L4].
  - injection H as _ <-. split; assumption.
Qed.

(** A request that the halt check or the height check refuses leaves
    [internalFinalizeBlock] at once: no response, the error, and the
    application as it was. *)
Lemma internalFinalizeBlock_refused (cctx : CallerContext)
    (req : RequestFinalizeBlock.t) (app : BaseApp) :
  validateFinalizeBlockHeight app req <> None ->
  exists err, internalFinalizeBlock cctx req app = Return ((None, Some err), app).
Proof.
  intros Hv. unfold internalFinalizeBlock.
  destruct (checkHalt app _ _) as [e|]; [exists e; reflexivity|].
  destruct (validateFinalizeBlockHeight app req) as [e|]; [|contradiction].
  exists e. reflexivity.
Qed.

(** C2.  With the request height and the last committed height in [int64]:
    a request whose height is below 1, or differs from the expected height
    (the initial height when nothing is committed and the initial height is
    above 1, the last committed height plus one otherwise), is answered with
    an error and no response, and the application is unchanged, also after
    the step that would attach the working hash; and once [InitChain] has
    returned for an initial height of 5 on an application without commits,
    the height check accepts height 5 and no other. *)
Theorem finalize_rejects_unexpected_height
    (cctx : CallerContext) (req : RequestFinalizeBlock.t) (app : BaseApp) :
  Int64.in_range (RequestFinalizeBlock.Height req) ->
  Int64.in_range (LastBlockHeight app) ->
  ((RequestFinalizeBlock.Height req < 1
    \/ RequestFinalizeBlock.Height req
       <> spec_expectedHeight (LastBlockHeight app) (initialHeight app)) ->
   exists err,
     internalFinalizeBlock cctx req app = Return ((None, Some err), app)
     /\ finalizeAndHash cctx req app = Return ((None, Some err), app))
  /\ (forall sortV genesis res app0,
        LastBlockHeight app0 = 0 ->
        RequestInitChain.InitialHeight genesis = 5 ->
        InitChain sortV app0 genesis = Return (res, app) ->
        (validateFinalizeBlockHeight app req = None
         <-> RequestFinalizeBlock.Height req = 5)).
Proof.
  intros Hh Hl. split.
  - intros Hbad.
    destruct (@internalFinalizeBlock_refused cctx req app) as [err E].
    { intros Hnone. apply validate_accepts_iff in Hnone; [|assumption|assumption]. lia. }
    exists err. split; [exact E|].
    unfold finalizeAndHash. rewrite E. reflexivity.
  - intros sortV genesis res app0 Hl0 H5 Hinit.
    destruct (InitChain_leaves _ _ _ Hinit) as [Hi Hc].
    rewrite validate_accepts_iff by assumption.
    unfold spec_expectedHeight, LastBlockHeight. rewrite Hc, Hi, H5.
    unfold LastBlockHeight in Hl0. rewrite Hl0. simpl. lia.
Qed.

(** The statement above at the example application: after [InitChain] with an
    initial height of 5 on the application without commits, a block at
    height 1 is refused and the height check accepts height 5. *)
Lemma finalize_rejects_unexpected_height_witness :
  exists app res,
    InitChain Example.sortByPower Example.fresh (Example.genesis 5 []) = Return (res, app)
    /\ (exists err,
          internalFinalizeBlock Background (Example.block 1 []) app
          = Return ((None, Some err), app))
    /\ validateFinalizeBlockHeight app (Example.block 5 []) = None.
Proof.
  destruct (InitChain Example.sortByPower Example.fresh (Example.genesis 5 []))
    as [[res app]|v] eqn:E; [|vm_compute in E; discriminate].
  exists app, res. split; [reflexivity|].
  assert (LastBlockHeight app = 0) as L0.
  { destruct (InitChain_leaves _ _ _ E) as [_ Hc].
    unfold LastBlockHeight. rewrite Hc. reflexivity. }
  assert (Int64.in_range (LastBlockHeight app)) as Hl.
  { rewrite L0. unfold Int64.in_range, Int64.min_signed, Int64.max_signed. lia. }
  assert (forall h, Int64.in_range (RequestFinalizeBlock.Height (Example.block h [])) <->
                    Int64.in_range h) as Hr by (intros; reflexivity).
  split.
  - destruct (@finalize_rejects_unexpected_height Background (Example.block 1 []) app)
      as [Hrej _].
    + apply Hr. unfold Int64.in_range, Int64.min_signed, Int64.max_signed. lia.
    + exact Hl.
    + destruct Hrej as [err [Herr _]].
      * right. destruct (InitChain_leaves _ _ _ E) as [Hi _].
        unfold spec_expectedHeight. rewrite L0, Hi. simpl. lia.
      * exists err. exact Herr.
  - destruct (@finalize_rejects_unexpected_height Background (Example.block 5 []) app)
      as [_ Hacc].
    + apply Hr. unfold Int64.in_range, Int64.min_signed, Int64.max_signed. lia.
    + exact Hl.
    + apply (Hacc Example.sortByPower (Example.genesis 5 []) res Example.fresh);
        reflexivity || exact E.
Defined.

(* ------------------------------------------------------------------ *)
(** ** Block execution *)
(* ------------------------------------------------------------------ *)

Section BlockExecution.

Variable app : BaseApp.
Variable cctx : CallerContext.

Lemma decodeFailure_shape :
  ExecTxResult.GasUsed decodeFailure = 0
  /\ ExecTxResult.GasWanted decodeFailure = 0
  /\ ExecTxResult.Code decodeFailure = registeredCode ErrTxDecode
  /\ ExecTxResult.Codespace decodeFailure = RootCodespace
  /\ ExecTxResult.Code decodeFailure <> SuccessABCICode.
Proof. repeat split. vm_compute. discriminate. Qed.

(** An undecodable transaction gets the synthetic failure and leaves the
    state alone; it neither fails the loop nor panics. *)
Lemma txResponse_undecodable (rawTx : bytes) (st : state) (e : error) :
  txDecoder app rawTx = inr e ->
  txResponse app rawTx st = Return (decodeFailure, st).
Proof. intros H. unfold txResponse. rewrite H. reflexivity. Qed.

Lemma txResponse_slot (rawTx : bytes) (st st' : state) (r : ExecTxResult.t) :
  txResponse app rawTx st = Return (r, st') -> slotHolds app rawTx r.
Proof.
  unfold txResponse, slotHolds. destruct (txDecoder app rawTx) as [tx|e].
  - intros H. exists st, st'. exact H.
  - intros H. injection H as <- _. reflexivity.
Qed.

(** The loop, when it runs to its end: the results so far followed by one
    result per transaction, in order, each as the specification asks; and no
    yield point of the loop saw the context done. *)
Lemma executeTxs_results (txs : list bytes) :
  forall (i : nat) (st st' : state) (acc results : list ExecTxResult.t),
    executeTxs app cctx txs i st acc = Return (inl results, st') ->
    exists new,
      results = (acc ++ new)%list
      /\ Forall2 (slotHolds app) txs new
      /\ forall k, (k < List.length txs)%nat -> Done cctx (AfterTx (i + k)) = false.
Proof.
  induction txs as [|rawTx rest IH]; intros i st st' acc results H; simpl in H.
  - injection H as <- _. exists []. rewrite app_nil_r.
    split; [reflexivity|]. split; [constructor|]. simpl. intros k Hk. lia.
  - apply obind_Return in H as [[r st1] [E H]].
    destruct (Done cctx (AfterTx i)) eqn:D; [discriminate|].
    apply IH in H as [new [-> [HF Hd]]].
    exists (r :: new). rewrite <- app_assoc. split; [reflexivity|].
    split; [constructor; [eapply txResponse_slot; exact E | exact HF]|].
    intros k Hk. destruct k as [|k].
    + rewrite Nat.add_0_r. exact D.
    + rewrite Nat.add_succ_r. apply (Hd k). simpl in Hk. lia.
Qed.

(** The loop, when it stops early: the only error it produces is the
    cancellation, seen at the yield point after one of the transactions. *)
Lemma executeTxs_stops (txs : list bytes) :
  forall (i : nat) (st st' : state) (acc : list ExecTxResult.t) (err : error),
    executeTxs app cctx txs i st acc = Return (inr err, st') ->
    err = CtxError (Err cctx)
    /\ exists k, (k < List.length txs)%nat /\ Done cctx (AfterTx (i + k)) = true.
Proof.
  induction txs as [|rawTx rest IH]; intros i st st' acc err H; simpl in H;
    [discriminate|].
  apply obind_Return in H as [[r st1] [E H]].
  destruct (Done cctx (AfterTx i)) eqn:D.
  - injection H as <- _. split; [reflexivity|]. exists 0%nat.
    rewrite Nat.add_0_r. split; [simpl; lia | exact D].
  - apply IH in H as [-> [k [Hk Hd]]]. split; [reflexivity|].
    exists (S k). rewrite Nat.add_succ_r. split; [simpl; lia | exact Hd].
Qed.

(** The loop returns whenever the executor does. *)
Lemma executeTxs_total (txs : list bytes) :
  (forall raw st, exists r st', deliverTx app raw st = Return (r, st')) ->
  forall (i : nat) (st : state) (acc : list ExecTxResult.t),
    exists x st', executeTxs app cctx txs i st acc = Return (x, st').
Proof.
  intros Hd. induction txs as [|rawTx rest IH]; intros i st acc; simpl.
  - eauto.
  - assert (exists r st1, txResponse app rawTx st = Return (r, st1)) as [r [st1 E]].
    { unfold txResponse. destruct (txDecoder app rawTx); [apply Hd | eauto]. }
    rewrite E. simpl. destruct (Done cctx (AfterTx i)); [eauto | apply IH].
Qed.

(** What the stages return.  A response comes with no error, holds one result
    per transaction in order, and means that no yield point saw the context
    done; without a response there is an error. *)
Lemma runStages_result (req : RequestFinalizeBlock.t) (st st' : state)
    (r : FinalizeResult) :
  runStages cctx req app st = Return (r, st') ->
  match fst r with
  | Some res =>
      snd r = None
      /\ Forall2 (slotHolds app) (RequestFinalizeBlock.Txs req)
           (ResponseFinalizeBlock.TxResults res)
      /\ forall y, yieldPointOf req y -> Done cctx y = false
  | None => exists err, snd r = Some err
  end.
Proof.
  unfold runStages. intros H.
  apply obind_Return in H as [[pre st1] [_ H]].
  destruct pre as [ev|err]; [|injection H as <- _; simpl; eauto].
  apply obind_Return in H as [[bb st2] [_ H]].
  destruct bb as [bb|err]; [|injection H as <- _; simpl; eauto].
  destruct (Done cctx AfterBeginBlock) eqn:D1; [injection H as <- _; simpl; eauto|].
  apply obind_Return in H as [g [_ H]].
  apply obind_Return in H as [[txs st3] [Etx H]].
  destruct txs as [results|err]; [|injection H as <- _; simpl; eauto].
  apply obind_Return in H as [[eb st4] [_ H]].
  destruct eb as [eb|err]; [|injection H as <- _; simpl; eauto].
  destruct (Done cctx AfterEndBlock) eqn:D2; [injection H as <- _; simpl; eauto|].
  apply obind_Return in H as [cp [_ H]].
  injection H as <- _. simpl.
  apply executeTxs_results in Etx as [new [-> [HF Hd]]]. simpl.
  split; [reflexivity|]. split; [exact HF|].
  intros [|i|] Hy; [exact D1 | apply (Hd i); exact Hy | exact D2].
Qed.

(** When the collaborators succeed and the context is done at a yield point
    of the request, the stages return no response and the cancellation
    error. *)
Lemma runStages_cancelled (req : RequestFinalizeBlock.t) (st : state) (y : YieldPoint) :
  stagesSucceed app req ->
  yieldPointOf req y -> Done cctx y = true ->
  exists st', runStages cctx req app st
              = Return ((None, Some (CtxError (Err cctx))), st').
Proof.
  intros [Hcp Hg Hpre Hbb Heb Hd] Hy Hdone. unfold runStages.
  destruct (Hpre st) as [ev [st1 ->]]. simpl.
  destruct (Hbb st1) as [bb [st2 ->]]. simpl.
  destruct (Done cctx AfterBeginBlock) eqn:D1; [eauto|].
  destruct (Hg st2) as [g ->]. simpl.
  match goal with
  | |- context [executeTxs app cctx ?txs ?i ?s ?a] =>
      destruct (@executeTxs_total txs Hd i s a) as [x [st3 E]]; rewrite E
  end.
  simpl. destruct x as [results|err].
  - apply executeTxs_results in E as [new [_ [_ Hfalse]]].
    destruct (Heb st3) as [eb [st4 ->]]. simpl.
    destruct (Done cctx AfterEndBlock) eqn:D2; [eauto|].
    exfalso. destruct y as [|i|]; try congruence.
    specialize (Hfalse i Hy). simpl in Hfalse. congruence.
  - apply executeTxs_stops in E as [-> _]. eauto.
Qed.

End BlockExecution.

(** The preparation of the finalize state touches the two mode states only:
    the root store and the collaborators stay as they were. *)
Lemma prepareFinalizeState_keeps (req : RequestFinalizeBlock.t)
    (app app1 : BaseApp) (st : state) :
  prepareFinalizeState req app = Return (app1, st) ->
  cms app1 = cms app
  /\ txDecoder app1 = txDecoder app
  /\ deliverTx app1 = deliverTx app
  /\ preBlock app1 = preBlock app
  /\ beginBlock app1 = beginBlock app
  /\ endBlock app1 = endBlock app
  /\ paramStore app1 = paramStore app.
Proof.
  unfold prepareFinalizeState. intros H.
  apply obind_Return in H as [app2 [E H]].
  assert (cms app2 = cms app /\ txDecoder app2 = txDecoder app
          /\ deliverTx app2 = deliverTx app /\ preBlock app2 = preBlock app
          /\ beginBlock app2 = beginBlock app /\ endBlock app2 = endBlock app
          /\ paramStore app2 = paramStore app) as K.
  { destruct (finalizeBlockState app); injection E as <-; repeat split. }
  clear E.
  apply obind_Return in H as [st0 [_ H]].
  apply obind_Return in H as [cp [_ H]].
  apply obind_Return in H as [g [_ H]].
  injection H as <- _.
  destruct (checkState app2); exact K.
Qed.

Lemma GetConsensusParams_ext (a b : BaseApp) (st : state) :
  paramStore a = paramStore b -> GetConsensusParams a st = GetConsensusParams b st.
Proof. intros H. unfold GetConsensusParams. rewrite H. reflexivity. Qed.

Lemma getBlockGasMeter_ext (a b : BaseApp) (st : state) :
  paramStore a = paramStore b -> getBlockGasMeter a st = getBlockGasMeter b st.
Proof.
  intros H. unfold getBlockGasMeter. rewrite (GetConsensusParams_ext a b st H).
  reflexivity.
Qed.

Lemma stagesSucceed_ext (a b : BaseApp) (req : RequestFinalizeBlock.t) :
  deliverTx b = deliverTx a -> preBlock b = preBlock a ->
  beginBlock b = beginBlock a -> endBlock b = endBlock a ->
  paramStore b = paramStore a ->
  stagesSucceed a req -> stagesSucceed b req.
Proof.
  intros Hd Hp Hb He Hs [Hcp Hg Hpre Hbb Heb Hdl]. constructor.
  - intros st. rewrite (GetConsensusParams_ext b a st Hs). apply Hcp.
  - intros st. rewrite (getBlockGasMeter_ext b a st Hs). apply Hg.
  - rewrite Hp. exact Hpre.
  - rewrite Hb. exact Hbb.
  - rewrite He. exact Heb.
  - rewrite Hd. exact Hdl.
Qed.

Lemma slotHolds_ext (a b : BaseApp) (raw : bytes) (r : ExecTxResult.t) :
  txDecoder b = txDecoder a -> deliverTx b = deliverTx a ->
  slotHolds b raw r -> slotHolds a raw r.
Proof. intros Ht Hd. unfold slotHolds. rewrite Ht, Hd. tauto. Qed.

(** The preparation returns when the parameter store can be read and the
    gas meter can be built. *)
Lemma prepareFinalizeState_total (req : RequestFinalizeBlock.t) (app : BaseApp) :
  stagesSucceed app req ->
  exists app1 st, prepareFinalizeState req app = Return (app1, st).
Proof.
  intros S. unfold prepareFinalizeState.
  assert (exists app2 st0,
            match finalizeBlockState app with
            | Some _ => Return app
            | None => setState execModeFinalize (finalizeHeader app req) app
            end = Return app2
            /\ finalizeBlockState app2 = Some st0
            /\ paramStore app2 = paramStore app) as [app2 [st0 [-> [E2 P2]]]].
  { destruct (finalizeBlockState app) as [s|] eqn:F.
    - exists app, s. repeat split. exact F.
    - eexists. eexists. split; [reflexivity|]. split; reflexivity. }
  simpl. rewrite E2. simpl.
  destruct S as [Hcp Hg _ _ _ _].
  rewrite (GetConsensusParams_ext app2 app st0 P2).
  destruct (Hcp st0) as [cp ->]. simpl.
  match goal with
  | |- context [getBlockGasMeter app2 ?s] =>
      rewrite (getBlockGasMeter_ext app2 app s P2); destruct (Hg s) as [g ->]
  end.
  simpl. eauto.
Qed.

(** What [internalFinalizeBlock] returns, in terms of the application it was
    called on. *)
Lemma internalFinalizeBlock_result (cctx : CallerContext)
    (req : RequestFinalizeBlock.t) (app app' : BaseApp) (r : FinalizeResult) :
  internalFinalizeBlock cctx req app = Return (r, app') ->
  cms app' = cms app
  /\ match fst r with
     | Some res =>
         snd r = None
         /\ finalizeBlockState app' <> None
         /\ Forall2 (slotHolds app) (RequestFinalizeBlock.Txs req)
              (ResponseFinalizeBlock.TxResults res)
         /\ forall y, yieldPointOf req y -> Done cctx y = false
     | None => exists err, snd r = Some err
     end.
Proof.
  unfold internalFinalizeBlock. intros H.
  destruct (checkHalt app _ _) as [e|];
    [injection H as <- <-; split; [reflexivity | simpl; eauto]|].
  destruct (validateFinalizeBlockHeight app req) as [e|];
    [injection H as <- <-; split; [reflexivity | simpl; eauto]|].
  apply obind_Return in H as [[app1 st] [Eprep H]].
  apply obind_Return in H as [[r1 st1] [Erun H]].
  injection H as <- <-.
  destruct (prepareFinalizeState_keeps _ _ Eprep) as [Kc [Kt [Kd _]]].
  split; [exact Kc|].
  pose proof (runStages_result _ _ _ _ Erun) as R.
  destruct (fst r1) as [res|]; [|exact R].
  destruct R as [R1 [R2 R3]]. split; [exact R1|]. split; [discriminate|].
  split; [|exact R3].
  eapply Forall2_impl; [|exact R2].
  intros raw x. apply slotHolds_ext; assumption.
Qed.

(** When the collaborators succeed and no yield point sees the context done,
    the stages return a response. *)
Lemma runStages_completes (app : BaseApp) (cctx : CallerContext)
    (req : RequestFinalizeBlock.t) (st : state) :
  stagesSucceed app req ->
  (forall y, yieldPointOf req y -> Done cctx y = false) ->
  exists res st', runStages cctx req app st = Return ((Some res, None), st').
Proof.
  intros [Hcp Hg Hpre Hbb Heb Hd] Hnot. unfold runStages.
  destruct (Hpre st) as [ev [st1 ->]]. simpl.
  destruct (Hbb st1) as [bb [st2 ->]]. simpl.
  rewrite (Hnot AfterBeginBlock I).
  destruct (Hg st2) as [g ->]. simpl.
  match goal with
  | |- context [executeTxs app cctx ?txs ?i ?s ?a] =>
      destruct (@executeTxs_total app cctx txs Hd i s a) as [x [st3 E]]; rewrite E
  end.
  simpl. destruct x as [results|err].
  - destruct (Heb st3) as [eb [st4 ->]]. simpl.
    rewrite (Hnot AfterEndBlock I).
    destruct (Hcp st4) as [cp ->]. simpl. eauto.
  - apply executeTxs_stops in E as [_ [k [Hk Hdone]]].
    rewrite (Hnot (AfterTx (0 + k)) Hk) in Hdone. discriminate.
Qed.

(** C1.  When [internalFinalizeBlock] returns a response, its list of
    transaction results has the length of the transaction list of the request
    and matches it slot by slot: the slot of a transaction that fails to
    decode holds the synthetic decode failure (no gas used, the code of the
    decode error) and the slot of any other transaction holds what the
    executor returned for it.  An undecodable transaction does not end the
    block: when the block hooks and the executor succeed, the height and
    halt checks pass and the call is not cancelled, a response is returned
    whatever the decoder says. *)
Theorem finalize_results_match_transactions
    (cctx : CallerContext) (req : RequestFinalizeBlock.t) (app : BaseApp) :
  (forall res err app',
      internalFinalizeBlock cctx req app = Return ((Some res, err), app') ->
      List.length (ResponseFinalizeBlock.TxResults res)
      = List.length (RequestFinalizeBlock.Txs req)
      /\ Forall2 (slotHolds app) (RequestFinalizeBlock.Txs req)
           (ResponseFinalizeBlock.TxResults res)
      /\ (forall i rawTx e,
             nth_error (RequestFinalizeBlock.Txs req) i = Some rawTx ->
             txDecoder app rawTx = inr e ->
             nth_error (ResponseFinalizeBlock.TxResults res) i = Some decodeFailure))
  /\ ExecTxResult.GasUsed decodeFailure = 0
  /\ ExecTxResult.Code decodeFailure = registeredCode ErrTxDecode
  /\ (stagesSucceed app req ->
      checkHalt app (RequestFinalizeBlock.Height req) (RequestFinalizeBlock.Time req) = None ->
      validateFinalizeBlockHeight app req = None ->
      (forall y, yieldPointOf req y -> Done cctx y = false) ->
      exists res app',
        internalFinalizeBlock cctx req app = Return ((Some res, None), app')).
Proof.
  split; [|split; [reflexivity | split; [reflexivity|]]].
  - intros res err app' H.
    apply internalFinalizeBlock_result in H as [_ [_ [_ [HF _]]]]. simpl in HF.
    split; [symmetry; eapply Forall2_length; exact HF|]. split; [exact HF|].
    intros i rawTx e. revert i.
    induction HF as [|raw r txs rs Hslot HF IH]; intros i Hn He.
    + destruct i; discriminate.
    + destruct i as [|i]; simpl in *.
      * injection Hn as ->. unfold slotHolds in Hslot. rewrite He in Hslot.
        rewrite Hslot. reflexivity.
      * apply IH; assumption.
  - intros S Hh Hv Hnot. unfold internalFinalizeBlock. rewrite Hh, Hv.
    destruct (prepareFinalizeState_total S) as [app1 [st E]]. rewrite E. simpl.
    destruct (prepareFinalizeState_keeps _ _ E) as [_ [_ [Kd [Kp [Kb [Ke Ks]]]]]].
    destruct (@runStages_completes app1 cctx req st) as [res [st' R]];
      [eapply stagesSucceed_ext; eassumption | exact Hnot |].
    rewrite R. simpl. eauto.
Qed.

(** The statement above at the running example: a block at height 8 with an
    empty (undecodable) transaction, a decodable one and another empty one
    returns three results, the first and the last being the synthetic
    failure. *)
Lemma finalize_results_match_transactions_witness :
  exists res app',
    internalFinalizeBlock Background (Example.block 8 [[]; [x01]; []]) Example.running
    = Return ((Some res, None), app')
    /\ ResponseFinalizeBlock.TxResults res
       = [decodeFailure; Example.okResult; decodeFailure]
    /\ List.length (ResponseFinalizeBlock.TxResults res) = 3%nat
    /\ nth_error (ResponseFinalizeBlock.TxResults res) 2 = Some decodeFailure.
Proof.
  destruct (internalFinalizeBlock Background (Example.block 8 [[]; [x01]; []])
              Example.running) as [[[[res|] [err|]] app']|v] eqn:E;
    try (vm_compute in E; discriminate).
  exists res, app'. split; [reflexivity|].
  destruct (finalize_results_match_transactions Background
              (Example.block 8 [[]; [x01]; []]) Example.running)
    as [H _].
  destruct (H res None app' E) as [Hlen [_ Hslot]].
  split; [vm_compute in E; injection E as <- _; reflexivity|].
  split; [exact Hlen|].
  apply (Hslot 2%nat [] (Wrap (Registered ErrTxDecode) "empty tx")); reflexivity.
Defined.

(** A response is the only thing that makes the root store change: the
    working hash is attached after the finalize branch has been written into
    the root. *)
Lemma attachWorkingHash_writes_root (res : ResponseFinalizeBlock.t)
    (err : option error) (app app' : BaseApp) (r : FinalizeResult) :
  attachWorkingHash (Some res, err) app = Return (r, app') ->
  exists st, finalizeBlockState app = Some st
             /\ cms app' = Store.Write (ms st) (cms app)
             /\ fst r = Some (ResponseFinalizeBlock.withAppHash
                                (Store.WorkingHash (cms app')) res).
Proof.
  unfold attachWorkingHash, workingHash. simpl. intros H.
  destruct (finalizeBlockState app) as [st|]; simpl in H; [|discriminate].
  injection H as <- <-. exists st. repeat split.
Qed.

(** C9.  Let the caller's context be done at a yield point of the request
    (after begin-block, after one of its transactions, after end-block).
    Then a call that returns has no response, not even a partial one, and an
    error, and the root store is as it was, also after the step that would
    attach the working hash; and when the height and halt checks pass and the
    block hooks and the executor succeed, the call does return, with no
    response and the error of the context. *)
Theorem finalize_cancellation
    (cctx : CallerContext) (req : RequestFinalizeBlock.t) (app : BaseApp)
    (y : YieldPoint) :
  yieldPointOf req y -> Done cctx y = true ->
  (forall r app',
      finalizeAndHash cctx req app = Return (r, app') ->
      internalFinalizeBlock cctx req app = Return (r, app')
      /\ fst r = None
      /\ (exists err, snd r = Some err)
      /\ cms app' = cms app)
  /\ (stagesSucceed app req ->
      checkHalt app (RequestFinalizeBlock.Height req) (RequestFinalizeBlock.Time req) = None ->
      validateFinalizeBlockHeight app req = None ->
      exists app',
        internalFinalizeBlock cctx req app
        = Return ((None, Some (CtxError (Err cctx))), app')
        /\ finalizeAndHash cctx req app
           = Return ((None, Some (CtxError (Err cctx))), app')
        /\ cms app' = cms app).
Proof.
  intros Hy Hdone. split.
  - intros r app' H. unfold finalizeAndHash in H.
    apply obind_Return in H as [[r0 app1] [E H]].
    destruct (internalFinalizeBlock_result _ _ _ E) as [Hc Hr].
    destruct (fst r0) as [res|] eqn:F.
    + destruct Hr as [_ [_ [_ Hnot]]]. rewrite (Hnot y Hy) in Hdone. discriminate.
    + unfold attachWorkingHash in H. rewrite F in H. injection H as <- <-.
      repeat split; assumption.
  - intros S Hh Hv.
    assert (exists app',
               internalFinalizeBlock cctx req app
               = Return ((None, Some (CtxError (Err cctx))), app')) as [app' E].
    { unfold internalFinalizeBlock. rewrite Hh, Hv.
      destruct (prepareFinalizeState_total S) as [app1 [st E]]. rewrite E. simpl.
      destruct (prepareFinalizeState_keeps _ _ E) as [_ [_ [Kd [Kp [Kb [Ke Ks]]]]]].
      destruct (@runStages_cancelled app1 cctx req st y) as [st' R];
        [eapply stagesSucceed_ext; eassumption | exact Hy | exact Hdone |].
      rewrite R. simpl. eauto. }
    exists app'. split; [exact E|]. split.
    + unfold finalizeAndHash. rewrite E. reflexivity.
    + apply (internalFinalizeBlock_result _ _ _ E).
Qed.

Lemma Example_running_stagesSucceed (req : RequestFinalizeBlock.t) :
  stagesSucceed Example.running req.
Proof.
  constructor; intros; try (eexists; eexists; reflexivity); eexists; reflexivity.
Qed.

(** The statement above at the running example: the context is done when the
    yield point after the first transaction of a block at height 8 polls it;
    the call returns no response and the cancellation, the root store is
    unchanged, and the transaction had reached the finalize branch only. *)
Lemma finalize_cancellation_witness :
  yieldPointOf (Example.block 8 [[x01]; [x02]]) (AfterTx 0)
  /\ Done Example.cancelledAfterFirstTx (AfterTx 0) = true
  /\ exists app',
       finalizeAndHash Example.cancelledAfterFirstTx
         (Example.block 8 [[x01]; [x02]]) Example.running
       = Return ((None, Some (CtxError Canceled)), app')
       /\ cms app' = cms Example.running
       /\ option_map (fun st => writes (ms st)) (finalizeBlockState app')
          = Some [("tx", [x01])].
Proof.
  split; [simpl; lia|]. split; [reflexivity|].
  destruct (@finalize_cancellation Example.cancelledAfterFirstTx
              (Example.block 8 [[x01]; [x02]]) Example.running (AfterTx 0))
    as [_ H]; [simpl; lia | reflexivity |].
  destruct (H (Example_running_stagesSucceed _) eq_refl eq_refl)
    as [app' [E1 [E2 E3]]].
  exists app'. split; [exact E2|]. split; [exact E3|].
  vm_compute in E1. injection E1 as <-. reflexivity.
Defined.

(* ------------------------------------------------------------------ *)
(** ** Chain initialisation *)
(* ------------------------------------------------------------------ *)

Lemma Sum256_empty : Sha256.Sum256 [] = emptyHash.
Proof. vm_compute. reflexivity. Qed.

Lemma obind_panics_cases {A B : Type} (m : outcome A) (k : A -> outcome B) :
  (forall a, m = Return a -> panics (k a)) -> panics (obind m k).
Proof.
  intros H. destruct m as [a|v]; simpl; [apply H; reflexivity | exists v; reflexivity].
Qed.

Lemma bytes_eqb_eq (a b : bytes) : bytes_eqb a b = true <-> a = b.
Proof.
  unfold bytes_eqb. destruct (list_eq_dec Byte.byte_eq_dec a b); split;
    congruence.
Qed.

Lemma ValidatorUpdate_eqb_eq (a b : ValidatorUpdate) :
  ValidatorUpdate_eqb a b = true <-> a = b.
Proof.
  destruct a as [ka pa], b as [kb pb]. unfold ValidatorUpdate_eqb. simpl.
  rewrite andb_true_iff, Z.eqb_eq. split.
  - intros [Hk ->]. f_equal.
    destruct ka, kb; simpl in Hk; try discriminate; try reflexivity;
      apply bytes_eqb_eq in Hk; congruence.
  - intros H. injection H as -> ->. split; [|reflexivity].
    destruct kb; simpl; try reflexivity; apply bytes_eqb_eq; reflexivity.
Qed.

(** The comparison loop panics as soon as the two lists differ at a position
    they both have. *)
Lemma compareValidators_mismatch (resV : list ValidatorUpdate) :
  forall (n : nat) (reqV : list ValidatorUpdate) (i : nat) (a b : ValidatorUpdate),
    nth_error resV i = Some a -> nth_error reqV i = Some b -> a <> b ->
    panics (compareValidators n resV reqV).
Proof.
  induction resV as [|r resV IH]; intros n reqV i a b Ha Hb Hne.
  - destruct i; discriminate.
  - destruct reqV as [|q reqV]; [destruct i; discriminate|]. simpl.
    destruct (ValidatorUpdate_eqb r q) eqn:E; [|eexists; reflexivity].
    apply ValidatorUpdate_eqb_eq in E. subst q.
    destruct i as [|i]; simpl in Ha, Hb.
    + congruence.
    + eapply IH; eassumption.
Qed.

(** The loop returns exactly when the initializer's sorted list is, position
    by position, the beginning of the request's. *)
Lemma compareValidators_returns (resV : list ValidatorUpdate) :
  forall (n : nat) (reqV : list ValidatorUpdate),
    compareValidators n resV reqV = Return tt ->
    resV = firstn (List.length resV) reqV.
Proof.
  induction resV as [|r resV IH]; intros n reqV H; simpl; [reflexivity|].
  destruct reqV as [|q reqV]; simpl in H; [discriminate|].
  destruct (ValidatorUpdate_eqb r q) eqn:E; [|discriminate].
  apply ValidatorUpdate_eqb_eq in E. subst q. simpl. f_equal. eapply IH. exact H.
Qed.

Section InitChainFacts.

Variable sortV : list ValidatorUpdate -> list ValidatorUpdate.

(** The sanity check panics on every mismatch of two non-empty validator
    lists. *)
Lemma checkGenesisValidators_mismatch (reqV resV : list ValidatorUpdate) :
  reqV <> [] -> validatorsMismatch sortV reqV resV ->
  panics (checkGenesisValidators sortV reqV resV).
Proof.
  intros Hreq Hmis. unfold checkGenesisValidators.
  destruct reqV as [|q reqV]; [contradiction|].
  replace (0 <? Z.of_nat (List.length (q :: reqV))) with true
    by (symmetry; apply Z.ltb_lt; simpl; lia).
  destruct (Z.eqb_spec (Z.of_nat (List.length (q :: reqV))) (Z.of_nat (List.length resV)))
    as [E|N]; simpl; [|eexists; reflexivity].
  destruct Hmis as [Hlen|[i [a [b [Ha [Hb Hne]]]]]]; [lia|].
  apply obind_panics. eapply compareValidators_mismatch; eassumption.
Qed.

(** The steps of [InitChain] before the initializer runs keep the
    initializer, and all of its steps keep the last commit of the root store;
    the response of a run with an initializer carries the application hash of
    lines 104-114, the response of a run without one is the zero value. *)
Lemma InitChain_response (app : BaseApp) (req : RequestInitChain.t)
    (res : ResponseInitChain.t) (app' : BaseApp) :
  InitChain sortV app req = Return (res, app') ->
  match initChainer app with
  | Some f =>
      ResponseInitChain.AppHash res = initChainAppHash app
      /\ exists st r branch,
           f st req = Return (r, branch)
           /\ checkGenesisValidators sortV (RequestInitChain.Validators req)
                (ResponseInitChain.Validators r)
              = Return (ResponseInitChain.Validators res)
  | None => res = ResponseInitChain.zero
  end.
Proof.
  unfold InitChain. intros H.
  destruct (negb _); [discriminate|].
  apply obind_Return in H as [[hdr app1] [E H]].
  assert (initChainer app1 = initChainer app
          /\ LastCommitID app1 = LastCommitID app) as [I1 L1].
  { destruct (1 <? RequestInitChain.InitialHeight req).
    - unfold Store.SetInitialVersion in E. cbn in E.
      destruct (Store.setInitialVersionErr (cms app)); [discriminate|].
      injection E as <- <-. split; reflexivity.
    - injection E as <- <-. split; reflexivity. }
  clear E.
  apply obind_Return in H as [app2 [E H]]. injection E as <-.
  apply obind_Return in H as [app3 [E H]]. injection E as <-.
  apply obind_Return in H as [app4 [E H]].
  assert (initChainer app4 = initChainer app
          /\ LastCommitID app4 = LastCommitID app) as [I4 L4].
  { destruct (RequestInitChain.ConsensusParams req).
    - apply obind_Return in E as [st [_ E]].
      apply obind_Return in E as [st' [_ E]].
      injection E as <-. split; [exact I1 | exact L1].
    - injection E as <-. split; [exact I1 | exact L1]. }
  clear E. rewrite <- I4. destruct (initChainer app4) as [f|].
  - apply obind_Return in H as [st [_ H]].
    apply obind_Return in H as [[r branch] [Ef H]].
    apply obind_Return in H as [vals [Ev H]].
    injection H as <- _. simpl. split.
    + unfold initChainAppHash. change (LastCommitID (set_finalizeBlockState _ _))
        with (LastCommitID app4). rewrite L4. reflexivity.
    + eauto.
  - injection H as <- _. reflexivity.
Qed.

End InitChainFacts.

(** C5, as stated, fails on an application without an initializer:
    [InitChain] returns the zero response, whose application hash is nil,
    although nothing has been committed. *)
Lemma initchain_without_initializer_returns_nil_hash :
  CommitID.IsZero (LastCommitID Example.fresh) = true
  /\ exists res app',
       InitChain Example.sortByPower Example.fresh (Example.genesis 1 [])
       = Return (res, app')
       /\ ResponseInitChain.AppHash res = None
       /\ ResponseInitChain.AppHash res <> Some (Sha256.Sum256 []).
Proof.
  split; [reflexivity|].
  eexists. eexists. split; [vm_compute; reflexivity|]. split; [reflexivity | discriminate].
Qed.

(** C5, as the source has it.  When an initializer is configured and
    [InitChain] returns, the application hash of the response is the SHA-256
    digest of the empty byte string if the last commit identifier is zero,
    and the hash of the last commit otherwise; it is not nil in the first
    case, nor in the second when the store reports a hash for its last
    commit.  Without an initializer [InitChain] returns the zero response,
    whose application hash is nil. *)
Theorem initchain_app_hash
    (sortV : list ValidatorUpdate -> list ValidatorUpdate)
    (app : BaseApp) (req : RequestInitChain.t)
    (res : ResponseInitChain.t) (app' : BaseApp) :
  InitChain sortV app req = Return (res, app') ->
  (initChainer app <> None ->
     (CommitID.IsZero (LastCommitID app) = true ->
        ResponseInitChain.AppHash res = Some (Sha256.Sum256 [])
        /\ Sha256.Sum256 [] = emptyHash)
     /\ (CommitID.IsZero (LastCommitID app) = false ->
           ResponseInitChain.AppHash res = CommitID.Hash (LastCommitID app))
     /\ (CommitID.IsZero (LastCommitID app) = true
         \/ CommitID.Hash (LastCommitID app) <> None ->
         ResponseInitChain.AppHash res <> None))
  /\ (initChainer app = None ->
        res = ResponseInitChain.zero /\ ResponseInitChain.AppHash res = None).
Proof.
  intros H. apply InitChain_response in H.
  destruct (initChainer app) as [f|]; split.
  - intros _. destruct H as [-> _]. unfold initChainAppHash.
    destruct (CommitID.IsZero (LastCommitID app)); simpl; repeat split;
      try discriminate; try apply Sum256_empty.
    intros [?|?]; [discriminate | assumption].
  - discriminate.
  - intros N. contradiction.
  - intros _. subst res. split; reflexivity.
Qed.

(** The statement above at the example application with an initializer and
    nothing committed: the application hash is the quoted digest. *)
Lemma initchain_app_hash_witness :
  exists res app',
    InitChain Example.sortByPower
      (Example.withInitializer (Example.store 0 None) (Example.announce []))
      (Example.genesis 1 [])
    = Return (res, app')
    /\ ResponseInitChain.AppHash res = Some emptyHash.
Proof.
  destruct (InitChain Example.sortByPower
              (Example.withInitializer (Example.store 0 None) (Example.announce []))
              (Example.genesis 1 [])) as [[res app']|v] eqn:E;
    [|vm_compute in E; discriminate].
  exists res, app'. split; [reflexivity|].
  destruct (initchain_app_hash _ _ _ E) as [H _].
  destruct H as [H _]; [discriminate|].
  destruct (H eq_refl) as [-> ->]. reflexivity.
Defined.

(** C6.  Let an initializer be configured and the request carry a non-empty
    validator set.  If the validator set the initializer returns is non-empty
    and does not match the request's after sorting (the lengths differ, or
    some position of the sorted lists holds different validators), then
    [InitChain] panics: it does not return. *)
Theorem genesis_validator_mismatch_is_fatal
    (sortV : list ValidatorUpdate -> list ValidatorUpdate)
    (app : BaseApp) (req : RequestInitChain.t) (f : InitChainer) :
  initChainer app = Some f ->
  RequestInitChain.Validators req <> [] ->
  (forall st r branch,
      f st req = Return (r, branch) ->
      ResponseInitChain.Validators r <> []
      /\ validatorsMismatch sortV (RequestInitChain.Validators req)
           (ResponseInitChain.Validators r)) ->
  panics (InitChain sortV app req)
  /\ ~ returns (InitChain sortV app req).
Proof.
  intros Hf Hreq Hmis.
  assert (panics (InitChain sortV app req)) as P.
  { destruct (InitChain sortV app req) as [[res app']|v] eqn:E; [|exists v; reflexivity].
    exfalso. apply InitChain_response in E. rewrite Hf in E.
    destruct E as [_ [st [r [branch [Ef Ec]]]]].
    destruct (Hmis st r branch Ef) as [_ M].
    destruct (checkGenesisValidators_mismatch Hreq M) as [v Ev].
    rewrite Ev in Ec. discriminate. }
  split; [exact P|]. intros R. exact (returns_not_panics R P).
Qed.

(** The statement above at the example application: the request names one
    validator with power 6, the initializer announces it with power 5. *)
Lemma genesis_validator_mismatch_is_fatal_witness :
  panics (InitChain Example.sortByPower
            (Example.withInitializer (Example.store 0 None)
               (Example.announce [Example.validator x01 5]))
            (Example.genesis 1 [Example.validator x01 6])).
Proof.
  apply (@genesis_validator_mismatch_is_fatal Example.sortByPower
           (Example.withInitializer (Example.store 0 None)
              (Example.announce [Example.validator x01 5]))
           (Example.genesis 1 [Example.validator x01 6])
           (Example.announce [Example.validator x01 5])).
  - reflexivity.
  - discriminate.
  - intros st r branch H. injection H as <- _. split; [discriminate|].
    right. exists 0%nat, (Example.validator x01 5), (Example.validator x01 6).
    repeat split. discriminate.
Defined.

(* ------------------------------------------------------------------ *)
(** ** Queries *)
(* ------------------------------------------------------------------ *)

Lemma resolveHeight_Path (app : BaseApp) (req : RequestQuery.t) :
  RequestQuery.Path (resolveHeight app req) = RequestQuery.Path req.
Proof. unfold resolveHeight. destruct (_ =? 0); reflexivity. Qed.

Lemma resolveHeight_Prove (app : BaseApp) (req : RequestQuery.t) :
  RequestQuery.Prove (resolveHeight app req) = RequestQuery.Prove req.
Proof. unfold resolveHeight. destruct (_ =? 0); reflexivity. Qed.

Lemma resolveHeight_Height (app : BaseApp) (req : RequestQuery.t) :
  RequestQuery.Height (resolveHeight app req)
  = if RequestQuery.Height req =? 0 then LastBlockHeight app
    else RequestQuery.Height req.
Proof. unfold resolveHeight. destruct (_ =? 0); reflexivity. Qed.

Lemma resolveHeight_idempotent (app : BaseApp) (req : RequestQuery.t) :
  resolveHeight app (resolveHeight app req) = resolveHeight app req.
Proof.
  unfold resolveHeight.
  destruct (Z.eqb_spec (RequestQuery.Height req) 0) as [E|N].
  - simpl. destruct (LastBlockHeight app =? 0); reflexivity.
  - destruct (Z.eqb_spec (RequestQuery.Height req) 0); [contradiction | reflexivity].
Qed.

Lemma queryBody_resolved (app : BaseApp) (req : RequestQuery.t) :
  queryBody app (resolveHeight app req) = queryBody app req.
Proof. unfold queryBody. rewrite resolveHeight_idempotent. reflexivity. Qed.

Lemma queryBody_grpc (app : BaseApp) (req : RequestQuery.t) (h : GRPCQueryHandler) :
  grpcRouted app req h ->
  queryBody app req = handleQueryGRPC app h (resolveHeight app req).
Proof.
  intros [Hb Hr]. unfold queryBody. rewrite resolveHeight_Path.
  destruct (String.eqb_spec (RequestQuery.Path req) broadcastTxPath);
    [contradiction|].
  rewrite Hr. reflexivity.
Qed.

Lemma queryBody_store (app : BaseApp) (req : RequestQuery.t) (rest : list string) :
  RequestQuery.Path req <> broadcastTxPath ->
  grpcQueryRouter app (RequestQuery.Path req) = None ->
  SplitABCIQueryPath (RequestQuery.Path req) = QueryPathStore :: rest ->
  queryBody app req
  = handleQueryStore app (QueryPathStore :: rest) (resolveHeight app req).
Proof.
  intros Hb Hr Hs. unfold queryBody. rewrite resolveHeight_Path.
  destruct (String.eqb_spec (RequestQuery.Path req) broadcastTxPath);
    [contradiction|].
  rewrite Hr, Hs. reflexivity.
Qed.

(** The rejections of [CreateQueryContext], in the order the source checks
    them. *)
Lemma CreateQueryContext_negative (app : BaseApp) (height : Z) (prove : bool) :
  height < 0 -> CreateQueryContext app height prove = Return (inr errNegativeHeight).
Proof.
  intros H. unfold CreateQueryContext, checkNegativeHeight.
  destruct (Z.ltb_spec height 0); [reflexivity | lia].
Qed.

Lemma CreateQueryContext_not_ready (app : BaseApp) (height : Z) (prove : bool) :
  0 <= height -> Store.LatestVersion (queryMultiStore app) = 0 ->
  CreateQueryContext app height prove = Return (inr (errNotReady app)).
Proof.
  intros H L. unfold CreateQueryContext, checkNegativeHeight.
  destruct (Z.ltb_spec height 0); [lia|]. rewrite L. reflexivity.
Qed.

Lemma CreateQueryContext_future (app : BaseApp) (height : Z) (prove : bool) :
  0 <= height -> Store.LatestVersion (queryMultiStore app) <> 0 ->
  Store.LatestVersion (queryMultiStore app) < height ->
  CreateQueryContext app height prove = Return (inr errFutureHeight).
Proof.
  intros H L F. unfold CreateQueryContext, checkNegativeHeight.
  destruct (Z.ltb_spec height 0); [lia|].
  destruct (Z.eqb_spec (Store.LatestVersion (queryMultiStore app)) 0); [contradiction|].
  destruct (Z.ltb_spec (Store.LatestVersion (queryMultiStore app)) height);
    [reflexivity | lia].
Qed.

Lemma CreateQueryContext_proof (app : BaseApp) (height : Z) :
  height <= 1 ->
  (height <> 0 \/ Store.LatestVersion (queryMultiStore app) <= 1) ->
  exists err, CreateQueryContext app height true = Return (inr err).
Proof.
  intros H1 Hside. unfold CreateQueryContext, checkNegativeHeight.
  destruct (Z.ltb_spec height 0); [eauto|].
  destruct (Z.eqb_spec (Store.LatestVersion (queryMultiStore app)) 0); [eauto|].
  destruct (Z.ltb_spec (Store.LatestVersion (queryMultiStore app)) height); [eauto|].
  destruct (Z.eqb_spec height 0) as [E|N].
  - destruct (Z.leb_spec (Store.LatestVersion (queryMultiStore app)) 1);
      simpl; [eauto | lia].
  - destruct (Z.leb_spec height 1); simpl; [eauto | lia].
Qed.

Lemma handleQueryGRPC_rejects (app : BaseApp) (h : GRPCQueryHandler)
    (req : RequestQuery.t) (err : error) :
  CreateQueryContext app (RequestQuery.Height req) (RequestQuery.Prove req)
  = Return (inr err) ->
  handleQueryGRPC app h req = Return (QueryResult err (trace app)).
Proof. intros H. unfold handleQueryGRPC. rewrite H. reflexivity. Qed.

(** A request to a gRPC handler whose query context cannot be built is
    answered with the error, whatever the handler is. *)
Lemma Query_grpc_rejects (app : BaseApp) (req : RequestQuery.t)
    (h : GRPCQueryHandler) (err : error) :
  grpcRouted app req h ->
  CreateQueryContext app (RequestQuery.Height (resolveHeight app req))
    (RequestQuery.Prove req) = Return (inr err) ->
  Query app req = QueryResult err (trace app).
Proof.
  intros Hr Hc. unfold Query. rewrite (queryBody_grpc Hr).
  rewrite (@handleQueryGRPC_rejects app h (resolveHeight app req) err);
    [reflexivity|].
  rewrite resolveHeight_Prove. exact Hc.
Qed.

(** C7, as stated, fails on the application routes: a version query at a
    negative height is answered, at that height, without an error. *)
Lemma version_query_at_negative_height_is_answered :
  RequestQuery.Height (Example.query "/app/version" (-1) false) < 0
  /\ ResponseQuery.Code (Query Example.running (Example.query "/app/version" (-1) false))
     = SuccessABCICode
  /\ ResponseQuery.Height (Query Example.running (Example.query "/app/version" (-1) false))
     = -1
  /\ ~ ResponseQuery.IsErr (Query Example.running (Example.query "/app/version" (-1) false)).
Proof.
  split; [simpl; lia|]. split; [vm_compute; reflexivity|].
  split; [vm_compute; reflexivity|].
  unfold ResponseQuery.IsErr. intros H. apply H. vm_compute. reflexivity.
Qed.

(** C7, as the source has it.  [Query] replaces a requested height of 0 by
    the latest committed height before it routes the request.  A request
    routed to a registered gRPC handler is answered with a structured error,
    whatever the handler is, when its height is negative, when its height is
    above the latest version of the store queries read, and when it asks for
    a proof at a height of at most 1 (a height still unset after the
    replacement counting as the latest version of that store).  A request
    routed to the store is answered with a structured error when it asks for
    a proof at a height of at most 1.  [Query] returns a response and nothing
    else: it assigns no field of the application on any path. *)
Theorem query_height_rules (app : BaseApp) (req : RequestQuery.t) :
  let height := RequestQuery.Height (resolveHeight app req) in
  let latest := Store.LatestVersion (queryMultiStore app) in
  Query app req = Query app (resolveHeight app req)
  /\ (RequestQuery.Height req = 0 -> height = LastBlockHeight app)
  /\ (RequestQuery.Height req <> 0 -> resolveHeight app req = req)
  /\ (forall h, grpcRouted app req h ->
        (height < 0 -> Query app req = QueryResult errNegativeHeight (trace app))
        /\ (0 <= height -> latest < height ->
            Query app req
            = QueryResult (if latest =? 0 then errNotReady app else errFutureHeight)
                (trace app))
        /\ (RequestQuery.Prove req = true -> height <= 1 ->
            height <> 0 \/ latest <= 1 ->
            exists err, Query app req = QueryResult err (trace app)
                        /\ ResponseQuery.IsErr (Query app req)))
  /\ (storeRouted app req ->
      RequestQuery.Prove req = true -> height <= 1 ->
      exists err, Query app req = QueryResult err (trace app)
                  /\ ResponseQuery.IsErr (Query app req)).
Proof.
  intros height latest. subst height latest.
  split; [unfold Query; rewrite queryBody_resolved; reflexivity|].
  split; [intros E; rewrite resolveHeight_Height, E; reflexivity|].
  split.
  { intros N. unfold resolveHeight.
    destruct (Z.eqb_spec (RequestQuery.Height req) 0); [contradiction | reflexivity]. }
  split.
  - intros h Hr. split; [|split].
    + intros Hneg. apply (Query_grpc_rejects Hr).
      apply CreateQueryContext_negative. exact Hneg.
    + intros Hpos Hfut. apply (Query_grpc_rejects Hr).
      destruct (Z.eqb_spec (Store.LatestVersion (queryMultiStore app)) 0) as [E|N].
      * apply CreateQueryContext_not_ready; assumption.
      * apply CreateQueryContext_future; assumption.
    + intros Hp H1 Hside.
      destruct (@CreateQueryContext_proof app
                  (RequestQuery.Height (resolveHeight app req)) H1 Hside) as [err E].
      exists err. rewrite <- Hp in E.
      rewrite (Query_grpc_rejects Hr E). split; [reflexivity | apply QueryResult_IsErr].
  - intros [Hb [Hr [rest Hs]]] Hp H1.
    unfold Query. rewrite (@queryBody_store app req rest Hb Hr Hs). unfold handleQueryStore.
    destruct (Store.queryable (cms app)) as [q|].
    + simpl. rewrite resolveHeight_Prove, Hp.
      destruct (Z.leb_spec (RequestQuery.Height (resolveHeight app req)) 1); [|lia].
      simpl. eexists. split; [reflexivity | apply QueryResult_IsErr].
    + simpl. eexists. split; [reflexivity | apply QueryResult_IsErr].
Qed.

Lemma Example_balance_routed (app : BaseApp) (height : Z) (prove : bool) :
  grpcQueryRouter app = grpcQueryRouter Example.running ->
  grpcRouted app (Example.query Example.balanceRoute height prove) Example.balanceHandler.
Proof.
  intros H. split; [simpl; discriminate|]. rewrite H. reflexivity.
Qed.

(** The statement above at the running example (latest version 7): a balance
    query at height -3 and one at height 9 are refused, and so is one that
    asks for a proof at height 1. *)
Lemma query_height_rules_witness :
  Query Example.running (Example.query Example.balanceRoute (-3) false)
  = QueryResult errNegativeHeight false
  /\ Query Example.running (Example.query Example.balanceRoute 9 false)
     = QueryResult errFutureHeight false
  /\ ResponseQuery.IsErr
       (Query Example.running (Example.query Example.balanceRoute 1 true)).
Proof.
  split; [|split].
  - destruct (query_height_rules Example.running
                (Example.query Example.balanceRoute (-3) false))
      as [_ [_ [_ [H _]]]].
    destruct (H Example.balanceHandler
                (@Example_balance_routed Example.running (-3) false eq_refl))
      as [Hneg _].
    apply Hneg. vm_compute. reflexivity.
  - destruct (query_height_rules Example.running
                (Example.query Example.balanceRoute 9 false))
      as [_ [_ [_ [H _]]]].
    destruct (H Example.balanceHandler
                (@Example_balance_routed Example.running 9 false eq_refl))
      as [_ [Hfut _]].
    apply Hfut; vm_compute; [discriminate | reflexivity].
  - destruct (query_height_rules Example.running
                (Example.query Example.balanceRoute 1 true))
      as [_ [_ [_ [H _]]]].
    destruct (H Example.balanceHandler
                (@Example_balance_routed Example.running 1 true eq_refl))
      as [_ [_ Hproof]].
    destruct Hproof as [err [_ He]];
      [reflexivity | vm_compute; discriminate | left; vm_compute; discriminate |].
    exact He.
Defined.

(** C10, as stated, fails at a negative height: the query context is refused
    with the negative-height error, not with the not-ready error. *)
Lemma negative_height_is_not_a_not_ready_error :
  Store.LatestVersion (queryMultiStore Example.fresh) = 0
  /\ CreateQueryContext Example.fresh (-1) false = Return (inr errNegativeHeight)
  /\ CreateQueryContext Example.fresh (-1) false
     <> Return (inr (errNotReady Example.fresh)).
Proof.
  split; [reflexivity|]. split; [reflexivity|]. vm_compute. discriminate.
Qed.

(** C10, as the source has it.  While the latest version of the store that
    queries read is 0, building a query context fails for every requested
    height: with the not-ready error for every non-negative height, 0
    included, and with the negative-height error for a negative height.  So
    every request routed to a gRPC handler, whatever its height and whatever
    the handler, is answered with a structured error. *)
Theorem no_query_context_before_first_commit
    (app : BaseApp) (height : Z) (prove : bool) :
  Store.LatestVersion (queryMultiStore app) = 0 ->
  (0 <= height ->
   CreateQueryContext app height prove = Return (inr (errNotReady app)))
  /\ (height < 0 ->
      CreateQueryContext app height prove = Return (inr errNegativeHeight))
  /\ (exists err, CreateQueryContext app height prove = Return (inr err))
  /\ (forall req h,
        grpcRouted app req h ->
        exists err, Query app req = QueryResult err (trace app)
                    /\ ResponseQuery.IsErr (Query app req)).
Proof.
  intros L.
  assert (forall z p, exists err, CreateQueryContext app z p = Return (inr err)) as Hall.
  { intros z p. destruct (Z.lt_ge_cases z 0) as [Hn|Hp].
    - exists errNegativeHeight. apply CreateQueryContext_negative. exact Hn.
    - exists (errNotReady app). apply CreateQueryContext_not_ready; assumption. }
  split; [intros Hp; apply CreateQueryContext_not_ready; assumption|].
  split; [intros Hn; apply CreateQueryContext_negative; exact Hn|].
  split; [apply Hall|].
  intros req h Hr.
  destruct (Hall (RequestQuery.Height (resolveHeight app req)) (RequestQuery.Prove req))
    as [err E].
  exists err. rewrite (Query_grpc_rejects Hr E).
  split; [reflexivity | apply QueryResult_IsErr].
Qed.

(** The statement above at the example application that has committed
    nothing: a balance query at the unset height 0 gets the not-ready
    error. *)
Lemma no_query_context_before_first_commit_witness :
  Store.LatestVersion (queryMultiStore Example.fresh) = 0
  /\ CreateQueryContext Example.fresh 0 false
     = Return (inr (errNotReady Example.fresh))
  /\ ResponseQuery.IsErr
       (Query Example.fresh (Example.query Example.balanceRoute 0 false)).
Proof.
  split; [reflexivity|].
  destruct (@no_query_context_before_first_commit Example.fresh 0 false eq_refl)
    as [H0 [_ [_ Hq]]].
  split; [apply H0; lia|].
  destruct (Hq (Example.query Example.balanceRoute 0 false) Example.balanceHandler
              (@Example_balance_routed Example.fresh 0 false eq_refl)) as [err [_ He]].
  exact He.
Defined.

(** [Query] turns a panic of its body, wherever it is raised, into the
    structured error response of [ErrPanic]; having no other way to leave, it
    never passes a panic on to its caller. *)
Lemma query_panics_are_recovered (app : BaseApp) (req : RequestQuery.t) (v : string) :
  queryBody app req = Panic v ->
  Query app req = QueryResult (Wrap (Registered ErrPanic) v) (trace app)
  /\ ResponseQuery.IsErr (Query app req)
  /\ ResponseQuery.Code (Query app req) = registeredCode ErrPanic.
Proof.
  intros H. unfold Query. rewrite H. simpl.
  split; [reflexivity|]. split; [apply QueryResult_IsErr | reflexivity].
Qed.

(** A handler that panics is such a case. *)
Lemma query_handler_panic_is_recovered (app : BaseApp) (req : RequestQuery.t)
    (h : GRPCQueryHandler) (qctx : state) (v : string) :
  grpcRouted app req h ->
  CreateQueryContext app (RequestQuery.Height (resolveHeight app req))
    (RequestQuery.Prove req) = Return (inl qctx) ->
  h qctx (resolveHeight app req) = Panic v ->
  Query app req = QueryResult (Wrap (Registered ErrPanic) v) (trace app).
Proof.
  intros Hr Hc Hp. apply query_panics_are_recovered.
  rewrite (queryBody_grpc Hr). unfold handleQueryGRPC.
  rewrite resolveHeight_Prove, Hc. simpl. rewrite Hp. reflexivity.
Qed.

(** The paths the router itself does not recognise get a structured error:
    the broadcast path, the empty path, and a first segment other than
    [app], [store] and [p2p]. *)
Lemma query_unrecognized_route_is_error (app : BaseApp) (req : RequestQuery.t) :
  RequestQuery.Path req = broadcastTxPath
  \/ (grpcQueryRouter app (RequestQuery.Path req) = None
      /\ (SplitABCIQueryPath (RequestQuery.Path req) = []
          \/ exists first rest,
               SplitABCIQueryPath (RequestQuery.Path req) = first :: rest
               /\ first <> QueryPathApp /\ first <> QueryPathStore
               /\ first <> QueryPathP2P)) ->
  exists err, Query app req = QueryResult err (trace app)
              /\ ResponseQuery.IsErr (Query app req).
Proof.
  intros H. unfold Query, queryBody. rewrite resolveHeight_Path.
  destruct (String.eqb_spec (RequestQuery.Path req) broadcastTxPath) as [E|N].
  - simpl. eexists. split; [reflexivity | apply QueryResult_IsErr].
  - destruct H as [E|[Hr Hs]]; [contradiction|]. rewrite Hr.
    destruct Hs as [->|[first [rest [-> [Ha [Hs Hp]]]]]].
    + simpl. eexists. split; [reflexivity | apply QueryResult_IsErr].
    + destruct (String.eqb_spec first QueryPathApp); [contradiction|].
      destruct (String.eqb_spec first QueryPathStore); [contradiction|].
      destruct (String.eqb_spec first QueryPathP2P); [contradiction|].
      simpl. eexists. split; [reflexivity | apply QueryResult_IsErr].
Qed.

(** Inside the [p2p] route, a path too short and a command other than
    [filter] get a structured error as well. *)
Lemma query_p2p_malformed_is_error (app : BaseApp) (path : list string) :
  (List.length path < 4)%nat
  \/ (exists first cmd typ arg rest,
        path = first :: cmd :: typ :: arg :: rest /\ cmd <> "filter") ->
  exists err, handleQueryP2P app path = Return (QueryResult err (trace app)).
Proof.
  intros [Hlen|[first [cmd [typ [arg [rest [-> Hc]]]]]]]; unfold handleQueryP2P.
  - destruct path as [|a [|b [|c [|d rest]]]]; simpl in Hlen; try lia; eauto.
  - destruct (String.eqb_spec cmd "filter"); [contradiction | eauto].
Qed.

(** C8, where the source departs from it.  A peer-filter query whose filter
    type is neither [addr] nor [id] falls through the inner switch of
    [handleQueryP2P], which has no default case: [Query] answers it with the
    zero response, whose code is the success code, and not with a structured
    error. *)
Theorem query_p2p_unknown_filter_type_is_not_an_error :
  Query Example.running (Example.query "/p2p/filter/foo/bar" 0 false)
  = ResponseQuery.withHeight 0 ResponseQuery.zero
  /\ ResponseQuery.Code
       (Query Example.running (Example.query "/p2p/filter/foo/bar" 0 false))
     = SuccessABCICode
  /\ ~ ResponseQuery.IsErr
         (Query Example.running (Example.query "/p2p/filter/foo/bar" 0 false)).
Proof.
  split; [vm_compute; reflexivity|]. split; [vm_compute; reflexivity|].
  unfold ResponseQuery.IsErr. intros H. apply H. vm_compute. reflexivity.
Qed.

(** The same on every application that registers no gRPC handler under that
    path, at every height. *)
Lemma query_p2p_unknown_filter_type_falls_through
    (app : BaseApp) (height : Z) (prove : bool) :
  grpcQueryRouter app "/p2p/filter/foo/bar" = None ->
  Query app (Example.query "/p2p/filter/foo/bar" height prove) = ResponseQuery.zero.
Proof.
  intros Hr. unfold Query, queryBody. rewrite resolveHeight_Path. simpl.
  rewrite Hr. reflexivity.
Qed.

(* ================================================================== *)
(** * Further properties of the ABCI methods *)
(* ================================================================== *)

(* ------------------------------------------------------------------ *)
(** ** Retention never undercuts a constraint *)
(* ------------------------------------------------------------------ *)

Lemma fold_min_le_start (l : list Z) (x : Z) : fold_left Z.min l x <= x.
Proof.
  revert x. induction l as [|y l IH]; intros x; simpl; [lia|].
  specialize (IH (Z.min x y)). lia.
Qed.

Lemma fold_min_le_each (l : list Z) (x c : Z) : In c l -> fold_left Z.min l x <= c.
Proof.
  revert x. induction l as [|y l IH]; intros x Hin; simpl; [contradiction|].
  destruct Hin as [->|Hin].
  - pose proof (fold_min_le_start l (Z.min x c)). lia.
  - apply IH. exact Hin.
Qed.

Lemma minimumOf_le (l : list Z) (c : Z) : In c l -> minimumOf l <= c.
Proof.
  destruct l as [|x l]; [contradiction|]. simpl. intros [->|Hin].
  - apply fold_min_le_start.
  - apply fold_min_le_each. exact Hin.
Qed.

(** X1.  Provided each configured difference is an [int64] value, the
    retention height never exceeds a configured constraint whose difference
    is not zero, floored at 0; so the operator's bound
    [commitHeight - minRetainBlocks] holds whenever the commit height differs
    from [minRetainBlocks].  When the two are equal the operator's difference
    is zero and, like an unset value, is left out: the retention height is
    then the floored minimum of the evidence and snapshot constraints alone,
    which can be positive, and fewer than [minRetainBlocks] blocks are
    kept. *)
Theorem retention_height_respects_constraints
    (app : BaseApp) (commitHeight : Z) (st : state)
    (cp : option ConsensusParams.t) (r : Z) :
  finalizeBlockState app = Some st ->
  GetConsensusParams app st = Return cp ->
  Forall Int64.in_range
    (retentionConstraints cp (snapshotManager app) (minRetainBlocks app) commitHeight) ->
  GetBlockRetentionHeight app commitHeight = Return r ->
  (forall c,
      In c (retentionConstraints cp (snapshotManager app)
              (minRetainBlocks app) commitHeight) ->
      c <> 0 -> r <= Z.max 0 c)
  /\ (commitHeight <> minRetainBlocks app ->
      r <= Z.max 0 (commitHeight - minRetainBlocks app))
  /\ (minRetainBlocks app <> 0 ->
      commitHeight = minRetainBlocks app ->
      r = Z.max 0 (minimumOf (filter nonZero
                                (evidenceConstraint cp commitHeight
                                 ++ snapshotConstraint (snapshotManager app)
                                      commitHeight)%list))).
Proof.
  intros Hst Hcp Hfit Hr.
  rewrite (GetBlockRetentionHeight_value app commitHeight Hst Hcp Hfit) in Hr.
  injection Hr as <-.
  assert (forall c,
             In c (retentionConstraints cp (snapshotManager app)
                     (minRetainBlocks app) commitHeight) ->
             c <> 0 ->
             spec_RetentionHeight cp (snapshotManager app) (minRetainBlocks app)
               commitHeight <= Z.max 0 c) as Hall.
  { intros c Hin Hc. unfold spec_RetentionHeight.
    destruct (Z.eqb_spec (minRetainBlocks app) 0); [lia|].
    assert (minimumOf (filter nonZero
                         (retentionConstraints cp (snapshotManager app)
                            (minRetainBlocks app) commitHeight)) <= c); [|lia].
    apply minimumOf_le. apply filter_In. split; [exact Hin|].
    unfold nonZero. destruct (Z.eqb_spec c 0); [contradiction | reflexivity]. }
  split; [exact Hall|]. split.
  - intros Hne. apply Hall; [|lia].
    unfold retentionConstraints, operatorConstraint.
    apply in_or_app. right. apply in_or_app. right. left. reflexivity.
  - intros Hm Heq. unfold spec_RetentionHeight.
    destruct (Z.eqb_spec (minRetainBlocks app) 0); [contradiction|].
    unfold retentionConstraints, operatorConstraint.
    rewrite app_assoc, filter_app. simpl.
    replace (nonZero (commitHeight - minRetainBlocks app)) with false.
    + rewrite app_nil_r. reflexivity.
    + unfold nonZero. destruct (Z.eqb_spec (commitHeight - minRetainBlocks app) 0);
        [reflexivity | lia].
Qed.

(** The statement above where the operator's difference is zero: retaining
    at least 150 000 blocks at commit height 150 000, with an evidence age of
    100 000 blocks, the retention height is 50 000, not 0. *)
Lemma retention_height_respects_constraints_witness :
  finalizeBlockState (Example.retaining 150000) = Some Example.retainingState
  /\ GetConsensusParams (Example.retaining 150000) Example.retainingState
     = Return (Some Example.params)
  /\ Forall Int64.in_range
       (retentionConstraints (Some Example.params)
          (snapshotManager (Example.retaining 150000))
          (minRetainBlocks (Example.retaining 150000)) 150000)
  /\ GetBlockRetentionHeight (Example.retaining 150000) 150000 = Return 50000
  /\ 150000 = minRetainBlocks (Example.retaining 150000)
  /\ 50000 = Z.max 0 (minimumOf (filter nonZero
                                   (evidenceConstraint (Some Example.params) 150000
                                    ++ snapshotConstraint
                                         (snapshotManager (Example.retaining 150000))
                                         150000)%list)).
Proof.
  assert (GetBlockRetentionHeight (Example.retaining 150000) 150000 = Return 50000) as E
    by (vm_compute; reflexivity).
  assert (Forall Int64.in_range
            (retentionConstraints (Some Example.params)
               (snapshotManager (Example.retaining 150000))
               (minRetainBlocks (Example.retaining 150000)) 150000)) as Hfit.
  { repeat constructor; vm_compute; discriminate. }
  split; [reflexivity|]. split; [reflexivity|]. split; [exact Hfit|].
  split; [exact E|]. split; [reflexivity|].
  destruct (@retention_height_respects_constraints (Example.retaining 150000) 150000
              Example.retainingState (Some Example.params) 50000 eq_refl eq_refl Hfit E)
    as [_ [_ H]].
  apply H; [vm_compute; discriminate | reflexivity].
Defined.

(* ------------------------------------------------------------------ *)
(** ** Halting *)
(* ------------------------------------------------------------------ *)

Lemma to_uint64_cases (z : Z) :
  Int64.in_range z ->
  (0 <= z /\ Int64.to_uint64 z = z) \/ (z < 0 /\ Int64.to_uint64 z = z + 2 ^ 64).
Proof.
  unfold Int64.to_uint64, Int64.in_range, Int64.min_signed, Int64.max_signed.
  intros H. destruct (Z.lt_ge_cases z 0) as [Hn|Hp].
  - right. split; [exact Hn|].
    rewrite <- (Z.mod_add z 1 (2 ^ 64)) by lia.
    rewrite Z.mod_small; lia.
  - left. split; [exact Hp|]. apply Z.mod_small. lia.
Qed.

Lemma of_uint64_cases (u : Z) :
  Int64.in_urange u ->
  (u <= Int64.max_signed /\ Int64.of_uint64 u = u)
  \/ (Int64.max_signed < u /\ Int64.of_uint64 u = u - 2 ^ 64).
Proof.
  unfold Int64.of_uint64, Int64.wrap, Int64.in_urange, Int64.max_unsigned,
    Int64.max_signed.
  intros H. destruct (Z.le_gt_cases u (2 ^ 63 - 1)) as [Hs|Hl].
  - left. split; [exact Hs|]. rewrite Z.mod_small; lia.
  - right. split; [exact Hl|].
    rewrite <- (Z.mod_add (u + 2 ^ 63) (-1) (2 ^ 64)) by lia.
    rewrite Z.mod_small; lia.
Qed.

(** X2.  For every [int64] height and every [uint64] halt height and halt
    time, [checkHalt] lets a block through exactly when both tests pass.  The
    height test passes when no halt height is set, when the height is between
    0 and the halt height (the halt height itself included), or when the
    height is negative and [height + 2^64], which is what [uint64(height)]
    is, does not exceed the halt height.  The time test passes when no halt
    time is set, when the halt time is below [2^63] and the block's time is
    not after it, or when the halt time is [2^63] or more and the block's
    time is not after [haltTime - 2^64], which is what [int64(haltTime)]
    is. *)
Theorem checkHalt_passes_iff (app : BaseApp) (height : Z) (time : Time) :
  Int64.in_range height ->
  Int64.in_urange (haltHeight app) ->
  Int64.in_urange (haltTime app) ->
  (checkHalt app height time = None <->
   (haltHeight app = 0
    \/ 0 <= height <= haltHeight app
    \/ (height < 0 /\ height + 2 ^ 64 <= haltHeight app))
   /\ (haltTime app = 0
       \/ (haltTime app <= Int64.max_signed /\ time <= haltTime app)
       \/ (Int64.max_signed < haltTime app /\ time <= haltTime app - 2 ^ 64))).
Proof.
  intros Hh Hhh Hht. unfold checkHalt.
  destruct (to_uint64_cases Hh) as [[Hp Eu]|[Hn Eu]]; rewrite Eu; clear Eu;
    destruct (of_uint64_cases Hht) as [[Hs Et]|[Hl Et]]; rewrite Et; clear Et;
    unfold Int64.in_range, Int64.in_urange, Int64.min_signed, Int64.max_signed,
      Int64.max_unsigned in *;
    destruct (Z.ltb_spec 0 (haltHeight app));
    destruct (Z.ltb_spec 0 (haltTime app));
    repeat match goal with
           | |- context [?a <? ?b] => destruct (Z.ltb_spec a b)
           end;
    simpl; split; intros Hx; first [reflexivity | discriminate | lia].
Qed.

(** The statement above at a halt height of 100 (the block at height 100
    passes, the block at height 101 and a block at a negative height do not)
    and at a halt time of [2^63] (every block of a time that occurs is
    refused). *)
Lemma checkHalt_passes_iff_witness :
  checkHalt (set_halt 100 0 Example.running) 100 5 = None
  /\ checkHalt (set_halt 100 0 Example.running) 101 5 <> None
  /\ checkHalt (set_halt 100 0 Example.running) (-1) 5 <> None
  /\ checkHalt (set_halt 0 (2 ^ 63) Example.running) 1 5 <> None.
Proof.
  assert (forall hh ht h,
             (hh = 100 /\ ht = 0 \/ hh = 0 /\ ht = 2 ^ 63) ->
             -1 <= h <= 101 ->
            (checkHalt (set_halt hh ht Example.running) h 5 = None <->
             (hh = 0 \/ 0 <= h <= hh \/ (h < 0 /\ h + 2 ^ 64 <= hh))
             /\ (ht = 0
                 \/ (ht <= Int64.max_signed /\ 5 <= ht)
                 \/ (Int64.max_signed < ht /\ 5 <= ht - 2 ^ 64)))) as H.
  { intros hh ht h Hc Hr.
    apply (@checkHalt_passes_iff (set_halt hh ht Example.running) h 5);
      unfold Int64.in_range, Int64.in_urange, Int64.min_signed, Int64.max_signed,
        Int64.max_unsigned; simpl; lia. }
  unfold Int64.max_signed in H.
  split; [|split; [|split]].
  - apply (H 100 0 100); lia.
  - intros E. apply (H 100 0 101) in E; lia.
  - intros E. apply (H 100 0 (-1)) in E; lia.
  - intros E. apply (H 0 (2 ^ 63) 1) in E; lia.
Defined.

(* ------------------------------------------------------------------ *)
(** ** Query paths *)
(* ------------------------------------------------------------------ *)

Lemma string_app_nil_r (s : string) : (s ++ "")%string = s.
Proof. induction s as [|c s IH]; simpl; [reflexivity | rewrite IH; reflexivity]. Qed.

Lemma string_app_assoc (a b c : string) :
  ((a ++ b) ++ c)%string = (a ++ (b ++ c))%string.
Proof. induction a as [|x a IH]; simpl; [reflexivity | rewrite IH; reflexivity]. Qed.

Lemma split_slash_aux_nonempty (s cur : string) : split_slash_aux s cur <> [].
Proof.
  revert cur. induction s as [|c s IH]; intros cur; simpl; [discriminate|].
  destruct (Ascii.eqb c "/"); [discriminate | apply IH].
Qed.

Lemma join_cons (sep x : string) (l : list string) :
  l <> [] -> join sep (x :: l) = (x ++ sep ++ join sep l)%string.
Proof. destruct l; [contradiction | reflexivity]. Qed.

(** Joining the segments of a text gives the text back. *)
Lemma join_split_slash_aux (s cur : string) :
  join "/" (split_slash_aux s cur) = (cur ++ s)%string.
Proof.
  revert cur. induction s as [|c s IH]; intros cur; simpl.
  - rewrite string_app_nil_r. reflexivity.
  - destruct (Ascii.eqb_spec c "/"%char) as [->|N].
    + rewrite join_cons by apply split_slash_aux_nonempty.
      rewrite IH. reflexivity.
    + rewrite IH, string_app_assoc. reflexivity.
Qed.

Lemma split_slash_aux_noSlash (a cur : string) :
  noSlash a = true -> split_slash_aux a cur = [(cur ++ a)%string].
Proof.
  revert cur. induction a as [|c a IH]; intros cur H; simpl in *.
  - rewrite string_app_nil_r. reflexivity.
  - apply andb_true_iff in H as [Hc Ha].
    destruct (Ascii.eqb c "/"); [discriminate|].
    rewrite (IH _ Ha), string_app_assoc. reflexivity.
Qed.

Lemma split_slash_aux_segment (a s cur : string) :
  noSlash a = true ->
  split_slash_aux (a ++ String "/" s) cur
  = (cur ++ a)%string :: split_slash_aux s "".
Proof.
  revert cur. induction a as [|c a IH]; intros cur H; simpl in *.
  - rewrite string_app_nil_r. reflexivity.
  - apply andb_true_iff in H as [Hc Ha].
    destruct (Ascii.eqb c "/"); [discriminate|].
    rewrite (IH _ Ha), string_app_assoc. reflexivity.
Qed.

(** Splitting the join of segments gives the segments back. *)
Lemma split_slash_join (l : list string) :
  segments l -> split_slash (join "/" l) = l.
Proof.
  intros [Hne HF]. unfold split_slash.
  induction l as [|x l IH]; [contradiction|].
  inversion HF as [|? ? Hx HF']; subst.
  destruct l as [|y l].
  - simpl. apply (split_slash_aux_noSlash x "" Hx).
  - rewrite join_cons by discriminate.
    change ("/" ++ join "/" (y :: l))%string with (String "/" (join "/" (y :: l))).
    rewrite (split_slash_aux_segment x _ "" Hx). simpl. f_equal.
    apply IH; [discriminate | exact HF'].
Qed.

Lemma split_slash_aux_segments (s cur : string) :
  noSlash cur = true ->
  Forall (fun x => noSlash x = true) (split_slash_aux s cur).
Proof.
  revert cur. induction s as [|c s IH]; intros cur H; simpl.
  - constructor; [exact H | constructor].
  - destruct (Ascii.eqb c "/") eqn:E.
    + constructor; [exact H | apply IH; reflexivity].
    + apply IH. clear IH. induction cur as [|d cur IHc]; simpl in *.
      * rewrite E. reflexivity.
      * apply andb_true_iff in H as [Hd Hc]. rewrite Hd. simpl. apply IHc. exact Hc.
Qed.

(** X3.  [SplitABCIQueryPath] and the joining of segments with [/] undo each
    other.  A path made of segments, the first of which is not empty, is
    split into these segments whether or not it starts with the delimiter;
    the segments of any path hold no delimiter; and joining the segments of
    any path, behind the delimiter that was dropped if it began with one,
    gives the path back. *)
Theorem split_query_path_round_trip :
  (forall l, segments l -> hd "" l <> "" ->
     SplitABCIQueryPath (join "/" l) = l
     /\ SplitABCIQueryPath ("/" ++ join "/" l) = l)
  /\ (forall s, Forall (fun x => noSlash x = true) (SplitABCIQueryPath s))
  /\ (forall s, join "/" (split_slash s) = s)
  /\ (forall s, join "/" (SplitABCIQueryPath (String "/" s)) = s).
Proof.
  split; [|split; [|split]].
  - intros l Hs Hhd.
    assert (forall p, split_slash p = l -> SplitABCIQueryPath p = l) as Hsplit.
    { intros p E. unfold SplitABCIQueryPath. rewrite E.
      destruct l as [|x l]; [reflexivity|]. simpl in Hhd.
      destruct (String.eqb_spec x ""); [contradiction | reflexivity]. }
    split; [apply Hsplit, split_slash_join; exact Hs|].
    unfold SplitABCIQueryPath, split_slash. simpl.
    destruct Hs as [Hne HF]. apply (split_slash_join (conj Hne HF)).
  - intros s. unfold SplitABCIQueryPath.
    pose proof (@split_slash_aux_segments s "" eq_refl) as HF.
    fold (split_slash s) in HF.
    destruct (split_slash s) as [|first rest]; [constructor|].
    destruct (first =? "")%string; [inversion HF; assumption | exact HF].
  - intros s. apply (join_split_slash_aux s "").
  - intros s. unfold SplitABCIQueryPath, split_slash. simpl.
    apply (join_split_slash_aux s "").
Qed.

(** The statement above at the path of the source's own comment. *)
Lemma split_query_path_round_trip_witness :
  segments ["this"; "is"; "funny"]
  /\ SplitABCIQueryPath "this/is/funny" = ["this"; "is"; "funny"]
  /\ SplitABCIQueryPath "/this/is/funny" = ["this"; "is"; "funny"].
Proof.
  assert (segments ["this"; "is"; "funny"]) as S.
  { split; [discriminate | repeat constructor]. }
  split; [exact S|].
  destruct split_query_path_round_trip as [H _].
  apply (H ["this"; "is"; "funny"] S). discriminate.
Defined.

(** X4.  A query under [/store/] reaches the multistore with the prefix
    stripped and the rest of the path unchanged, at the height [Query]
    resolved; the height of the store's answer is overwritten with that
    height.  A proof request at a height of at most 1 is refused before the
    store is asked, and a panic of the store becomes the [ErrPanic]
    response. *)
Theorem store_query_path_and_height
    (app : BaseApp) (req : RequestQuery.t) (p : string)
    (q : RequestQuery.t -> outcome ResponseQuery.t) :
  RequestQuery.Path req = ("/store/" ++ p)%string ->
  grpcQueryRouter app (RequestQuery.Path req) = None ->
  Store.queryable (cms app) = Some q ->
  let asked := setPath ("/" ++ p) (resolveHeight app req) in
  (RequestQuery.Height asked <= 1 /\ RequestQuery.Prove req = true ->
   Query app req = QueryResult errProofHeight (trace app))
  /\ (~ (RequestQuery.Height asked <= 1 /\ RequestQuery.Prove req = true) ->
      (forall resp, q asked = Return resp ->
         Query app req = ResponseQuery.withHeight (RequestQuery.Height asked) resp)
      /\ (forall v, q asked = Panic v ->
            Query app req = QueryResult (Wrap (Registered ErrPanic) v) (trace app))).
Proof.
  intros Hp Hr Hq asked.
  assert (queryBody app req
          = handleQueryStore app (QueryPathStore :: split_slash p) (resolveHeight app req))
    as Hbody.
  { apply queryBody_store; [rewrite Hp; discriminate | exact Hr |].
    rewrite Hp. reflexivity. }
  assert (setPath ("/" ++ join "/" (tl (QueryPathStore :: split_slash p)))
            (resolveHeight app req) = asked) as Hasked.
  { simpl tl. unfold split_slash. rewrite join_split_slash_aux. reflexivity. }
  unfold Query. rewrite Hbody. unfold handleQueryStore. rewrite Hq, Hasked.
  assert (RequestQuery.Prove asked = RequestQuery.Prove req) as HP
    by (unfold asked; simpl; apply resolveHeight_Prove).
  rewrite HP. split.
  - intros [H1 Ht]. rewrite Ht.
    destruct (Z.leb_spec (RequestQuery.Height asked) 1); [reflexivity | lia].
  - intros Hnot.
    assert ((RequestQuery.Height asked <=? 1) && RequestQuery.Prove req = false) as E.
    { destruct (Z.leb_spec (RequestQuery.Height asked) 1);
        destruct (RequestQuery.Prove req); try reflexivity.
      exfalso. apply Hnot. split; [assumption | reflexivity]. }
    rewrite E. split.
    + intros resp Hresp. rewrite Hresp. reflexivity.
    + intros v Hv. rewrite Hv. reflexivity.
Qed.

(** The statement above at the echoing store: the query [/store/bank/key] at
    the unset height is asked as [/bank/key] and answered at height 7. *)
Lemma store_query_path_and_height_witness :
  Query Samples.echoApp (Example.query "/store/bank/key" 0 false)
  = {| ResponseQuery.Code := 0; ResponseQuery.Log := "";
       ResponseQuery.Key := None;
       ResponseQuery.Value := Some (list_byte_of_string "/bank/key");
       ResponseQuery.Height := 7; ResponseQuery.Codespace := "" |}.
Proof.
  destruct (@store_query_path_and_height Samples.echoApp
              (Example.query "/store/bank/key" 0 false) "bank/key"
              (fun r =>
                 Return {| ResponseQuery.Code := 0; ResponseQuery.Log := "";
                           ResponseQuery.Key := None;
                           ResponseQuery.Value :=
                             Some (list_byte_of_string (RequestQuery.Path r));
                           ResponseQuery.Height := 0;
                           ResponseQuery.Codespace := "" |})
              eq_refl eq_refl eq_refl) as [_ H].
  destruct H as [H _]; [intros [_ F]; discriminate F|].
  rewrite (H _ eq_refl). reflexivity.
Defined.

(** The registered root [gRPCErrorToSDKError] wraps the handler's message
    in. *)
Lemma gRPCErrorToSDKError_root (err : error) :
  gRPCErrorToSDKError err
  = Wrap (Registered
            match FromError err with
            | Some CodeNotFound => ErrKeyNotFound
            | Some CodeUnauthenticated => ErrUnauthorized
            | Some (CodeOther _) => ErrUnknownRequest
            | Some CodeInvalidArgument | Some CodeFailedPrecondition | None =>
                ErrInvalidRequest
            end)
         (Error err).
Proof.
  unfold gRPCErrorToSDKError. destruct (FromError err) as [[| | | |n]|]; reflexivity.
Qed.

(** X5.  When the handler of a gRPC route returns an error, [Query] answers
    with an error of the [sdk] codespace at the resolved height of the
    request.  The code is never 0 and never the internal code; it follows the
    gRPC status the error carries: [ErrKeyNotFound] exactly for [NotFound],
    [ErrUnauthorized] exactly for [Unauthenticated], [ErrInvalidRequest]
    exactly for [InvalidArgument], [FailedPrecondition] and an error that
    carries no status, [ErrUnknownRequest] exactly for every other status.
    A gRPC status error carries its own code.  An error of the sdk registry
    carries the status [Unknown], and a wrapped error the status of what it
    wraps, [Unknown] when that has none: both are answered with
    [ErrUnknownRequest] unless a listed status is wrapped.  An error built by
    [fmt], a context error and a foreign error carry no status and are
    answered with [ErrInvalidRequest].  The log is the handler's message
    followed by the registered text. *)
Theorem grpc_handler_error_is_mapped
    (app : BaseApp) (req : RequestQuery.t) (h : GRPCQueryHandler)
    (qctx : state) (err : error) :
  grpcRouted app req h ->
  CreateQueryContext app (RequestQuery.Height (resolveHeight app req))
    (RequestQuery.Prove req) = Return (inl qctx) ->
  h qctx (resolveHeight app req) = Return (inr err) ->
  let resp := Query app req in
  resp = ResponseQuery.withHeight (RequestQuery.Height (resolveHeight app req))
           (QueryResult (gRPCErrorToSDKError err) (trace app))
  /\ ResponseQuery.Codespace resp = RootCodespace
  /\ ResponseQuery.Value resp = None
  /\ ResponseQuery.Code resp <> 0
  /\ ResponseQuery.Code resp <> internalABCICode
  /\ (ResponseQuery.Code resp = registeredCode ErrKeyNotFound
      <-> FromError err = Some CodeNotFound)
  /\ (ResponseQuery.Code resp = registeredCode ErrUnauthorized
      <-> FromError err = Some CodeUnauthenticated)
  /\ (ResponseQuery.Code resp = registeredCode ErrInvalidRequest
      <-> FromError err = Some CodeInvalidArgument
          \/ FromError err = Some CodeFailedPrecondition
          \/ FromError err = None)
  /\ (ResponseQuery.Code resp = registeredCode ErrUnknownRequest
      <-> exists n, FromError err = Some (CodeOther n))
  /\ (forall c m, err = StatusError c m -> FromError err = Some c)
  /\ (forall e, err = Registered e ->
                ResponseQuery.Code resp = registeredCode ErrUnknownRequest)
  /\ (forall p d, err = Wrap p d ->
                  FromError err = Some match FromError p with
                                       | Some c => c
                                       | None => codeUnknown
                                       end)
  /\ (forall p d, err = Wrap p d ->
                  (FromError p = None \/ exists n, FromError p = Some (CodeOther n)) ->
                  ResponseQuery.Code resp = registeredCode ErrUnknownRequest)
  /\ ((exists m, err = Errorf m) \/ (exists c, err = CtxError c)
      \/ (exists m, err = External m) ->
      ResponseQuery.Code resp = registeredCode ErrInvalidRequest)
  /\ exists root,
       ResponseQuery.Code resp = registeredCode root
       /\ ResponseQuery.Log resp = (Error err ++ ": " ++ registeredText root)%string.
Proof.
  intros Hr Hc Hh resp.
  assert (resp = ResponseQuery.withHeight (RequestQuery.Height (resolveHeight app req))
                   (QueryResult (gRPCErrorToSDKError err) (trace app))) as E.
  { unfold resp, Query. rewrite (queryBody_grpc Hr). unfold handleQueryGRPC.
    rewrite resolveHeight_Prove, Hc. simpl. rewrite Hh. reflexivity. }
  split; [exact E|]. rewrite E. clear E resp.
  rewrite gRPCErrorToSDKError_root.
  assert (forall p d, FromError (Wrap p d)
                      = Some match FromError p with
                             | Some c => c
                             | None => codeUnknown
                             end) as Hw.
  { intros p d. simpl. destruct (FromError p); reflexivity. }
  split; [destruct (FromError err) as [[| | | |n]|]; reflexivity|].
  split; [reflexivity|].
  split; [destruct (FromError err) as [[| | | |n]|]; simpl; discriminate|].
  split; [destruct (FromError err) as [[| | | |n]|]; simpl; discriminate|].
  split; [destruct (FromError err) as [[| | | |n]|]; simpl; split; intros H;
          first [reflexivity | discriminate H]|].
  split; [destruct (FromError err) as [[| | | |n]|]; simpl; split; intros H;
          first [reflexivity | discriminate H]|].
  split.
  { destruct (FromError err) as [[| | | |n]|]; simpl; split; intros H;
      try reflexivity; try discriminate H; auto;
      destruct H as [H|[H|H]]; discriminate H. }
  split.
  { destruct (FromError err) as [[| | | |n]|]; simpl; split; intros H;
      try reflexivity; try discriminate H; eauto;
      destruct H as [? H]; discriminate H. }
  split; [intros c m ->; reflexivity|].
  split; [intros e ->; reflexivity|].
  split; [intros p d ->; apply Hw|].
  split.
  { intros p d -> Hp. rewrite Hw.
    destruct Hp as [->|[n ->]]; reflexivity. }
  split.
  { intros [[m ->]|[[c ->]|[m ->]]]; reflexivity. }
  destruct (FromError err) as [[| | | |n]|]; eexists; split; reflexivity.
Qed.

(** The statement above at a route whose handler reports a missing key: the
    query is answered with code 22 of the [sdk] codespace at height 7. *)
Lemma grpc_handler_error_is_mapped_witness :
  ResponseQuery.Code
    (Query Samples.missingApp (Example.query Samples.missingRoute 0 false)) = 22
  /\ ResponseQuery.Height
       (Query Samples.missingApp (Example.query Samples.missingRoute 0 false)) = 7.
Proof.
  assert (grpcRouted Samples.missingApp (Example.query Samples.missingRoute 0 false)
            Samples.missingHandler) as Hr
    by (split; [simpl; discriminate | reflexivity]).
  destruct (@grpc_handler_error_is_mapped Samples.missingApp
              (Example.query Samples.missingRoute 0 false) Samples.missingHandler
              {| ms := {| parent := []; writes := [] |};
                 ctx := WithBlockHeight 7
                          (WithMinGasPrices (minGasPrices Samples.missingApp)
                             (NewContext Header.zero true)) |}
              (StatusError CodeNotFound "no such key") Hr)
    as [E _].
  - vm_compute. reflexivity.
  - reflexivity.
  - rewrite E. split; reflexivity.
Defined.

(** The height a query context is built for: the latest version when the
    request leaves the height unset. *)
Lemma CreateQueryContext_cases (app : BaseApp) (height : Z) (prove : bool) :
  let latest := Store.LatestVersion (queryMultiStore app) in
  let h := if height =? 0 then latest else height in
  (0 <= height <= latest /\ latest <> 0 /\ ((h <=? 1) && prove = false)
   /\ exists kv, Store.lookupVersion h (Store.history (queryMultiStore app)) = Some kv
      /\ CreateQueryContext app height prove
         = (cs <- deref (checkState app) ;;
            Return (inl {| ms := {| parent := kv; writes := [] |};
                           ctx :=
                             (fun c =>
                                if negb (h =? latest)
                                then match Store.commitTimestamp (cms app) h with
                                     | Some t => WithBlockTime t c
                                     | None => c
                                     end
                                else c)
                               (WithBlockHeight h
                                  (WithMinGasPrices (minGasPrices app)
                                     (NewContext (header (ctx cs)) true))) |})))
  \/ ((~ (0 <= height <= latest /\ latest <> 0 /\ ((h <=? 1) && prove = false)
          /\ exists kv, Store.lookupVersion h (Store.history (queryMultiStore app))
                        = Some kv))
      /\ exists err, CreateQueryContext app height prove = Return (inr err)).
Proof.
  intros latest h. unfold CreateQueryContext, checkNegativeHeight.
  fold latest. 
  destruct (Z.ltb_spec height 0) as [Hn|Hn].
  { right. split; [intros [H _]; lia | eauto]. }
  destruct (Z.eqb_spec latest 0) as [Hz|Hz].
  { right. split; [intros [_ [H _]]; contradiction | eauto]. }
  destruct (Z.ltb_spec latest height) as [Hf|Hf].
  { right. split; [intros [H _]; lia | eauto]. }
  fold h.
  destruct ((h <=? 1) && prove) eqn:Hp.
  { right. split; [intros [_ [_ [H _]]]; discriminate | eauto]. }
  unfold Store.CacheMultiStoreWithVersion.
  destruct (Store.lookupVersion h (Store.history (queryMultiStore app))) as [kv|] eqn:Hv.
  - left. split; [lia|]. split; [exact Hz|]. split; [reflexivity|].
    exists kv. split; reflexivity.
  - right. split; [intros [_ [_ [_ [kv Hkv]]]]; discriminate | eauto].
Qed.

(** X6.  A query context, when [CreateQueryContext] returns one, is a
    read-only view of committed state: its height is the requested height,
    or the latest version for the unset height, and lies between 1 and the
    latest version (from 2 on when a proof is asked); its store is an
    unwritten branch of the version committed at that height; it is a
    check-transaction context with the minimum gas prices of the
    application; its block time is the commit time of that version when the
    root store reports one for a height other than the latest, and the time
    of the check state otherwise. *)
Theorem query_context_is_committed_view
    (app : BaseApp) (height : Z) (prove : bool) (qctx : state) :
  CreateQueryContext app height prove = Return (inl qctx) ->
  let latest := Store.LatestVersion (queryMultiStore app) in
  let h := if height =? 0 then latest else height in
  1 <= h <= latest
  /\ (prove = true -> 2 <= h)
  /\ Header.Height (header (ctx qctx)) = h
  /\ Store.lookupVersion h (Store.history (queryMultiStore app))
     = Some (parent (ms qctx))
  /\ writes (ms qctx) = []
  /\ checkTx (ctx qctx) = true
  /\ ctxMinGasPrices (ctx qctx) = minGasPrices app
  /\ exists cs,
       checkState app = Some cs
       /\ Header.ChainID (header (ctx qctx)) = Header.ChainID (header (ctx cs))
       /\ Header.Time (header (ctx qctx))
          = if h =? latest then Header.Time (header (ctx cs))
            else match Store.commitTimestamp (cms app) h with
                 | Some t => t
                 | None => Header.Time (header (ctx cs))
                 end.
Proof.
  intros H latest h.
  destruct (CreateQueryContext_cases app height prove)
    as [[Hr [Hz [Hp [kv [Hv E]]]]]|[_ [err E]]];
    [|rewrite E in H; discriminate].
  fold latest in Hr, Hz, Hp, Hv, E. fold h in Hp, Hv, E.
  rewrite E in H. destruct (checkState app) as [cs|]; [|discriminate].
  simpl in H. injection H as <-.
  assert (1 <= h <= latest) as Hh.
  { unfold h. destruct (Z.eqb_spec height 0); lia. }
  split; [exact Hh|]. split.
  { intros ->. rewrite andb_true_r in Hp. apply Z.leb_gt in Hp. lia. }
  split.
  { simpl. destruct (negb (h =? latest)); [|reflexivity].
    destruct (Store.commitTimestamp (cms app) h); reflexivity. }
  split; [exact Hv|]. split; [reflexivity|]. split.
  { simpl. destruct (negb (h =? latest)); [|reflexivity].
    destruct (Store.commitTimestamp (cms app) h); reflexivity. }
  split.
  { simpl. destruct (negb (h =? latest)); [|reflexivity].
    destruct (Store.commitTimestamp (cms app) h); reflexivity. }
  exists cs. split; [reflexivity|]. split.
  { simpl. destruct (negb (h =? latest)); [|reflexivity].
    destruct (Store.commitTimestamp (cms app) h); reflexivity. }
  simpl. destruct (h =? latest); simpl; [reflexivity|].
  destruct (Store.commitTimestamp (cms app) h); reflexivity.
Qed.

(** The statement above at the echoing store (latest version 7) for a query
    at height 3, which the store committed at time 33. *)
Lemma query_context_is_committed_view_witness :
  exists qctx,
    CreateQueryContext Samples.echoApp 3 false = Return (inl qctx)
    /\ Header.Height (header (ctx qctx)) = 3
    /\ Header.Time (header (ctx qctx)) = 33
    /\ writes (ms qctx) = [].
Proof.
  destruct (CreateQueryContext Samples.echoApp 3 false) as [[qctx|e]|v] eqn:E;
    [|vm_compute in E; discriminate E|vm_compute in E; discriminate E].
  exists qctx. split; [reflexivity|].
  destruct (@query_context_is_committed_view Samples.echoApp 3 false qctx E)
    as [_ [_ [Hh [_ [Hw [_ [_ [cs [Hcs [_ Ht]]]]]]]]]].
  split; [exact Hh|]. split; [|exact Hw].
  rewrite Ht. reflexivity.
Defined.

(** X7.  [CreateQueryContext] returns a context exactly when the height is
    between 0 and the latest version, something is committed, no proof is
    asked at a resolved height of at most 1, the store holds the version of
    the resolved height, and the check state is set.  When only the check
    state is missing it panics; in every other case it returns an error. *)
Theorem query_context_exists_iff (app : BaseApp) (height : Z) (prove : bool) :
  let latest := Store.LatestVersion (queryMultiStore app) in
  let h := if height =? 0 then latest else height in
  let admissible :=
    0 <= height <= latest /\ latest <> 0 /\ ~ (h <= 1 /\ prove = true)
    /\ exists kv, Store.lookupVersion h (Store.history (queryMultiStore app)) = Some kv in
  ((exists qctx, CreateQueryContext app height prove = Return (inl qctx))
   <-> admissible /\ checkState app <> None)
  /\ (panics (CreateQueryContext app height prove)
      <-> admissible /\ checkState app = None)
  /\ ((exists err, CreateQueryContext app height prove = Return (inr err))
      <-> ~ admissible).
Proof.
  intros latest h admissible.
  assert (((h <=? 1) && prove = false) <-> ~ (h <= 1 /\ prove = true)) as Hb.
  { destruct (Z.leb_spec h 1) as [Hle|Hgt]; destruct prove; simpl; split; intros Hx;
      try reflexivity; try discriminate;
      try (intros [F1 F2]; first [discriminate F2 | lia]).
    exfalso. apply Hx. split; [assumption | reflexivity]. }
  pose proof (CreateQueryContext_cases app height prove) as C.
  cbv zeta in C. fold latest in C. fold h in C.
  destruct C as [[Hr [Hz [Hp [kv [Hv E]]]]]|[Hnot [err E]]].
  - assert admissible as Ha.
    { split; [exact Hr|]. split; [exact Hz|]. split; [apply Hb, Hp|].
      exists kv. exact Hv. }
    rewrite E. destruct (checkState app) as [cs|]; simpl.
    + split; [|split].
      * split; [intros _; split; [exact Ha | discriminate] | intros _; eauto].
      * split; [intros [v F]; discriminate | intros [_ F]; discriminate].
      * split; [intros [e F]; discriminate | intros F; contradiction].
    + split; [|split].
      * split; [intros [q F]; discriminate | intros [_ F]; contradiction].
      * split; [intros _; split; [exact Ha | reflexivity] | intros _; eexists; reflexivity].
      * split; [intros [e F]; discriminate | intros F; contradiction].
  - assert (~ admissible) as Ha.
    { intros [A1 [A2 [A3 A4]]]. apply Hnot. split; [exact A1|]. split; [exact A2|].
      split; [apply Hb, A3 | exact A4]. }
    rewrite E. split; [|split].
    + split; [intros [q F]; discriminate | intros [F _]; contradiction].
    + split; [intros [v F]; discriminate | intros [F _]; contradiction].
    + split; [intros _; exact Ha | intros _; eauto].
Qed.

(** The statement above at the echoing store: a context exists for height 3,
    and none for height 9, beyond the latest version 7. *)
Lemma query_context_exists_iff_witness :
  (exists qctx, CreateQueryContext Samples.echoApp 3 false = Return (inl qctx))
  /\ exists err, CreateQueryContext Samples.echoApp 9 false = Return (inr err).
Proof.
  split.
  - destruct (query_context_exists_iff Samples.echoApp 3 false) as [[_ H] _].
    apply H. split; [|discriminate].
    split; [vm_compute; split; discriminate|]. split; [discriminate|].
    split; [intros [_ F]; discriminate F|]. eexists. reflexivity.
  - destruct (query_context_exists_iff Samples.echoApp 9 false) as [_ [_ [_ H]]].
    apply H. intros [[_ F] _]. vm_compute in F. apply F. reflexivity.
Defined.

(* ------------------------------------------------------------------ *)
(** *** The stages of a block *)
(* ------------------------------------------------------------------ *)

Lemma txResponse_ext (a b : BaseApp) (raw : bytes) (st : state) :
  txDecoder a = txDecoder b -> deliverTx a = deliverTx b ->
  txResponse a raw st = txResponse b raw st.
Proof. intros Ht Hd. unfold txResponse. rewrite Ht, Hd. reflexivity. Qed.

Lemma executeTxs_ext (a b : BaseApp) (cctx : CallerContext) (txs : list bytes) :
  txDecoder a = txDecoder b -> deliverTx a = deliverTx b ->
  forall i st acc, executeTxs a cctx txs i st acc = executeTxs b cctx txs i st acc.
Proof.
  intros Ht Hd. induction txs as [|raw rest IH]; intros i st acc; simpl.
  - reflexivity.
  - rewrite (txResponse_ext a b raw st Ht Hd).
    destruct (txResponse b raw st) as [[r st1]|v]; simpl; [|reflexivity].
    destruct (Done cctx (AfterTx i)); [reflexivity | apply IH].
Qed.

(** A response of the stages, traced back to the hooks that produced it. *)
Lemma runStages_response (app : BaseApp) (cctx : CallerContext)
    (req : RequestFinalizeBlock.t) (st st' : state)
    (res : ResponseFinalizeBlock.t) (e : option error) :
  runStages cctx req app st = Return ((Some res, e), st') ->
  exists ev bb eb st1 st2 g st3,
    preBlock app req st = Return (inl ev, st1)
    /\ beginBlock app req st1 = Return (inl bb, st2)
    /\ getBlockGasMeter app st2 = Return g
    /\ executeTxs app cctx (RequestFinalizeBlock.Txs req) 0
         (SetContext (WithBlockGasMeter g (Context_of st2)) st2) []
       = Return (inl (ResponseFinalizeBlock.TxResults res), st3)
    /\ endBlock app st3 = Return (inl eb, st')
    /\ GetConsensusParams app st'
       = Return (ResponseFinalizeBlock.ConsensusParamUpdates res)
    /\ ResponseFinalizeBlock.Events res
       = (ev ++ BeginBlockEvents bb ++ EndBlockEvents eb)%list
    /\ ResponseFinalizeBlock.ValidatorUpdates res = EndBlockValidatorUpdates eb
    /\ ResponseFinalizeBlock.AppHash res = None
    /\ e = None.
Proof.
  unfold runStages. intros H.
  apply obind_Return in H as [[pre st1] [Epre H]].
  destruct pre as [ev|err]; [|discriminate].
  apply obind_Return in H as [[bb st2] [Ebb H]].
  destruct bb as [bb|err]; [|discriminate].
  destruct (Done cctx AfterBeginBlock); [discriminate|].
  apply obind_Return in H as [g [Eg H]].
  apply obind_Return in H as [[txs st3] [Etx H]].
  destruct txs as [results|err]; [|discriminate].
  apply obind_Return in H as [[eb st4] [Eeb H]].
  destruct eb as [eb|err]; [|discriminate].
  destruct (Done cctx AfterEndBlock); [discriminate|].
  apply obind_Return in H as [cp [Ecp H]].
  injection H as <- <- <-.
  exists ev, bb, eb, st1, st2, g, st3. simpl.
  rewrite <- app_assoc. repeat split; assumption.
Qed.

(** X8.  A block that [internalFinalizeBlock] answers with a response went
    through the hooks in a fixed order, each on the finalize state the
    previous one left: pre-block on the prepared state, begin-block, the
    transactions under a freshly built block gas meter, end-block.  The
    events of the response are the pre-block, begin-block and end-block
    events in that order (the events of the transactions stay in their own
    results), the validator updates are those of end-block, the consensus
    parameters are read from the state end-block left, which is the finalize
    state the application keeps, and the application hash is not yet set. *)
Theorem block_response_assembly
    (cctx : CallerContext) (req : RequestFinalizeBlock.t) (app app' : BaseApp)
    (res : ResponseFinalizeBlock.t) (e : option error) :
  internalFinalizeBlock cctx req app = Return ((Some res, e), app') ->
  exists app1 st0 ev bb eb st1 st2 g st3 st4,
    prepareFinalizeState req app = Return (app1, st0)
    /\ preBlock app req st0 = Return (inl ev, st1)
    /\ beginBlock app req st1 = Return (inl bb, st2)
    /\ getBlockGasMeter app st2 = Return g
    /\ executeTxs app cctx (RequestFinalizeBlock.Txs req) 0
         (SetContext (WithBlockGasMeter g (Context_of st2)) st2) []
       = Return (inl (ResponseFinalizeBlock.TxResults res), st3)
    /\ endBlock app st3 = Return (inl eb, st4)
    /\ finalizeBlockState app' = Some st4
    /\ GetConsensusParams app st4
       = Return (ResponseFinalizeBlock.ConsensusParamUpdates res)
    /\ ResponseFinalizeBlock.Events res
       = (ev ++ BeginBlockEvents bb ++ EndBlockEvents eb)%list
    /\ ResponseFinalizeBlock.ValidatorUpdates res = EndBlockValidatorUpdates eb
    /\ ResponseFinalizeBlock.AppHash res = None
    /\ e = None.
Proof.
  unfold internalFinalizeBlock. intros H.
  destruct (checkHalt app _ _) as [x|]; [discriminate|].
  destruct (validateFinalizeBlockHeight app req) as [x|]; [discriminate|].
  apply obind_Return in H as [[app1 st0] [Eprep H]].
  apply obind_Return in H as [[r1 st4] [Erun H]].
  injection H as -> <-.
  destruct (prepareFinalizeState_keeps _ _ Eprep)
    as [_ [Kt [Kd [Kp [Kb [Ke Ks]]]]]].
  apply runStages_response in Erun
    as [ev [bb [eb [st1 [st2 [g [st3 [E1 [E2 [E3 [E4 [E5 [E6 [E7 [E8 [E9 E10]]]]]]]]]]]]]]]].
  exists app1, st0, ev, bb, eb, st1, st2, g, st3, st4.
  rewrite Kp in E1. rewrite Kb in E2. rewrite Ke in E5.
  rewrite (getBlockGasMeter_ext app1 app st2 Ks) in E3.
  rewrite (GetConsensusParams_ext app1 app st4 Ks) in E6.
  rewrite (executeTxs_ext app1 app cctx _ Kt Kd) in E4.
  repeat split; assumption.
Qed.

(** The statement above at the running example: block 8 with one
    transaction carries the events of the three hooks in order. *)
Lemma block_response_assembly_witness :
  exists res app',
    internalFinalizeBlock Background (Example.block 8 [[x01]]) Example.running
    = Return ((Some res, None), app')
    /\ ResponseFinalizeBlock.Events res
       = [Example.event "pre"; Example.event "begin"; Example.event "end"]
    /\ ResponseFinalizeBlock.AppHash res = None.
Proof.
  destruct (internalFinalizeBlock Background (Example.block 8 [[x01]]) Example.running)
    as [[[[res|] e] app']|v] eqn:E;
    [|vm_compute in E; discriminate E|vm_compute in E; discriminate E].
  destruct (@block_response_assembly Background (Example.block 8 [[x01]])
              Example.running app' res e E)
    as [app1 [st0 [ev [bb [eb [st1 [st2 [g [st3 [st4
         [_ [E1 [E2 [_ [_ [E5 [_ [_ [Ev [_ [Eh Ee]]]]]]]]]]]]]]]]]]]]].
  exists res, app'. rewrite Ee. split; [reflexivity|]. split; [|exact Eh].
  rewrite Ev. injection E1 as <- _. injection E2 as <- _. injection E5 as <- _.
  reflexivity.
Defined.




(* ------------------------------------------------------------------ *)
(** *** Chain initialisation, continued *)
(* ------------------------------------------------------------------ *)

Lemma ValidatorUpdate_eqb_refl (v : ValidatorUpdate) : ValidatorUpdate_eqb v v = true.
Proof. apply ValidatorUpdate_eqb_eq. reflexivity. Qed.

Lemma compareValidators_same (l : list ValidatorUpdate) :
  forall i, compareValidators i l l = Return tt.
Proof.
  induction l as [|v l IH]; intros i; simpl; [reflexivity|].
  rewrite ValidatorUpdate_eqb_refl. apply IH.
Qed.

(** The sanity check passes when the request names no validators, and when
    the two lists have the same length and sort to the same list. *)
Lemma checkGenesisValidators_accepts
    (sortV : list ValidatorUpdate -> list ValidatorUpdate)
    (reqV resV : list ValidatorUpdate) :
  reqV = [] \/ (List.length resV = List.length reqV /\ sortV resV = sortV reqV) ->
  checkGenesisValidators sortV reqV resV
  = Return (match reqV with [] => resV | _ => sortV resV end).
Proof.
  unfold checkGenesisValidators. intros [->|[Hl Hs]]; [reflexivity|].
  destruct reqV as [|q reqV]; [reflexivity|].
  change (0 <? Z.of_nat (List.length (q :: reqV))) with true.
  rewrite Hl, Z.eqb_refl. simpl negb. cbv iota.
  rewrite <- Hs, compareValidators_same. reflexivity.
Qed.

(** The steps of [InitChain] before the initializer runs, when none of them
    panics: the application they leave holds the initial height of the
    request, a finalize state and a check state on the genesis header, and
    the collaborators and the last commit it had. *)
Lemma InitChain_prologue
    (sortV : list ValidatorUpdate -> list ValidatorUpdate)
    (app : BaseApp) (req : RequestInitChain.t) :
  RequestInitChain.ChainId req = chainID app ->
  (1 < RequestInitChain.InitialHeight req ->
   Store.setInitialVersionErr (cms app) = None) ->
  (RequestInitChain.ConsensusParams req <> None -> paramStore app <> None) ->
  exists app2 fs,
    finalizeBlockState app2 = Some fs
    /\ initChainer app2 = initChainer app
    /\ LastCommitID app2 = LastCommitID app
    /\ InitChain sortV app req
       = match initChainer app with
         | None => Return (ResponseInitChain.zero, app2)
         | Some f =>
             let st := SetContext (WithBlockGasMeter InfiniteGasMeter (Context_of fs)) fs in
             '(res, branch) <- f st req ;;
             validators <- checkGenesisValidators sortV
                             (RequestInitChain.Validators req)
                             (ResponseInitChain.Validators res) ;;
             Return
               ({| ResponseInitChain.ConsensusParams := ResponseInitChain.ConsensusParams res;
                   ResponseInitChain.Validators := validators;
                   ResponseInitChain.AppHash := initChainAppHash app |},
                set_finalizeBlockState (Some {| ms := branch; ctx := ctx st |})
                  (set_finalizeBlockState (Some st) app2))
         end.
Proof.
  intros Hc Hv Hp. unfold InitChain.
  rewrite Hc, String.eqb_refl. simpl negb. cbv iota.
  destruct (1 <? RequestInitChain.InitialHeight req) eqn:Hi.
  - apply Z.ltb_lt in Hi. specialize (Hv Hi).
    unfold Store.SetInitialVersion.
    change (cms (set_initialHeight (RequestInitChain.InitialHeight req) app))
      with (cms app).
    rewrite Hv.
    destruct (RequestInitChain.ConsensusParams req) as [cp|] eqn:Ecp.
    + destruct (paramStore app) as [ps|] eqn:Eps; [|exfalso; apply Hp; [discriminate | reflexivity]].
      cbn [obind setState deref finalizeBlockState set_finalizeBlockState
           set_checkState set_cms set_initialHeight].
      unfold StoreConsensusParams.
      cbn [paramStore set_finalizeBlockState set_checkState set_cms set_initialHeight].
      rewrite Eps. cbn [obind].
      eexists. eexists. split; [|split; [|split]]; cycle 3.
      * cbn [initChainer set_finalizeBlockState set_checkState set_cms set_initialHeight].
        destruct (initChainer app); reflexivity.
      * reflexivity.
      * reflexivity.
      * reflexivity.
    + cbn [obind setState deref finalizeBlockState set_finalizeBlockState
           set_checkState set_cms set_initialHeight].
      eexists. eexists. split; [|split; [|split]]; cycle 3.
      * cbn [initChainer set_finalizeBlockState set_checkState set_cms set_initialHeight].
        destruct (initChainer app); reflexivity.
      * reflexivity.
      * reflexivity.
      * reflexivity.
  - destruct (RequestInitChain.ConsensusParams req) as [cp|] eqn:Ecp.
    + destruct (paramStore app) as [ps|] eqn:Eps; [|exfalso; apply Hp; [discriminate | reflexivity]].
      cbn [obind setState deref finalizeBlockState set_finalizeBlockState
           set_checkState set_cms set_initialHeight].
      unfold StoreConsensusParams.
      cbn [paramStore set_finalizeBlockState set_checkState set_cms set_initialHeight].
      rewrite Eps. cbn [obind].
      eexists. eexists. split; [|split; [|split]]; cycle 3.
      * cbn [initChainer set_finalizeBlockState set_checkState set_cms set_initialHeight].
        destruct (initChainer app); reflexivity.
      * reflexivity.
      * reflexivity.
      * reflexivity.
    + cbn [obind setState deref finalizeBlockState set_finalizeBlockState
           set_checkState set_cms set_initialHeight].
      eexists. eexists. split; [|split; [|split]]; cycle 3.
      * cbn [initChainer set_finalizeBlockState set_checkState set_cms set_initialHeight].
        destruct (initChainer app); reflexivity.
      * reflexivity.
      * reflexivity.
      * reflexivity.
Qed.

(** X10.  [InitChain] accepts a genesis whose validators match those of the
    initializer.  With the chain identifier of the application, a store that
    accepts the initial version when the initial height is above 1, a
    parameter store when the request carries consensus parameters, and an
    initializer that returns, on every state, validators that sort to the
    same list as the request's and are as many (or the request names none):
    [InitChain] returns, the response carries the consensus parameters of
    the initializer and its validators, sorted when the request names some
    and as the initializer returned them otherwise, and the application keeps
    the branch the initializer wrote as its finalize state. *)
Theorem initchain_accepts_matching_validators
    (sortV : list ValidatorUpdate -> list ValidatorUpdate)
    (app : BaseApp) (req : RequestInitChain.t) (f : InitChainer) :
  initChainer app = Some f ->
  RequestInitChain.ChainId req = chainID app ->
  (1 < RequestInitChain.InitialHeight req ->
   Store.setInitialVersionErr (cms app) = None) ->
  (RequestInitChain.ConsensusParams req <> None -> paramStore app <> None) ->
  (forall st, exists r branch,
      f st req = Return (r, branch)
      /\ (RequestInitChain.Validators req = []
          \/ (List.length (ResponseInitChain.Validators r)
              = List.length (RequestInitChain.Validators req)
              /\ sortV (ResponseInitChain.Validators r)
                 = sortV (RequestInitChain.Validators req)))) ->
  exists res app' st r branch,
    InitChain sortV app req = Return (res, app')
    /\ f st req = Return (r, branch)
    /\ blockGasMeter (ctx st) = Some InfiniteGasMeter
    /\ ResponseInitChain.ConsensusParams res = ResponseInitChain.ConsensusParams r
    /\ ResponseInitChain.Validators res
       = match RequestInitChain.Validators req with
         | [] => ResponseInitChain.Validators r
         | _ => sortV (ResponseInitChain.Validators r)
         end
    /\ finalizeBlockState app' = Some {| ms := branch; ctx := ctx st |}.
Proof.
  intros Hf Hc Hv Hp Hinit.
  destruct (InitChain_prologue sortV app req Hc Hv Hp)
    as [app2 [fs [Hfs [_ [_ E]]]]].
  rewrite Hf in E. cbv zeta in E.
  set (st := SetContext (WithBlockGasMeter InfiniteGasMeter (Context_of fs)) fs) in E.
  destruct (Hinit st) as [r [branch [Er Hm]]].
  rewrite Er in E. cbn [obind] in E.
  rewrite (@checkGenesisValidators_accepts sortV _ _ Hm) in E. cbn [obind] in E.
  eexists. eexists. exists st, r, branch.
  split; [exact E|]. split; [exact Er|]. repeat split.
Qed.

(** The statement above for a genesis of two validators that the initializer
    announces in the other order. *)
Lemma initchain_accepts_matching_validators_witness :
  exists res app',
    InitChain Example.sortByPower
      (Example.withInitializer (Example.store 0 None)
         (Example.announce [Example.validator x02 20; Example.validator x01 10]))
      (Example.genesis 1 [Example.validator x01 10; Example.validator x02 20])
    = Return (res, app')
    /\ ResponseInitChain.Validators res
       = [Example.validator x01 10; Example.validator x02 20].
Proof.
  destruct (@initchain_accepts_matching_validators Example.sortByPower
              (Example.withInitializer (Example.store 0 None)
                 (Example.announce [Example.validator x02 20; Example.validator x01 10]))
              (Example.genesis 1 [Example.validator x01 10; Example.validator x02 20])
              (Example.announce [Example.validator x02 20; Example.validator x01 10])
              eq_refl eq_refl)
    as [res [app' [st [r [branch [E [Er [_ [_ [Evs _]]]]]]]]]].
  - intros _. reflexivity.
  - intros F. exfalso. apply F. reflexivity.
  - intros st. eexists. eexists. split; [reflexivity|].
    right. split; reflexivity.
  - exists res, app'. split; [exact E|]. rewrite Evs.
    injection Er as <- _. reflexivity.
Defined.

(** X11.  What [InitChain] leaves for the first block.  When it returns, the
    application holds the initial height of the request, a finalize state
    and a check state whose block header is the genesis header (the chain
    identifier and time of the request, at the initial height when that is
    above 1 and at height 0 otherwise), and the last commit it had.  If
    nothing was committed before, the one block height
    [validateFinalizeBlockHeight] then accepts is the initial height, or 1
    when the initial height is at most 1. *)
Theorem initchain_prepares_first_block
    (sortV : list ValidatorUpdate -> list ValidatorUpdate)
    (app : BaseApp) (req : RequestInitChain.t)
    (res : ResponseInitChain.t) (app' : BaseApp) :
  InitChain sortV app req = Return (res, app') ->
  let genesisHeader :=
    {| Header.ChainID := RequestInitChain.ChainId req;
       Header.Height := if 1 <? RequestInitChain.InitialHeight req
                        then RequestInitChain.InitialHeight req else 0;
       Header.Time := RequestInitChain.Time req;
       Header.ProposerAddress := None;
       Header.NextValidatorsHash := None; Header.AppHash := None |} in
  initialHeight app' = RequestInitChain.InitialHeight req
  /\ RequestInitChain.ChainId req = chainID app
  /\ LastCommitID app' = LastCommitID app
  /\ (exists fs cs,
        finalizeBlockState app' = Some fs /\ checkState app' = Some cs
        /\ header (ctx fs) = genesisHeader /\ header (ctx cs) = genesisHeader
        /\ checkTx (ctx fs) = false /\ checkTx (ctx cs) = true
        /\ (initChainer app <> None -> blockGasMeter (ctx fs) = Some InfiniteGasMeter))
  /\ (LastBlockHeight app = 0 ->
      Int64.in_range (RequestInitChain.InitialHeight req) ->
      forall blk,
        Int64.in_range (RequestFinalizeBlock.Height blk) ->
        (validateFinalizeBlockHeight app' blk = None
         <-> RequestFinalizeBlock.Height blk
             = Z.max 1 (RequestInitChain.InitialHeight req))).
Proof.
  intros H genesisHeader.
  assert (initialHeight app' = RequestInitChain.InitialHeight req
          /\ LastCommitID app' = LastCommitID app) as [HI HL]
    by (eapply InitChain_leaves; exact H).
  assert (RequestInitChain.ChainId req = chainID app) as Hc.
  { unfold InitChain in H.
    destruct (String.eqb_spec (RequestInitChain.ChainId req) (chainID app));
      [assumption | discriminate]. }
  split; [exact HI|]. split; [exact Hc|]. split; [exact HL|]. split.
  - unfold InitChain in H. rewrite Hc, String.eqb_refl in H.
    simpl negb in H. cbv iota in H.
    apply obind_Return in H as [[hdr app1] [E1 H]].
    assert (hdr = genesisHeader /\ initChainer app1 = initChainer app) as [-> I1].
    { unfold genesisHeader. rewrite Hc.
      destruct (1 <? RequestInitChain.InitialHeight req).
      - destruct (Store.SetInitialVersion _ _) as [root [err|]];
          [discriminate | injection E1 as <- <-; split; reflexivity].
      - injection E1 as <- <-. split; reflexivity. }
    clear E1.
    apply obind_Return in H as [app2 [E2 H]]. injection E2 as <-.
    apply obind_Return in H as [app3 [E3 H]]. injection E3 as <-.
    apply obind_Return in H as [app4 [E4 H]].
    assert (exists fs, finalizeBlockState app4 = Some fs
                       /\ header (ctx fs) = genesisHeader
                       /\ checkTx (ctx fs) = false
                       /\ checkState app4
                          = Some {| ms := Store.CacheMultiStore (cms app4);
                                    ctx := WithMinGasPrices (minGasPrices app4)
                                             (NewContext genesisHeader true) |}
                       /\ initChainer app4 = initChainer app)
      as [fs [F4 [Hh [Hk [C4 I4]]]]].
    { destruct (RequestInitChain.ConsensusParams req) as [cp|].
      - apply obind_Return in E4 as [s0 [D E4]]. injection D as <-.
        apply obind_Return in E4 as [s1 [S E4]]. injection E4 as <-.
        unfold StoreConsensusParams in S.
        destruct (paramStore _); [|discriminate]. injection S as <-.
        eexists. split; [reflexivity|]. repeat split. exact I1.
      - injection E4 as <-. eexists. split; [reflexivity|]. repeat split. exact I1. }
    rewrite I4 in H.
    destruct (initChainer app) as [f|].
    + apply obind_Return in H as [s0 [D H]]. rewrite F4 in D. injection D as <-.
      apply obind_Return in H as [[r branch] [Ef H]].
      apply obind_Return in H as [vs [_ H]]. injection H as _ <-.
      eexists. eexists. split; [reflexivity|]. split; [exact C4|].
      split; [exact Hh|]. split; [reflexivity|]. split; [exact Hk|].
      split; reflexivity.
    + injection H as _ <-. exists fs. eexists. split; [exact F4|].
      split; [exact C4|]. split; [exact Hh|]. split; [reflexivity|].
      split; [exact Hk|]. split; [reflexivity|]. intros F. contradiction.
  - intros Hz Hr blk Hb.
    assert (LastBlockHeight app' = 0) as Hz'
      by (unfold LastBlockHeight; rewrite HL; exact Hz).
    rewrite validate_accepts_iff; [|exact Hb|rewrite Hz'; unfold Int64.in_range; vm_compute; split; discriminate].
    rewrite Hz', HI. unfold spec_expectedHeight. simpl.
    destruct (Z.ltb_spec 1 (RequestInitChain.InitialHeight req)); lia.
Qed.

(** The statement above for a genesis at initial height 5 on a store that
    has committed nothing: block 5 is accepted afterwards, block 1 is not. *)
Lemma initchain_prepares_first_block_witness :
  exists res app',
    InitChain Example.sortByPower Example.fresh (Example.genesis 5 [])
    = Return (res, app')
    /\ validateFinalizeBlockHeight app' (Example.block 5 []) = None
    /\ validateFinalizeBlockHeight app' (Example.block 1 []) <> None.
Proof.
  destruct (InitChain Example.sortByPower Example.fresh (Example.genesis 5 []))
    as [[res app']|v] eqn:E; [|vm_compute in E; discriminate E].
  destruct (@initchain_prepares_first_block Example.sortByPower Example.fresh
              (Example.genesis 5 []) res app' E) as [_ [_ [_ [_ H]]]].
  assert (Int64.in_range 5) as R5 by (vm_compute; split; discriminate).
  assert (Int64.in_range 1) as R1 by (vm_compute; split; discriminate).
  exists res, app'. split; [reflexivity|]. split.
  - apply (H eq_refl R5 (Example.block 5 []) R5). reflexivity.
  - intros F. apply (H eq_refl R5 (Example.block 1 []) R1) in F. discriminate F.
Defined.

(* ------------------------------------------------------------------ *)
(** *** Proposals *)
(* ------------------------------------------------------------------ *)

(** Neither proposal method reads the proposal state it is about to reset. *)
Lemma PrepareProposal_resets (ph : ProposalHandlers) (app : BaseApp)
    (req : RequestPrepareProposal.t) (s : option state) :
  PrepareProposal ph (set_prepareProposalState s app) req = PrepareProposal ph app req.
Proof. reflexivity. Qed.

Lemma ProcessProposal_resets (ph : ProposalHandlers) (app : BaseApp)
    (req : RequestProcessProposal.t) (s : option state) :
  ProcessProposal ph (set_processProposalState s app) req = ProcessProposal ph app req.
Proof. reflexivity. Qed.

(** The context a proposal handler is called with, and what becomes of its
    answer.  The handler reads a fresh branch of the committed store, or, on
    the first block, a branch of the finalize state [InitChain] left. *)
Lemma PrepareProposal_shape (ph : ProposalHandlers) (app : BaseApp)
    (req : RequestPrepareProposal.t) (h : PrepareProposalHandler) :
  prepareProposal ph = Some h ->
  1 <= RequestPrepareProposal.Height req ->
  proposalContextBuilds app (RequestPrepareProposal.Height req) ->
  exists view,
    (Header.Height (header (ctx view)) = RequestPrepareProposal.Height req
     /\ Header.Time (header (ctx view)) = RequestPrepareProposal.Time req
     /\ Header.ProposerAddress (header (ctx view))
        = RequestPrepareProposal.ProposerAddress req
     /\ voteInfos (ctx view) = appVoteInfos ph
     /\ writes (ms view) = []
     /\ parent (ms view)
        = if RequestPrepareProposal.Height req =? initialHeight app
          then match finalizeBlockState app with
               | Some fs => (writes (ms fs) ++ parent (ms fs))%list
               | None => []
               end
          else Store.contents (cms app))
    /\ PrepareProposal ph app req
       = match h view req with
         | Return (resp, written) =>
             Return (resp,
                     set_prepareProposalState
                       (Some {| ms := proposalBranch app (RequestPrepareProposal.Height req)
                                        {| ms := Store.CacheMultiStore (cms app);
                                           ctx := NewContext (emptyHeader app) false |}
                                        written;
                                ctx := ctx view |}) app)
         | Panic _ =>
             Return ({| ResponsePrepareProposal.Txs := RequestPrepareProposal.Txs req |},
                     set_prepareProposalState
                       (Some {| ms := Store.CacheMultiStore (cms app);
                                ctx := ctx view |}) app)
         end.
Proof.
  intros Hh Hge [Hfs [Hcp Hg]]. unfold PrepareProposal. rewrite Hh.
  cbn [obind setState].
  destruct (Z.ltb_spec (RequestPrepareProposal.Height req) 1) as [Hlt|_]; [lia|].
  cbn [deref prepareProposalState set_prepareProposalState obind].
  unfold getContextForProposal, proposalBranch.
  cbn [initialHeight finalizeBlockState set_prepareProposalState].
  destruct (Z.eqb_spec (RequestPrepareProposal.Height req) (initialHeight app)) as [Hi|Hi].
  - destruct (finalizeBlockState app) as [fs|]; [|exfalso; apply (Hfs Hi); reflexivity].
    cbn [deref obind].
    match goal with
    | |- context [GetConsensusParams ?a ?v] =>
        change (GetConsensusParams a v) with (GetConsensusParams app v);
        destruct (Hcp v) as [cp ->];
        change (getBlockGasMeter a v) with (getBlockGasMeter app v);
        destruct (Hg v) as [g ->]
    end.
    cbn [obind].
    eexists. split; cycle 1.
    { reflexivity. }
    repeat split.
  - cbn [obind].
    match goal with
    | |- context [GetConsensusParams ?a ?v] =>
        change (GetConsensusParams a v) with (GetConsensusParams app v);
        destruct (Hcp v) as [cp ->];
        change (getBlockGasMeter a v) with (getBlockGasMeter app v);
        destruct (Hg v) as [g ->]
    end.
    cbn [obind].
    eexists. split; cycle 1.
    { reflexivity. }
    repeat split.
Qed.

Lemma ProcessProposal_shape (ph : ProposalHandlers) (app : BaseApp)
    (req : RequestProcessProposal.t) (h : ProcessProposalHandler) :
  processProposal ph = Some h ->
  1 <= RequestProcessProposal.Height req ->
  proposalContextBuilds app (RequestProcessProposal.Height req) ->
  exists view,
    (Header.Height (header (ctx view)) = RequestProcessProposal.Height req
     /\ Header.Time (header (ctx view)) = RequestProcessProposal.Time req
     /\ Header.ProposerAddress (header (ctx view))
        = RequestProcessProposal.ProposerAddress req
     /\ headerHash (ctx view) = RequestProcessProposal.Hash req
     /\ voteInfos (ctx view) = appVoteInfos ph
     /\ writes (ms view) = []
     /\ parent (ms view)
        = if RequestProcessProposal.Height req =? initialHeight app
          then match finalizeBlockState app with
               | Some fs => (writes (ms fs) ++ parent (ms fs))%list
               | None => []
               end
          else Store.contents (cms app))
    /\ ProcessProposal ph app req
       = match h view req with
         | Return (resp, written) =>
             Return (resp,
                     set_processProposalState
                       (Some {| ms := proposalBranch app (RequestProcessProposal.Height req)
                                        {| ms := Store.CacheMultiStore (cms app);
                                           ctx := NewContext (emptyHeader app) false |}
                                        written;
                                ctx := ctx view |}) app)
         | Panic _ =>
             Return ({| ResponseProcessProposal.Status := ResponseProcessProposal_REJECT |},
                     set_processProposalState
                       (Some {| ms := Store.CacheMultiStore (cms app);
                                ctx := ctx view |}) app)
         end.
Proof.
  intros Hh Hge [Hfs [Hcp Hg]]. unfold ProcessProposal. rewrite Hh.
  destruct (Z.ltb_spec (RequestProcessProposal.Height req) 1) as [Hlt|_]; [lia|].
  cbn [obind setState].
  cbn [deref processProposalState set_processProposalState obind].
  unfold getContextForProposal, proposalBranch.
  cbn [initialHeight finalizeBlockState set_processProposalState].
  destruct (Z.eqb_spec (RequestProcessProposal.Height req) (initialHeight app)) as [Hi|Hi].
  - destruct (finalizeBlockState app) as [fs|]; [|exfalso; apply (Hfs Hi); reflexivity].
    cbn [deref obind].
    match goal with
    | |- context [GetConsensusParams ?a ?v] =>
        change (GetConsensusParams a v) with (GetConsensusParams app v);
        destruct (Hcp v) as [cp ->];
        change (getBlockGasMeter a v) with (getBlockGasMeter app v);
        destruct (Hg v) as [g ->]
    end.
    cbn [obind].
    eexists. split; cycle 1.
    { reflexivity. }
    repeat split.
  - cbn [obind].
    match goal with
    | |- context [GetConsensusParams ?a ?v] =>
        change (GetConsensusParams a v) with (GetConsensusParams app v);
        destruct (Hcp v) as [cp ->];
        change (getBlockGasMeter a v) with (getBlockGasMeter app v);
        destruct (Hg v) as [g ->]
    end.
    cbn [obind].
    eexists. split; cycle 1.
    { reflexivity. }
    repeat split.
Qed.

(** X12.  [PrepareProposal] never fails because of its handler.  With a
    handler set, a height of at least 1 and a proposal context that can be
    built, it returns: the handler is called once, with a context at the
    height, time and proposer of the request over an unwritten branch (of
    the committed store, or of the finalize state on the first block); the
    response is the handler's when it returns, and the transactions of the
    request, unchanged, when it panics.  Only the prepare-proposal state of
    the application changes. *)
Theorem prepare_proposal_recovers_handler_panic
    (ph : ProposalHandlers) (app : BaseApp)
    (req : RequestPrepareProposal.t) (h : PrepareProposalHandler) :
  prepareProposal ph = Some h ->
  1 <= RequestPrepareProposal.Height req ->
  proposalContextBuilds app (RequestPrepareProposal.Height req) ->
  exists view resp s,
    PrepareProposal ph app req = Return (resp, set_prepareProposalState (Some s) app)
    /\ Header.Height (header (ctx view)) = RequestPrepareProposal.Height req
    /\ Header.Time (header (ctx view)) = RequestPrepareProposal.Time req
    /\ Header.ProposerAddress (header (ctx view))
       = RequestPrepareProposal.ProposerAddress req
    /\ writes (ms view) = []
    /\ (RequestPrepareProposal.Height req <> initialHeight app ->
        parent (ms view) = Store.contents (cms app))
    /\ (forall r written, h view req = Return (r, written) -> resp = r)
    /\ (panics (h view req) ->
        resp = {| ResponsePrepareProposal.Txs := RequestPrepareProposal.Txs req |}).
Proof.
  intros Hh Hge Hb.
  destruct (@PrepareProposal_shape ph app req h Hh Hge Hb)
    as [view [[V1 [V2 [V3 [_ [V5 V6]]]]] E]].
  exists view.
  destruct (h view req) as [[r written]|v] eqn:Eh.
  - eexists. eexists. split; [exact E|].
    split; [exact V1|]. split; [exact V2|]. split; [exact V3|]. split; [exact V5|].
    split.
    { intros Hn. rewrite V6.
      destruct (Z.eqb_spec (RequestPrepareProposal.Height req) (initialHeight app));
        [contradiction | reflexivity]. }
    split; [intros r' w' Hr; injection Hr as <- _; reflexivity|].
    intros [x F]. discriminate F.
  - eexists. eexists. split; [exact E|].
    split; [exact V1|]. split; [exact V2|]. split; [exact V3|]. split; [exact V5|].
    split.
    { intros Hn. rewrite V6.
      destruct (Z.eqb_spec (RequestPrepareProposal.Height req) (initialHeight app));
        [contradiction | reflexivity]. }
    split; [intros r' w' Hr; discriminate Hr|].
    intros _. reflexivity.
Qed.

Lemma Example_running_proposalContextBuilds (height : Z) :
  height <> 1 -> proposalContextBuilds Example.running height.
Proof.
  intros Hn. split; [|split].
  - intros F. contradiction.
  - intros st. eexists. reflexivity.
  - intros st. eexists. reflexivity.
Qed.

(** The statement above at the running example: the handler panics on the
    empty proposal, and the request's (empty) transactions come back; it
    proposes the first transaction of a proposal of two. *)
Lemma prepare_proposal_recovers_handler_panic_witness :
  (exists app',
      PrepareProposal Samples.handlers Example.running (Samples.proposal 8 [])
      = Return ({| ResponsePrepareProposal.Txs := [] |}, app'))
  /\ exists app',
      PrepareProposal Samples.handlers Example.running
        (Samples.proposal 8 [[x01]; [x02]])
      = Return ({| ResponsePrepareProposal.Txs := [[x01]] |}, app').
Proof.
  assert (1 <= 8) as H8 by lia.
  assert (proposalContextBuilds Example.running 8) as Hb
    by (apply Example_running_proposalContextBuilds; discriminate).
  split.
  - destruct (@prepare_proposal_recovers_handler_panic Samples.handlers Example.running
                (Samples.proposal 8 []) _ eq_refl H8 Hb)
      as [view [resp [s [E [_ [_ [_ [_ [_ [_ Hp]]]]]]]]]].
    rewrite E, Hp; [eexists; reflexivity|]. eexists. reflexivity.
  - destruct (@prepare_proposal_recovers_handler_panic Samples.handlers Example.running
                (Samples.proposal 8 [[x01]; [x02]]) _ eq_refl H8 Hb)
      as [view [resp [s [E [_ [_ [_ [_ [_ [Hr _]]]]]]]]]].
    rewrite E, (Hr _ _ eq_refl). eexists. reflexivity.
Defined.

(** X13.  [ProcessProposal] rejects a proposal on which its handler panics.
    With a handler set, a height of at least 1 and a proposal context that
    can be built, it returns: the handler is called once, with a context at
    the height, time, proposer and header hash of the request over an
    unwritten branch; the response is the handler's when it returns, and the
    status REJECT when it panics.  Only the process-proposal state of the
    application changes. *)
Theorem process_proposal_rejects_on_handler_panic
    (ph : ProposalHandlers) (app : BaseApp)
    (req : RequestProcessProposal.t) (h : ProcessProposalHandler) :
  processProposal ph = Some h ->
  1 <= RequestProcessProposal.Height req ->
  proposalContextBuilds app (RequestProcessProposal.Height req) ->
  exists view resp s,
    ProcessProposal ph app req = Return (resp, set_processProposalState (Some s) app)
    /\ Header.Height (header (ctx view)) = RequestProcessProposal.Height req
    /\ Header.Time (header (ctx view)) = RequestProcessProposal.Time req
    /\ Header.ProposerAddress (header (ctx view))
       = RequestProcessProposal.ProposerAddress req
    /\ headerHash (ctx view) = RequestProcessProposal.Hash req
    /\ writes (ms view) = []
    /\ (RequestProcessProposal.Height req <> initialHeight app ->
        parent (ms view) = Store.contents (cms app))
    /\ (forall r written, h view req = Return (r, written) -> resp = r)
    /\ (panics (h view req) ->
        ResponseProcessProposal.Status resp = ResponseProcessProposal_REJECT).
Proof.
  intros Hh Hge Hb.
  destruct (@ProcessProposal_shape ph app req h Hh Hge Hb)
    as [view [[V1 [V2 [V3 [V4 [_ [V5 V6]]]]]] E]].
  exists view.
  destruct (h view req) as [[r written]|v] eqn:Eh.
  - eexists. eexists. split; [exact E|].
    split; [exact V1|]. split; [exact V2|]. split; [exact V3|]. split; [exact V4|].
    split; [exact V5|]. split.
    { intros Hn. rewrite V6.
      destruct (Z.eqb_spec (RequestProcessProposal.Height req) (initialHeight app));
        [contradiction | reflexivity]. }
    split; [intros r' w' Hr; injection Hr as <- _; reflexivity|].
    intros [x F]. discriminate F.
  - eexists. eexists. split; [exact E|].
    split; [exact V1|]. split; [exact V2|]. split; [exact V3|]. split; [exact V4|].
    split; [exact V5|]. split.
    { intros Hn. rewrite V6.
      destruct (Z.eqb_spec (RequestProcessProposal.Height req) (initialHeight app));
        [contradiction | reflexivity]. }
    split; [intros r' w' Hr; discriminate Hr|].
    intros _. reflexivity.
Qed.

(** The statement above at the running example: the empty proposal, on which
    the handler panics, is rejected. *)
Lemma process_proposal_rejects_on_handler_panic_witness :
  exists app',
    ProcessProposal Samples.handlers Example.running (Samples.proposed 8 [])
    = Return ({| ResponseProcessProposal.Status := ResponseProcessProposal_REJECT |},
              app').
Proof.
  assert (1 <= 8) as H8 by lia.
  assert (proposalContextBuilds Example.running 8) as Hb
    by (apply Example_running_proposalContextBuilds; discriminate).
  destruct (@process_proposal_rejects_on_handler_panic Samples.handlers Example.running
              (Samples.proposed 8 []) _ eq_refl H8 Hb)
    as [view [[status] [s [E [_ [_ [_ [_ [_ [_ [_ Hp]]]]]]]]]]].
  rewrite E. simpl in Hp. rewrite Hp; [eexists; reflexivity|].
  eexists. reflexivity.
Defined.

(** X14.  The recovery of the proposal methods covers the handler only.
    Without a handler, or for a height below 1, [PrepareProposal] and
    [ProcessProposal] panic, whatever the handler would do; so they do, on
    the first block, when no finalize state is set. *)
Theorem proposal_panics_outside_recovery
    (ph : ProposalHandlers) (app : BaseApp)
    (prep : RequestPrepareProposal.t) (proc : RequestProcessProposal.t) :
  (prepareProposal ph = None \/ RequestPrepareProposal.Height prep < 1
   \/ (RequestPrepareProposal.Height prep = initialHeight app
       /\ finalizeBlockState app = None) ->
   panics (PrepareProposal ph app prep))
  /\ (processProposal ph = None \/ RequestProcessProposal.Height proc < 1
      \/ (RequestProcessProposal.Height proc = initialHeight app
          /\ finalizeBlockState app = None) ->
      panics (ProcessProposal ph app proc)).
Proof.
  split.
  - intros H. unfold PrepareProposal.
    destruct (prepareProposal ph) as [h|]; [|eexists; reflexivity].
    cbn [obind setState].
    destruct (Z.ltb_spec (RequestPrepareProposal.Height prep) 1) as [Hlt|Hge];
      [eexists; reflexivity|].
    destruct H as [F|[F|[Hi Hn]]]; [discriminate | lia |].
    cbn [deref prepareProposalState set_prepareProposalState obind].
    unfold getContextForProposal.
    cbn [initialHeight finalizeBlockState set_prepareProposalState].
    rewrite Hi, Z.eqb_refl, Hn. eexists. reflexivity.
  - intros H. unfold ProcessProposal.
    destruct (processProposal ph) as [h|]; [|eexists; reflexivity].
    destruct (Z.ltb_spec (RequestProcessProposal.Height proc) 1) as [Hlt|Hge];
      [eexists; reflexivity|].
    destruct H as [F|[F|[Hi Hn]]]; [discriminate | lia |].
    cbn [obind setState].
    cbn [deref processProposalState set_processProposalState obind].
    unfold getContextForProposal.
    cbn [initialHeight finalizeBlockState set_processProposalState].
    rewrite Hi, Z.eqb_refl, Hn. eexists. reflexivity.
Qed.

(** X15.  A proposal can be asked again.  When [PrepareProposal] returns, the
    application differs from the one it was called on in the
    prepare-proposal state only, and calling it again with the same request,
    on the application it left or on one with any other prepare-proposal
    state, gives the same response and the same application: nothing of an
    earlier attempt leaks into the next.  The same holds of
    [ProcessProposal] and the process-proposal state. *)
Theorem proposals_are_repeatable
    (ph : ProposalHandlers) (app : BaseApp)
    (prep : RequestPrepareProposal.t) (proc : RequestProcessProposal.t) :
  (forall resp app',
      PrepareProposal ph app prep = Return (resp, app') ->
      (exists s, app' = set_prepareProposalState s app)
      /\ cms app' = cms app
      /\ finalizeBlockState app' = finalizeBlockState app
      /\ checkState app' = checkState app
      /\ PrepareProposal ph app' prep = Return (resp, app')
      /\ forall s, PrepareProposal ph (set_prepareProposalState s app) prep
                   = Return (resp, app'))
  /\ (forall resp app',
         ProcessProposal ph app proc = Return (resp, app') ->
         (exists s, app' = set_processProposalState s app)
         /\ cms app' = cms app
         /\ finalizeBlockState app' = finalizeBlockState app
         /\ checkState app' = checkState app
         /\ ProcessProposal ph app' proc = Return (resp, app')
         /\ forall s, ProcessProposal ph (set_processProposalState s app) proc
                      = Return (resp, app')).
Proof.
  split.
  - intros resp app' H.
    assert (exists s, app' = set_prepareProposalState s app) as [s ->].
    { unfold PrepareProposal in H.
      destruct (prepareProposal ph) as [h|]; [|discriminate].
      apply obind_Return in H as [app1 [E1 H]]. injection E1 as <-.
      destruct (RequestPrepareProposal.Height prep <? 1); [discriminate|].
      apply obind_Return in H as [ps [_ H]].
      apply obind_Return in H as [view [_ H]].
      apply obind_Return in H as [cp [_ H]].
      apply obind_Return in H as [g [_ H]].
      destruct (h _ prep) as [[r w]|v]; injection H as _ <-; eexists; reflexivity. }
    split; [eauto|]. split; [reflexivity|]. split; [reflexivity|].
    split; [reflexivity|]. split.
    + rewrite PrepareProposal_resets. exact H.
    + intros s'. rewrite PrepareProposal_resets. exact H.
  - intros resp app' H.
    assert (exists s, app' = set_processProposalState s app) as [s ->].
    { unfold ProcessProposal in H.
      destruct (processProposal ph) as [h|]; [|discriminate].
      destruct (RequestProcessProposal.Height proc <? 1); [discriminate|].
      apply obind_Return in H as [app1 [E1 H]]. injection E1 as <-.
      apply obind_Return in H as [ps [_ H]].
      apply obind_Return in H as [view [_ H]].
      apply obind_Return in H as [cp [_ H]].
      apply obind_Return in H as [g [_ H]].
      destruct (h _ proc) as [[r w]|v]; injection H as _ <-; eexists; reflexivity. }
    split; [eauto|]. split; [reflexivity|]. split; [reflexivity|].
    split; [reflexivity|]. split.
    + rewrite ProcessProposal_resets. exact H.
    + intros s'. rewrite ProcessProposal_resets. exact H.
Qed.

(** The statement on panics outside the recovery, at the running example: a
    proposal at height 0 panics although the handlers would answer it. *)
Lemma proposal_panics_outside_recovery_witness :
  panics (PrepareProposal Samples.handlers Example.running (Samples.proposal 0 [[x01]]))
  /\ panics (ProcessProposal Samples.handlers Example.running (Samples.proposed 0 [[x01]])).
Proof.
  destruct (proposal_panics_outside_recovery Samples.handlers Example.running
              (Samples.proposal 0 [[x01]]) (Samples.proposed 0 [[x01]])) as [H1 H2].
  split; [apply H1 | apply H2]; right; left; reflexivity.
Defined.

(** The statement on repeated proposals, at the running example: asking the
    same proposal of the application the first call left gives the same
    answer. *)
Lemma proposals_are_repeatable_witness :
  exists resp app',
    PrepareProposal Samples.handlers Example.running (Samples.proposal 8 [[x01]])
    = Return (resp, app')
    /\ PrepareProposal Samples.handlers app' (Samples.proposal 8 [[x01]])
       = Return (resp, app').
Proof.
  destruct (PrepareProposal Samples.handlers Example.running (Samples.proposal 8 [[x01]]))
    as [[resp app']|v] eqn:E; [|vm_compute in E; discriminate E].
  destruct (proposals_are_repeatable Samples.handlers Example.running
              (Samples.proposal 8 [[x01]]) (Samples.proposed 8 [[x01]])) as [H _].
  destruct (H resp app' E) as [_ [_ [_ [_ [Hagain _]]]]].
  exists resp, app'. split; [reflexivity | exact Hagain].
Defined.

(* ------------------------------------------------------------------ *)
(** *** Commit *)
(* ------------------------------------------------------------------ *)

Section CommitFacts.

Variable commitStore : Header.t -> Store.t -> outcome Store.t.

(** X16.  [Commit] consumes the finalize state.  When it returns, a finalize
    state was set; the retention height of the response is the one computed
    for the height of its block header, before the store commits; the root
    store is the one the store commit returned; the finalize state is
    gone; the check state is a fresh branch of the committed store under the
    header of the finalized block; the snapshot manager is asked about that
    height; and a second [Commit] with no block in between panics, as does
    any [Commit] without a finalize state. *)
Theorem commit_consumes_finalize_state
    (app app' : BaseApp) (resp : ResponseCommit.t) (sreq : SnapshotRequest) :
  Commit commitStore app = Return (resp, sreq, app') ->
  (exists fs root,
      finalizeBlockState app = Some fs
      /\ GetBlockRetentionHeight app (Header.Height (header (ctx fs)))
         = Return (ResponseCommit.RetainHeight resp)
      /\ commitStore (header (ctx fs)) (cms app) = Return root
      /\ cms app' = root
      /\ checkState app'
         = Some {| ms := Store.CacheMultiStore root;
                   ctx := WithMinGasPrices (minGasPrices app)
                            (NewContext (header (ctx fs)) true) |}
      /\ snapshotHeight sreq = Header.Height (header (ctx fs))
      /\ snapshotReceiver sreq = snapshotManager app)
  /\ finalizeBlockState app' = None
  /\ panics (Commit commitStore app')
  /\ forall other, finalizeBlockState other = None -> panics (Commit commitStore other).
Proof.
  intros H.
  assert (forall other, finalizeBlockState other = None ->
                        panics (Commit commitStore other)) as Hnone.
  { intros other Hn. unfold Commit. rewrite Hn. eexists. reflexivity. }
  unfold Commit in H.
  apply obind_Return in H as [fs [Efs H]].
  destruct (finalizeBlockState app) as [fs'|] eqn:F; [|discriminate].
  injection Efs as ->.
  apply obind_Return in H as [retain [Er H]].
  apply obind_Return in H as [root [Ec H]].
  apply obind_Return in H as [app1 [E1 H]]. injection E1 as <-.
  injection H as <- <- <-.
  split; [|split; [reflexivity|split; [apply Hnone; reflexivity | exact Hnone]]].
  exists fs, root. repeat split; assumption.
Qed.

End CommitFacts.

(** The statement above at the running example with block 8 finalized: the
    commit returns retention height 0 (pruning is off), leaves no finalize
    state and a root store at version 8. *)
Lemma commit_consumes_finalize_state_witness :
  exists resp sreq app',
    Commit Samples.commitAtHeader Samples.finalized = Return (resp, sreq, app')
    /\ ResponseCommit.RetainHeight resp = 0
    /\ finalizeBlockState app' = None
    /\ snapshotHeight sreq = 8
    /\ panics (Commit Samples.commitAtHeader app').
Proof.
  destruct (Commit Samples.commitAtHeader Samples.finalized)
    as [[[resp sreq] app']|v] eqn:E; [|vm_compute in E; discriminate E].
  destruct (@commit_consumes_finalize_state Samples.commitAtHeader
              Samples.finalized app' resp sreq E)
    as [[fs [root [Hfs [Hr [_ [_ [_ [Hs _]]]]]]]] [Hn [Hp _]]].
  exists resp, sreq, app'. split; [reflexivity|].
  injection Hfs as <-. injection Hr as <-.
  split; [reflexivity|]. split; [exact Hn|]. split; [exact Hs | exact Hp].
Defined.

(* ------------------------------------------------------------------ *)
(** *** State sync snapshots *)
(* ------------------------------------------------------------------ *)

Section SnapshotFacts.

Variable M : Type.
Variable manager : SnapshotMethods M.

Lemma convertSnapshots_prefix (snapshots : list M) :
  forall resp,
  exists k converted,
    convertSnapshots manager snapshots resp = (resp ++ converted)%list
    /\ (k <= List.length snapshots)%nat
    /\ Forall2 (fun s a => ToABCI manager s = inl a) (firstn k snapshots) converted
    /\ ((k < List.length snapshots)%nat ->
        exists s e, nth_error snapshots k = Some s /\ ToABCI manager s = inr e).
Proof.
  induction snapshots as [|s rest IH]; intros resp; simpl.
  - exists 0%nat, []. rewrite app_nil_r. split; [reflexivity|].
    split; [simpl; lia|]. split; [constructor|]. simpl. lia.
  - destruct (ToABCI manager s) as [a|e] eqn:E.
    + destruct (IH (resp ++ [a])%list) as [k [conv [Hc [Hk [Hf Hn]]]]].
      exists (S k), (a :: conv). rewrite Hc, <- app_assoc.
      split; [reflexivity|]. split; [simpl; lia|]. split.
      * simpl. constructor; assumption.
      * intros Hlt. simpl. apply Hn. simpl in Hlt. lia.
    + exists 0%nat, []. rewrite app_nil_r. split; [reflexivity|].
      split; [simpl; lia|]. split; [constructor|].
      intros _. exists s, e. split; [reflexivity | exact E].
Qed.

(** X17.  [ListSnapshots] answers with the snapshots it could convert, in
    the order of the manager, up to the first that fails to convert: the
    response holds the conversions of a prefix of the manager's list, and
    when it is shorter than the list, the next snapshot is one whose
    conversion fails.  Without a manager, or when the manager cannot list,
    the response is empty.  [LoadSnapshotChunk] answers with the chunk the
    manager loads for the height, format and index of the request, and with
    no chunk without a manager or when loading fails. *)
Theorem list_snapshots_converted_prefix (app : BaseApp) :
  (forall req,
      ResponseLoadSnapshotChunk.Chunk (LoadSnapshotChunk manager app req)
      = match snapshotManager app,
              ManagerLoadChunk manager (RequestLoadSnapshotChunk.Height req)
                (RequestLoadSnapshotChunk.Format req)
                (RequestLoadSnapshotChunk.Chunk req) with
        | Some _, inl chunk => chunk
        | _, _ => None
        end)
  /\ (snapshotManager app = None ->
   ResponseListSnapshots.Snapshots (ListSnapshots manager app) = [])
  /\ (forall e, ManagerList manager = inr e ->
      ResponseListSnapshots.Snapshots (ListSnapshots manager app) = [])
  /\ (forall snapshots,
         snapshotManager app <> None ->
         ManagerList manager = inl snapshots ->
         exists k,
           (k <= List.length snapshots)%nat
           /\ List.length (ResponseListSnapshots.Snapshots (ListSnapshots manager app)) = k
           /\ Forall2 (fun s a => ToABCI manager s = inl a) (firstn k snapshots)
                (ResponseListSnapshots.Snapshots (ListSnapshots manager app))
           /\ ((k < List.length snapshots)%nat ->
               exists s e, nth_error snapshots k = Some s /\ ToABCI manager s = inr e)).
Proof.
  split.
  { intros req. unfold LoadSnapshotChunk.
    destruct (snapshotManager app); [|reflexivity].
    destruct (ManagerLoadChunk manager _ _ _); reflexivity. }
  unfold ListSnapshots. split; [|split].
  - intros ->. reflexivity.
  - intros e ->. destruct (snapshotManager app); reflexivity.
  - intros snapshots Hm ->. destruct (snapshotManager app) as [sm|]; [|contradiction].
    simpl. destruct (convertSnapshots_prefix snapshots []) as [k [conv [Hc [Hk [Hf Hn]]]]].
    rewrite Hc. simpl. exists k. split; [exact Hk|]. split.
    + apply Forall2_length in Hf. rewrite <- Hf, length_firstn. lia.
    + split; assumption.
Qed.

(** X18.  The results of the two restoration methods.  [OfferSnapshot]
    accepts exactly when a manager is set, the request carries a snapshot,
    the snapshot decodes and the manager's restore returns no error; it
    never answers UNKNOWN or REJECT_SENDER.  [ApplySnapshotChunk] accepts
    exactly when a manager is set and the manager's restore of the chunk
    returns no error; it asks for a retry exactly when that error is a
    checksum mismatch, and then names the index and the sender of the
    request, and nothing else, for refetching and rejection; every other
    result names no chunk and no sender. *)
Theorem snapshot_restore_results
    (app : BaseApp) (offer : RequestOfferSnapshot.t)
    (chunk : RequestApplySnapshotChunk.t) :
  (ResponseOfferSnapshot.Result (OfferSnapshot manager app offer)
   = ResponseOfferSnapshot_ACCEPT
   <-> snapshotManager app <> None
       /\ exists a s, RequestOfferSnapshot.Snapshot offer = Some a
                      /\ SnapshotFromABCI manager a = inl s
                      /\ ManagerRestore manager s = None)
  /\ ResponseOfferSnapshot.Result (OfferSnapshot manager app offer)
     <> ResponseOfferSnapshot_UNKNOWN
  /\ ResponseOfferSnapshot.Result (OfferSnapshot manager app offer)
     <> ResponseOfferSnapshot_REJECT_SENDER
  /\ (ResponseApplySnapshotChunk.Result (ApplySnapshotChunk manager app chunk)
      = ResponseApplySnapshotChunk_ACCEPT
      <-> snapshotManager app <> None
          /\ snd (ManagerRestoreChunk manager (RequestApplySnapshotChunk.Chunk chunk))
             = None)
  /\ (ResponseApplySnapshotChunk.Result (ApplySnapshotChunk manager app chunk)
      = ResponseApplySnapshotChunk_RETRY
      <-> snapshotManager app <> None
          /\ exists e,
               snd (ManagerRestoreChunk manager (RequestApplySnapshotChunk.Chunk chunk))
               = Some e
               /\ errorsIs e ErrChunkHashMismatch = true)
  /\ (if match ResponseApplySnapshotChunk.Result (ApplySnapshotChunk manager app chunk) with
         | ResponseApplySnapshotChunk_RETRY => true
         | _ => false
         end
      then ResponseApplySnapshotChunk.RefetchChunks (ApplySnapshotChunk manager app chunk)
           = [RequestApplySnapshotChunk.Index chunk]
           /\ ResponseApplySnapshotChunk.RejectSenders (ApplySnapshotChunk manager app chunk)
              = [RequestApplySnapshotChunk.Sender chunk]
      else ResponseApplySnapshotChunk.RefetchChunks (ApplySnapshotChunk manager app chunk)
           = []
           /\ ResponseApplySnapshotChunk.RejectSenders (ApplySnapshotChunk manager app chunk)
              = []).
Proof.
  unfold OfferSnapshot, ApplySnapshotChunk.
  destruct (snapshotManager app) as [sm|].
  - split; [|split; [|split; [|split; [|split]]]].
    + destruct (RequestOfferSnapshot.Snapshot offer) as [a|].
      * destruct (SnapshotFromABCI manager a) as [s|e] eqn:Ed.
        -- destruct (ManagerRestore manager s) as [e|] eqn:Er.
           ++ destruct (errorsIs e ErrUnknownFormat);
                [|destruct (errorsIs e ErrInvalidMetadata)];
                (split; [discriminate|]);
                intros [_ [a' [s' [Ha [Hs Hr]]]]];
                injection Ha as <-; rewrite Ed in Hs; injection Hs as <-;
                rewrite Er in Hr; discriminate.
           ++ split; [intros _|reflexivity]. split; [discriminate|]. eauto.
        -- split; [discriminate|].
           intros [_ [a' [s' [Ha [Hs _]]]]].
           injection Ha as <-. rewrite Ed in Hs. discriminate.
      * split; [discriminate|]. intros [_ [a' [s' [Ha _]]]]. discriminate.
    + destruct (RequestOfferSnapshot.Snapshot offer) as [a|]; [|discriminate].
      destruct (SnapshotFromABCI manager a) as [s|e]; [|discriminate].
      destruct (ManagerRestore manager s) as [e|]; [|discriminate].
      destruct (errorsIs e ErrUnknownFormat); [discriminate|].
      destruct (errorsIs e ErrInvalidMetadata); discriminate.
    + destruct (RequestOfferSnapshot.Snapshot offer) as [a|]; [|discriminate].
      destruct (SnapshotFromABCI manager a) as [s|e]; [|discriminate].
      destruct (ManagerRestore manager s) as [e|]; [|discriminate].
      destruct (errorsIs e ErrUnknownFormat); [discriminate|].
      destruct (errorsIs e ErrInvalidMetadata); discriminate.
    + destruct (snd (ManagerRestoreChunk manager _)) as [e|].
      * destruct (errorsIs e ErrChunkHashMismatch);
          (split; [discriminate | intros [_ F]; discriminate]).
      * split; [intros _; split; [discriminate | reflexivity] | reflexivity].
    + destruct (snd (ManagerRestoreChunk manager _)) as [e|].
      * destruct (errorsIs e ErrChunkHashMismatch) eqn:Ee.
        -- split; [intros _; split; [discriminate | eauto] | reflexivity].
        -- split; [discriminate|]. intros [_ [e' [He Hi]]].
           injection He as <-. rewrite Ee in Hi. discriminate.
      * split; [discriminate|]. intros [_ [e' [He _]]]. discriminate.
    + destruct (snd (ManagerRestoreChunk manager _)) as [e|].
      * destruct (errorsIs e ErrChunkHashMismatch); split; reflexivity.
      * split; reflexivity.
  - split; [|split; [|split; [|split; [|split]]]].
    + split; [discriminate | intros [F _]; contradiction].
    + discriminate.
    + discriminate.
    + split; [discriminate | intros [F _]; contradiction].
    + split; [discriminate | intros [F _]; contradiction].
    + split; reflexivity.
Qed.

End SnapshotFacts.

(** The statement on [ListSnapshots] at the sample manager, whose second
    snapshot does not convert: the response holds the first one only. *)
Lemma list_snapshots_converted_prefix_witness :
  List.length (ResponseListSnapshots.Snapshots
                 (ListSnapshots Samples.snapshots Samples.snapshotting)) = 1%nat.
Proof.
  destruct (@list_snapshots_converted_prefix Z Samples.snapshots Samples.snapshotting)
    as [_ [_ [_ H]]].
  destruct (H [5; 0; 7]) as [k [Hk [Hl [Hf Hn]]]];
    [discriminate | reflexivity |].
  rewrite Hl. destruct k as [|[|k]].
  - destruct Hn as [s [e [Hs He]]]; [simpl; lia|].
    injection Hs as <-. discriminate He.
  - reflexivity.
  - exfalso. simpl in Hf. inversion Hf as [|? ? ? ? _ Hf']. subst.
    inversion Hf' as [|? ? ? ? F _]; try discriminate F.
Defined.

(** The statement on the restoration methods at the sample manager: the
    snapshot of height 5 is accepted, and a chunk with a wrong checksum is
    asked again from another sender. *)
Lemma snapshot_restore_results_witness :
  ResponseOfferSnapshot.Result
    (OfferSnapshot Samples.snapshots Samples.snapshotting
       {| RequestOfferSnapshot.Snapshot :=
            Some {| Snapshot.Height := 5; Snapshot.Format := 1; Snapshot.Chunks := 1;
                    Snapshot.Hash := None; Snapshot.Metadata := None |};
          RequestOfferSnapshot.AppHash := None |})
  = ResponseOfferSnapshot_ACCEPT
  /\ ResponseApplySnapshotChunk.Result
       (ApplySnapshotChunk Samples.snapshots Samples.snapshotting
          {| RequestApplySnapshotChunk.Index := 3;
             RequestApplySnapshotChunk.Chunk := Some [x01];
             RequestApplySnapshotChunk.Sender := "peer-1" |})
     = ResponseApplySnapshotChunk_RETRY.
Proof.
  destruct (@snapshot_restore_results Z Samples.snapshots Samples.snapshotting
              {| RequestOfferSnapshot.Snapshot :=
                   Some {| Snapshot.Height := 5; Snapshot.Format := 1;
                           Snapshot.Chunks := 1;
                           Snapshot.Hash := None; Snapshot.Metadata := None |};
                 RequestOfferSnapshot.AppHash := None |}
              {| RequestApplySnapshotChunk.Index := 3;
                 RequestApplySnapshotChunk.Chunk := Some [x01];
                 RequestApplySnapshotChunk.Sender := "peer-1" |})
    as [[_ Ha] [_ [_ [_ [[_ Hr] _]]]]].
  split.
  - apply Ha. split; [discriminate|]. eexists. eexists.
    split; [reflexivity|]. split; reflexivity.
  - apply Hr. split; [discriminate|]. eexists. split; reflexivity.
Defined.

(* ------------------------------------------------------------------ *)
(** *** Streaming listeners *)
(* ------------------------------------------------------------------ *)

Lemma finalizeAndHash_response_state (cctx : CallerContext)
    (req : RequestFinalizeBlock.t) (app app' : BaseApp) (r : FinalizeResult)
    (res : ResponseFinalizeBlock.t) :
  finalizeAndHash cctx req app = Return (r, app') ->
  fst r = Some res ->
  finalizeBlockState app' <> None.
Proof.
  unfold finalizeAndHash. intros H Hr.
  apply obind_Return in H as [[r1 app1] [_ H]].
  unfold attachWorkingHash in H.
  destruct (fst r1) as [res1|] eqn:E1.
  - apply obind_Return in H as [[hash app2] [Ew H]]. injection H as _ <-.
    unfold workingHash in Ew.
    apply obind_Return in Ew as [st [_ Ew]]. injection Ew as _ <-. discriminate.
  - injection H as <- _. rewrite E1 in Hr. discriminate.
Qed.

Lemma listenFinalizeBlock_returns (listeners : list ABCIListener) (app : BaseApp)
    (req : RequestFinalizeBlock.t) (res : ResponseFinalizeBlock.t) :
  finalizeBlockState app <> None ->
  (forall l c, In l listeners -> returns (l c req res)) ->
  listenFinalizeBlock listeners app req (Some res) = Return tt.
Proof.
  intros Hfs. induction listeners as [|l rest IH]; intros Hl; simpl; [reflexivity|].
  destruct (finalizeBlockState app) as [fs|]; [|contradiction]. simpl.
  destruct (Hl l (Context_of fs) (or_introl eq_refl)) as [e ->]. simpl.
  apply IH. intros l' c Hin. apply Hl. right. exact Hin.
Qed.

(** X19.  What streaming listeners do to [FinalizeBlock] when the block runs
    in the calling goroutine.  Let the block run itself return.  Without
    listeners [FinalizeBlock] returns what the run returned.  With
    listeners that return, it still does when the run produced a response,
    whether the listeners report errors or not; but when the run produced an
    error and no response (a refused height, a halt, a failed hook), the
    deferred loop dereferences the nil response and [FinalizeBlock] panics
    instead of returning the error. *)
Theorem finalize_block_with_listeners
    (listeners : list ABCIListener) (req : RequestFinalizeBlock.t)
    (app app' : BaseApp) (r : FinalizeResult) :
  finalizeAndHash Background req app = Return (r, app') ->
  (listeners = [] -> FinalizeBlock listeners req app = Return (r, app'))
  /\ (forall res,
         fst r = Some res ->
         (forall l c, In l listeners -> returns (l c req res)) ->
         FinalizeBlock listeners req app = Return (r, app'))
  /\ (fst r = None -> listeners <> [] ->
      panics (FinalizeBlock listeners req app)).
Proof.
  intros H. unfold FinalizeBlock. rewrite H. cbn [obind].
  split; [|split].
  - intros ->. reflexivity.
  - intros res Hr Hl. rewrite Hr.
    rewrite listenFinalizeBlock_returns;
      [reflexivity | eapply finalizeAndHash_response_state; eassumption | exact Hl].
  - intros Hr Hne. rewrite Hr.
    destruct listeners as [|l rest]; [contradiction|]. simpl.
    destruct (finalizeBlockState app'); eexists; reflexivity.
Qed.

(** The statement above at the running example with a listener that always
    reports an error: block 8 is answered as without the listener, block 3,
    which is refused, makes [FinalizeBlock] panic. *)
Lemma finalize_block_with_listeners_witness :
  FinalizeBlock [Samples.failingListener] (Example.block 8 [[x01]]) Example.running
  = finalizeAndHash Background (Example.block 8 [[x01]]) Example.running
  /\ panics (FinalizeBlock [Samples.failingListener] (Example.block 3 []) Example.running).
Proof.
  split.
  - destruct (finalizeAndHash Background (Example.block 8 [[x01]]) Example.running)
      as [[r app']|v] eqn:E; [|vm_compute in E; discriminate E].
    destruct (@finalize_block_with_listeners [Samples.failingListener]
                (Example.block 8 [[x01]]) Example.running app' r E) as [_ [H _]].
    destruct (fst r) as [res|] eqn:Er.
    + apply (H res eq_refl). intros l c [<-|[]]. eexists. reflexivity.
    + exfalso. vm_compute in E. injection E as <- _. discriminate Er.
  - destruct (finalizeAndHash Background (Example.block 3 []) Example.running)
      as [[r app']|v] eqn:E; [|vm_compute in E; discriminate E].
    destruct (@finalize_block_with_listeners [Samples.failingListener]
                (Example.block 3 []) Example.running app' r E) as [_ [_ H]].
    apply H; [|discriminate].
    vm_compute in E. injection E as <- _. reflexivity.
Defined.

(* ------------------------------------------------------------------ *)
(** *** Peer filters *)
(* ------------------------------------------------------------------ *)

(** X20.  A peer-filter query reaches the registered filter with the
    segment that follows the filter type, and nothing after a further
    slash.  For a path [/p2p/filter/addr/<arg>] that no gRPC route claims,
    [Query] answers what [FilterPeerByAddrPort] answers on the first segment
    of [<arg>] (a panic of the filter becomes the [ErrPanic] response), and
    likewise [FilterPeerByID] for [/p2p/filter/id/<arg>]; when no filter is
    registered the answer is the zero response, whose code is the success
    code: no opinion on the peer. *)
Theorem p2p_filter_query_delegates
    (app : BaseApp) (req : RequestQuery.t) (arg : string) :
  grpcQueryRouter app (RequestQuery.Path req) = None ->
  (RequestQuery.Path req = ("/p2p/filter/addr/" ++ arg)%string ->
   Query app req
   = recover_with (fun r => QueryResult (Wrap (Registered ErrPanic) r) (trace app))
       (FilterPeerByAddrPort app (hd "" (split_slash arg)))
   /\ (addrPeerFilter app = None -> Query app req = ResponseQuery.zero))
  /\ (RequestQuery.Path req = ("/p2p/filter/id/" ++ arg)%string ->
      Query app req
      = recover_with (fun r => QueryResult (Wrap (Registered ErrPanic) r) (trace app))
          (FilterPeerByID app (hd "" (split_slash arg)))
      /\ (idPeerFilter app = None -> Query app req = ResponseQuery.zero)).
Proof.
  intros Hr.
  assert (exists x rest, split_slash arg = x :: rest) as [x [rest Hs]].
  { unfold split_slash. pose proof (split_slash_aux_nonempty arg "") as Hne.
    destruct (split_slash_aux arg "") as [|x rest]; [contradiction | eauto]. }
  split; intros Hp.
  - assert (Query app req
            = recover_with (fun r => QueryResult (Wrap (Registered ErrPanic) r) (trace app))
                (FilterPeerByAddrPort app (hd "" (split_slash arg)))) as E.
    { unfold Query, queryBody. rewrite resolveHeight_Path, Hr, Hp.
      unfold split_slash in *. cbn. rewrite Hs. reflexivity. }
    split; [exact E|]. intros Hn. rewrite E. unfold FilterPeerByAddrPort.
    rewrite Hn. reflexivity.
  - assert (Query app req
            = recover_with (fun r => QueryResult (Wrap (Registered ErrPanic) r) (trace app))
                (FilterPeerByID app (hd "" (split_slash arg)))) as E.
    { unfold Query, queryBody. rewrite resolveHeight_Path, Hr, Hp.
      unfold split_slash in *. cbn. rewrite Hs. reflexivity. }
    split; [exact E|]. intros Hn. rewrite E. unfold FilterPeerByID.
    rewrite Hn. reflexivity.
Qed.

(** The statement above at the example with an address filter: the banned
    peer is refused with code 3, and the identifier query, for which no
    filter is registered, is answered with the zero response. *)
Lemma p2p_filter_query_delegates_witness :
  ResponseQuery.Code
    (Query Samples.filtering (Example.query "/p2p/filter/addr/10.0.0.9:26656" 0 false))
  = 3
  /\ Query Samples.filtering (Example.query "/p2p/filter/id/abcd" 0 false)
     = ResponseQuery.zero.
Proof.
  split.
  - destruct (@p2p_filter_query_delegates Samples.filtering
                (Example.query "/p2p/filter/addr/10.0.0.9:26656" 0 false)
                "10.0.0.9:26656" eq_refl) as [H _].
    destruct (H eq_refl) as [E _]. rewrite E. reflexivity.
  - destruct (@p2p_filter_query_delegates Samples.filtering
                (Example.query "/p2p/filter/id/abcd" 0 false) "abcd" eq_refl) as [_ H].
    destruct (H eq_refl) as [_ E]. apply E. reflexivity.
Defined.

(* ------------------------------------------------------------------ *)
(** *** The working hash *)
(* ------------------------------------------------------------------ *)

(** X21.  [workingHash] moves the writes of the block into the root store
    once.  When it returns, a finalize state was set; the root store holds
    the writes of the finalize branch on top of what it held; the hash is the
    working hash of that store; nothing is committed (the last commit is
    unchanged); the finalize state keeps its context over a branch without
    pending writes; and calling [workingHash] again returns the same hash
    and leaves the application unchanged. *)
Theorem working_hash_writes_once
    (app app1 : BaseApp) (h : option bytes) :
  workingHash app = Return (h, app1) ->
  (exists st,
      finalizeBlockState app = Some st
      /\ Store.contents (cms app1) = (writes (ms st) ++ Store.contents (cms app))%list
      /\ h = Some (Store.hashOf (cms app)
                     (writes (ms st) ++ Store.contents (cms app))%list)
      /\ finalizeBlockState app1
         = Some {| ms := {| parent := (writes (ms st) ++ Store.contents (cms app))%list;
                            writes := [] |};
                   ctx := ctx st |})
  /\ LastCommitID app1 = LastCommitID app
  /\ checkState app1 = checkState app
  /\ workingHash app1 = Return (h, app1).
Proof.
  unfold workingHash. intros H.
  destruct (finalizeBlockState app) as [st|] eqn:F; [|discriminate].
  cbn [deref obind] in H. injection H as <- <-.
  split; [|split; [|split]]; try reflexivity.
  exists st. repeat split.
Qed.

(** The statement above at the running example with block 8 finalized: the
    write of the block reaches the root store, and the hash is the same when
    asked twice. *)
Lemma working_hash_writes_once_witness :
  exists h app1,
    workingHash Samples.finalized = Return (h, app1)
    /\ Store.contents (cms app1) = [("k", [x08])]
    /\ workingHash app1 = Return (h, app1).
Proof.
  destruct (workingHash Samples.finalized) as [[h app1]|v] eqn:E;
    [|vm_compute in E; discriminate E].
  destruct (@working_hash_writes_once Samples.finalized app1 h E)
    as [[st [Hfs [Hc _]]] [_ [_ Hagain]]].
  exists h, app1. split; [reflexivity|]. split; [|exact Hagain].
  rewrite Hc. injection Hfs as <-. reflexivity.
Defined.

(* ------------------------------------------------------------------ *)
(** *** Reflection on the block parameters *)
(* ------------------------------------------------------------------ *)

(** The fields the accessors know. *)
Lemma known_field_cases (fd : BlockParamsProto.FieldDescriptor) :
  BlockParamsProto.FullName fd = "tendermint.types.BlockParams.max_bytes"
  \/ BlockParamsProto.FullName fd = "tendermint.types.BlockParams.max_gas"
  \/ BlockParamsProto.FullName fd = "tendermint.types.BlockParams.time_iota_ms"
  \/ (forall A, panics (@BlockParamsProto.noSuchField A fd)
      /\ forall x v,
           BlockParamsProto.Has x fd = BlockParamsProto.noSuchField fd
           /\ BlockParamsProto.Get x fd = BlockParamsProto.noSuchField fd
           /\ BlockParamsProto.Set_ x fd v = BlockParamsProto.noSuchField fd
           /\ BlockParamsProto.Clear x fd = BlockParamsProto.noSuchField fd
           /\ BlockParamsProto.NewField fd = BlockParamsProto.noSuchField fd).
Proof.
  destruct (String.eqb_spec (BlockParamsProto.FullName fd)
              "tendermint.types.BlockParams.max_bytes") as [E1|N1]; [auto|].
  destruct (String.eqb_spec (BlockParamsProto.FullName fd)
              "tendermint.types.BlockParams.max_gas") as [E2|N2]; [auto|].
  destruct (String.eqb_spec (BlockParamsProto.FullName fd)
              "tendermint.types.BlockParams.time_iota_ms") as [E3|N3]; [auto|].
  right. right. right. intros A. split.
  - unfold BlockParamsProto.noSuchField.
    destruct (BlockParamsProto.IsExtension fd); eexists; reflexivity.
  - intros x v.
    unfold BlockParamsProto.Has, BlockParamsProto.Get, BlockParamsProto.Set_,
      BlockParamsProto.Clear, BlockParamsProto.NewField.
    apply String.eqb_neq in N1, N2, N3. rewrite N1, N2, N3. repeat split.
Qed.

(** X22.  The reflection accessors of the block parameters agree with one
    another.  For a descriptor named after one of the three fields
    [max_bytes], [max_gas] and [time_iota_ms]: [Set] followed by [Get] gives
    the value back, [Has] then tells whether that value is non-zero, the
    other fields and the unknown fields are as before, and [Clear] makes
    [Has] false and [Get] the zero that [NewField] returns.  [Get] on the
    three descriptors of the message reads the fields [MaxBytes], [MaxGas]
    and [TimeIotaMs].  For a descriptor of any other name all five accessors
    panic.  [Range] calls its function on populated fields only, with the
    value [Get] returns; when the function never stops it, the calls are
    those for the three descriptors, in this order, whose field is not
    zero. *)
Theorem reflection_accessors_agree
    (x : BlockParamsProto.Message) (fd : BlockParamsProto.FieldDescriptor) (v : Z) :
  (BlockParamsProto.FullName fd = "tendermint.types.BlockParams.max_bytes"
   \/ BlockParamsProto.FullName fd = "tendermint.types.BlockParams.max_gas"
   \/ BlockParamsProto.FullName fd = "tendermint.types.BlockParams.time_iota_ms" ->
   exists x',
     BlockParamsProto.Set_ x fd (BlockParamsProto.ValueOfInt64 v) = Return x'
     /\ BlockParamsProto.Get x' fd = Return (BlockParamsProto.ValueOfInt64 v)
     /\ BlockParamsProto.Has x' fd = Return (negb (v =? 0))
     /\ BlockParamsProto.unknownFields x' = BlockParamsProto.unknownFields x
     /\ (forall other,
            BlockParamsProto.FullName other <> BlockParamsProto.FullName fd ->
            BlockParamsProto.Get x' other = BlockParamsProto.Get x other)
     /\ exists x0,
          BlockParamsProto.Clear x' fd = Return x0
          /\ BlockParamsProto.Has x0 fd = Return false
          /\ BlockParamsProto.Get x0 fd = BlockParamsProto.NewField fd
          /\ BlockParamsProto.NewField fd = Return (BlockParamsProto.ValueOfInt64 0))
  /\ (BlockParamsProto.Get x BlockParamsProto.fd_BlockParams_max_bytes
      = Return (BlockParamsProto.ValueOfInt64 (BlockParamsProto.MaxBytes x))
      /\ BlockParamsProto.Get x BlockParamsProto.fd_BlockParams_max_gas
         = Return (BlockParamsProto.ValueOfInt64 (BlockParamsProto.MaxGas x))
      /\ BlockParamsProto.Get x BlockParamsProto.fd_BlockParams_time_iota_ms
         = Return (BlockParamsProto.ValueOfInt64 (BlockParamsProto.TimeIotaMs x)))
  /\ (BlockParamsProto.FullName fd <> "tendermint.types.BlockParams.max_bytes" ->
      BlockParamsProto.FullName fd <> "tendermint.types.BlockParams.max_gas" ->
      BlockParamsProto.FullName fd <> "tendermint.types.BlockParams.time_iota_ms" ->
      panics (BlockParamsProto.Has x fd) /\ panics (BlockParamsProto.Get x fd)
      /\ panics (BlockParamsProto.Set_ x fd (BlockParamsProto.ValueOfInt64 v))
      /\ panics (BlockParamsProto.Clear x fd)
      /\ panics (BlockParamsProto.NewField fd))
  /\ (forall f d val,
         In (d, val) (BlockParamsProto.Range x f) ->
         BlockParamsProto.Has x d = Return true
         /\ BlockParamsProto.Get x d = Return val)
  /\ BlockParamsProto.Range x (fun _ _ => true)
     = filter (fun call => match snd call with
                           | BlockParamsProto.ValueOfInt64 n => negb (n =? 0)
                           | BlockParamsProto.ValueOfString _ => true
                           end)
         [(BlockParamsProto.fd_BlockParams_max_bytes,
           BlockParamsProto.ValueOfInt64 (BlockParamsProto.MaxBytes x));
          (BlockParamsProto.fd_BlockParams_max_gas,
           BlockParamsProto.ValueOfInt64 (BlockParamsProto.MaxGas x));
          (BlockParamsProto.fd_BlockParams_time_iota_ms,
           BlockParamsProto.ValueOfInt64 (BlockParamsProto.TimeIotaMs x))]
  /\ (BlockParamsProto.Has x fd = Return true ->
      exists d val,
        In (d, val) (BlockParamsProto.Range x (fun _ _ => true))
        /\ BlockParamsProto.FullName d = BlockParamsProto.FullName fd
        /\ BlockParamsProto.Get x fd = Return val).
Proof.
  split; [|split; [|split; [|split; [|split]]]].
  - intros Hk.
    unfold BlockParamsProto.Set_, BlockParamsProto.Get, BlockParamsProto.Has,
      BlockParamsProto.Clear, BlockParamsProto.NewField.
    destruct Hk as [E|[E|E]]; rewrite E; cbn;
      (eexists; split; [reflexivity|]; cbn;
       split; [reflexivity|]; split; [reflexivity|]; split; [reflexivity|]; split;
       [ intros other Hn; apply String.eqb_neq in Hn;
         unfold BlockParamsProto.Get; rewrite Hn; reflexivity
       | eexists; split; [reflexivity|]; cbn; repeat split ]).
  - repeat split.
  - intros N1 N2 N3.
    destruct (known_field_cases fd) as [E|[E|[E|Hno]]]; try contradiction.
    destruct (Hno bool) as [Pb _]. destruct (Hno BlockParamsProto.Value) as [Pv _].
    destruct (Hno BlockParamsProto.Message) as [Pm H].
    destruct (H x (BlockParamsProto.ValueOfInt64 v)) as [-> [-> [-> [-> ->]]]].
    repeat split; assumption.
  - intros f d val Hin. unfold BlockParamsProto.Range in Hin.
    unfold BlockParamsProto.Has, BlockParamsProto.Get.
    destruct (Z.eqb_spec (BlockParamsProto.MaxBytes x) 0) as [Z1|N1];
      destruct (Z.eqb_spec (BlockParamsProto.MaxGas x) 0) as [Z2|N2];
      destruct (Z.eqb_spec (BlockParamsProto.TimeIotaMs x) 0) as [Z3|N3];
      cbn [negb] in Hin;
      repeat match goal with
             | H : In _ (if ?c then _ else _) |- _ => destruct c
             | H : In _ (_ :: _) |- _ => destruct H as [H|H]; [injection H as <- <-|]
             | H : In _ [] |- _ => destruct H
             end;
      cbn; split; try reflexivity;
      repeat match goal with
             | |- context [?a =? 0] =>
                 destruct (Z.eqb_spec a 0); [contradiction|]
             end; reflexivity.
  - unfold BlockParamsProto.Range. cbn [filter snd].
    destruct (negb (BlockParamsProto.MaxBytes x =? 0));
      destruct (negb (BlockParamsProto.MaxGas x =? 0));
      destruct (negb (BlockParamsProto.TimeIotaMs x =? 0)); reflexivity.
  - intros Hhas. unfold BlockParamsProto.Has in Hhas. unfold BlockParamsProto.Get.
    destruct (String.eqb_spec (BlockParamsProto.FullName fd)
                "tendermint.types.BlockParams.max_bytes") as [E1|N1].
    { injection Hhas as Hh. apply negb_true_iff in Hh.
      exists BlockParamsProto.fd_BlockParams_max_bytes. eexists.
      split; [|split; [symmetry; exact E1 | reflexivity]].
      unfold BlockParamsProto.Range. rewrite Hh. left. reflexivity. }
    destruct (String.eqb_spec (BlockParamsProto.FullName fd)
                "tendermint.types.BlockParams.max_gas") as [E2|N2].
    { injection Hhas as Hh. apply negb_true_iff in Hh.
      exists BlockParamsProto.fd_BlockParams_max_gas. eexists.
      split; [|split; [symmetry; exact E2 | reflexivity]].
      unfold BlockParamsProto.Range. rewrite Hh.
      destruct (negb (BlockParamsProto.MaxBytes x =? 0)); [right|]; left; reflexivity. }
    destruct (String.eqb_spec (BlockParamsProto.FullName fd)
                "tendermint.types.BlockParams.time_iota_ms") as [E3|N3].
    { injection Hhas as Hh. apply negb_true_iff in Hh.
      exists BlockParamsProto.fd_BlockParams_time_iota_ms. eexists.
      split; [|split; [symmetry; exact E3 | reflexivity]].
      unfold BlockParamsProto.Range. rewrite Hh.
      destruct (negb (BlockParamsProto.MaxBytes x =? 0));
        destruct (negb (BlockParamsProto.MaxGas x =? 0));
        cbn; auto. }
    exfalso. unfold BlockParamsProto.noSuchField in Hhas.
    destruct (BlockParamsProto.IsExtension fd); discriminate.
Qed.

(** The statement above at the empty message and the field [time_iota_ms]:
    after setting it to 1000 the field is populated, it is the only one
    [Range] visits, and the other two read zero as before. *)
Lemma reflection_accessors_agree_witness :
  BlockParamsProto.FullName BlockParamsProto.fd_BlockParams_time_iota_ms
  = "tendermint.types.BlockParams.time_iota_ms"
  /\ exists x',
       BlockParamsProto.Set_ BlockParamsProto.New
         BlockParamsProto.fd_BlockParams_time_iota_ms
         (BlockParamsProto.ValueOfInt64 1000) = Return x'
       /\ BlockParamsProto.TimeIotaMs x' = 1000
       /\ BlockParamsProto.Has x' BlockParamsProto.fd_BlockParams_time_iota_ms
          = Return true
       /\ BlockParamsProto.Get x' BlockParamsProto.fd_BlockParams_max_gas
          = Return (BlockParamsProto.ValueOfInt64 0)
       /\ BlockParamsProto.Range x' (fun _ _ => true)
          = [(BlockParamsProto.fd_BlockParams_time_iota_ms,
              BlockParamsProto.ValueOfInt64 1000)].
Proof.
  split; [reflexivity|].
  destruct (reflection_accessors_agree BlockParamsProto.New
              BlockParamsProto.fd_BlockParams_time_iota_ms 1000) as [H _].
  destruct H as [x' [Hs [_ [Hh [_ [Ho _]]]]]].
  - right. right. reflexivity.
  - exists x'. split; [exact Hs|].
    split; [injection Hs as <-; reflexivity|].
    split; [exact Hh|].
    split; [rewrite Ho; [reflexivity | discriminate]|].
    injection Hs as <-. reflexivity.
Defined.

(* ------------------------------------------------------------------ *)
(** *** The wire format of the block parameters *)
(* ------------------------------------------------------------------ *)

Lemma byteVal_range (b : byte) : 0 <= Wire.byteVal b < 256.
Proof.
  unfold Wire.byteVal. pose proof (Byte.to_N_bounded b). lia.
Qed.

Lemma byteVal_toByte (z : Z) : 0 <= z < 256 -> Wire.byteVal (Wire.toByte z) = z.
Proof.
  intros H. unfold Wire.byteVal, Wire.toByte. rewrite Z.mod_small by lia.
  destruct (Byte.of_N (Z.to_N z)) as [b|] eqn:E.
  - apply Byte.to_of_N in E. rewrite E. lia.
  - apply Byte.of_N_None_iff in E. lia.
Qed.

(** Bits that do not overlap add up. *)
Lemma lor_shiftl_add (a b k : Z) :
  0 <= k -> 0 <= a < 2 ^ k -> Z.lor a (Z.shiftl b k) = a + Z.shiftl b k.
Proof.
  intros Hk Ha.
  assert (Z.land a (Z.shiftl b k) = 0) as Hd.
  { apply Z.bits_inj'. intros i Hi. rewrite Z.land_spec, Z.bits_0.
    destruct (Z.ltb_spec i k) as [Hlt|Hge].
    - rewrite Z.shiftl_spec_low by lia. apply andb_false_r.
    - assert (Z.testbit a i = false) as ->; [|reflexivity].
      destruct (Z.eq_dec a 0) as [->|Hn]; [apply Z.bits_0|].
      apply Z.bits_above_log2; [lia|].
      apply Z.log2_lt_pow2; [lia|].
      assert (2 ^ k <= 2 ^ i) by (apply Z.pow_le_mono_r; lia). lia. }
  rewrite (Z.add_nocarry_lxor _ _ Hd). symmetry. apply Z.lxor_lor. exact Hd.
Qed.

Lemma land_127 (z : Z) : Z.land z 127 = z mod 128.
Proof. change 127 with (Z.ones 7). rewrite Z.land_ones by lia. reflexivity. Qed.

Lemma readInt64_cons (b : byte) (rest : bytes) (shift v : Z) :
  Wire.readInt64 (b :: rest) shift v
  = if 64 <=? shift then (v, inr Wire.ErrIntOverflow)
    else
      if Wire.byteVal b <? 128
      then (Z.lor v (Int64.wrap (Z.shiftl (Z.land (Wire.byteVal b) 127) shift)), inl rest)
      else Wire.readInt64 rest (shift + 7)
             (Z.lor v (Int64.wrap (Z.shiftl (Z.land (Wire.byteVal b) 127) shift))).
Proof. reflexivity. Qed.

Lemma readTag_cons (b : byte) (rest : bytes) (shift wire : Z) :
  Wire.readTag (b :: rest) shift wire
  = if 64 <=? shift then (wire, inr Wire.ErrIntOverflow)
    else
      if Wire.byteVal b <? 128
      then (Z.lor wire (Z.shiftl (Z.land (Wire.byteVal b) 127) shift mod 2 ^ 64), inl rest)
      else Wire.readTag rest (shift + 7)
             (Z.lor wire (Z.shiftl (Z.land (Wire.byteVal b) 127) shift mod 2 ^ 64)).
Proof. reflexivity. Qed.

Section WireFacts.

Local Open Scope list_scope.

Lemma pow7_facts (k : Z) :
  0 <= k <= 9 ->
  0 < 2 ^ (7 * k)
  /\ 2 ^ (7 * (k + 1)) = 128 * 2 ^ (7 * k)
  /\ (k <= 8 -> 128 * 2 ^ (7 * k) <= 2 ^ 63)
  /\ (k = 9 -> 2 ^ (7 * k) = 2 ^ 63).
Proof.
  intros Hk. split; [apply Z.pow_pos_nonneg; lia|]. split.
  - replace (7 * (k + 1)) with (7 + 7 * k) by lia.
    rewrite Z.pow_add_r by lia. reflexivity.
  - split.
    + intros H8. change 128 with (2 ^ 7). rewrite <- Z.pow_add_r by lia.
      apply Z.pow_le_mono_r; lia.
    + intros ->. reflexivity.
Qed.

Lemma readInt64_groups (n : nat) :
  forall k acc w rest,
    0 <= k <= 9 -> 10 - k <= Z.of_nat n ->
    0 <= acc < 2 ^ (7 * k) -> 0 <= w ->
    acc + w * 2 ^ (7 * k) < 2 ^ 64 ->
    Wire.readInt64 (Wire.varintGroups n w ++ rest) (7 * k) acc
    = (Int64.of_uint64 (acc + w * 2 ^ (7 * k)), inl rest).
Proof.
  induction n as [|n IH]; intros k acc w rest Hk Hn Hacc Hw Hsum; [lia|].
  destruct (@pow7_facts k Hk) as [HP [HP1 [HP8 HP9]]].
  set (P := 2 ^ (7 * k)) in *.
  cbn [Wire.varintGroups].
  destruct (Z.ltb_spec w 128) as [Hlt|Hge].
  - cbn [app]. rewrite readInt64_cons.
    destruct (Z.leb_spec 64 (7 * k)) as [F|_]; [lia|].
    rewrite byteVal_toByte by lia.
    destruct (Z.ltb_spec w 128) as [_|F]; [|lia].
    rewrite land_127, Z.mod_small by lia.
    f_equal. unfold Int64.of_uint64.
    destruct (Z.eq_dec k 9) as [E9|N9].
    + specialize (HP9 E9).
      assert (w = 0 \/ w = 1) as Hw01 by nia.
      destruct Hw01 as [E|E]; subst w.
      * rewrite Z.shiftl_0_l. change (Int64.wrap 0) with 0. rewrite Z.lor_0_r.
        rewrite wrap_small; [lia|].
        unfold Int64.in_range, Int64.min_signed, Int64.max_signed. lia.
      * rewrite Z.shiftl_mul_pow2 by lia. fold P. rewrite HP9.
        change (Int64.wrap (1 * 2 ^ 63)) with (Z.shiftl (-1) 63).
        rewrite HP9 in Hacc.
        rewrite lor_shiftl_add by lia.
        change (Z.shiftl (-1) 63) with (- 2 ^ 63).
        unfold Int64.wrap. 
        replace (acc + 1 * 2 ^ 63 + 2 ^ 63) with (acc + 1 * 2 ^ 64) by lia.
        rewrite Z.mod_add by lia. rewrite Z.mod_small by lia. lia.
    + assert (k <= 8) as H8 by lia. specialize (HP8 H8).
      rewrite wrap_small.
      * rewrite lor_shiftl_add by (fold P; lia).
        rewrite Z.shiftl_mul_pow2 by lia. fold P.
        rewrite wrap_small; [reflexivity|].
        unfold Int64.in_range, Int64.min_signed, Int64.max_signed. nia.
      * rewrite Z.shiftl_mul_pow2 by lia. fold P.
        unfold Int64.in_range, Int64.min_signed, Int64.max_signed. nia.
  - assert (k <= 8) as H8.
    { destruct (Z.eq_dec k 9) as [E9|N9]; [|lia]. specialize (HP9 E9). nia. }
    specialize (HP8 H8).
    cbn [app]. rewrite readInt64_cons.
    destruct (Z.leb_spec 64 (7 * k)) as [F|_]; [lia|].
    pose proof (Z.mod_pos_bound w 128 ltac:(lia)) as Hm.
    assert (Z.lor (Z.land w 127) 128 = w mod 128 + 128) as Eb.
    { rewrite land_127. change 128 with (Z.shiftl 1 7) at 2.
      rewrite lor_shiftl_add by (try lia; change (2 ^ 7) with 128; lia).
      reflexivity. }
    rewrite Eb, byteVal_toByte by lia.
    destruct (Z.ltb_spec (w mod 128 + 128) 128) as [F|_]; [lia|].
    rewrite land_127.
    assert ((w mod 128 + 128) mod 128 = w mod 128) as ->.
    { replace (w mod 128 + 128) with (w mod 128 + 1 * 128) by lia.
      rewrite Z.mod_add by lia. apply Z.mod_mod. lia. }
    rewrite wrap_small.
    2:{ rewrite Z.shiftl_mul_pow2 by lia. fold P.
        unfold Int64.in_range, Int64.min_signed, Int64.max_signed. nia. }
    rewrite lor_shiftl_add by (fold P; lia).
    rewrite Z.shiftl_mul_pow2 by lia. fold P.
    rewrite Z.shiftr_div_pow2 by lia. change (2 ^ 7) with 128.
    replace (7 * k + 7) with (7 * (k + 1)) by lia.
    pose proof (Z.div_mod w 128 ltac:(lia)) as Hdm.
    assert (0 <= acc + w mod 128 * P < 2 ^ (7 * (k + 1))) as C1
      by (rewrite HP1; fold P; nia).
    assert (0 <= w / 128) as C2 by (apply Z.div_pos; lia).
    assert (acc + w mod 128 * P + w / 128 * 2 ^ (7 * (k + 1)) = acc + w * P) as C3
      by (rewrite HP1; fold P; nia).
    rewrite IH; [|lia|lia|exact C1|exact C2|rewrite C3; exact Hsum].
    rewrite C3. reflexivity.
Qed.

Lemma of_uint64_to_uint64 (v : Z) :
  Int64.in_range v -> Int64.of_uint64 (Int64.to_uint64 v) = v.
Proof.
  unfold Int64.in_range, Int64.min_signed, Int64.max_signed,
    Int64.of_uint64, Int64.to_uint64, Int64.wrap.
  intros H. rewrite Zplus_mod_idemp_l. rewrite Z.mod_small; lia.
Qed.

Lemma to_uint64_range (v : Z) : 0 <= Int64.to_uint64 v < 2 ^ 64.
Proof. unfold Int64.to_uint64. apply Z.mod_pos_bound. lia. Qed.

(** Reading back what [EncodeVarint] wrote. *)
Lemma readInt64_EncodeVarint (v : Z) (rest : bytes) :
  Int64.in_range v ->
  Wire.readInt64 (Wire.EncodeVarint (Int64.to_uint64 v) ++ rest) 0 0 = (v, inl rest).
Proof.
  intros Hv. pose proof (to_uint64_range v) as Hu. unfold Wire.EncodeVarint.
  assert (2 ^ (7 * 0) = 1) as P0 by reflexivity.
  change (Wire.readInt64 (Wire.varintGroups 10 (Int64.to_uint64 v) ++ rest) 0 0)
    with (Wire.readInt64 (Wire.varintGroups 10 (Int64.to_uint64 v) ++ rest) (7 * 0) 0).
  rewrite readInt64_groups.
  - rewrite P0, Z.mul_1_r, Z.add_0_l.
    rewrite of_uint64_to_uint64 by exact Hv. reflexivity.
  - lia.
  - simpl. lia.
  - rewrite P0. lia.
  - lia.
  - rewrite P0. lia.
Qed.

Lemma varintGroups_length (n : nat) :
  forall v, 0 <= v < 2 ^ (7 * Z.of_nat n) -> (0 < n)%nat ->
            Z.of_nat (List.length (Wire.varintGroups n v)) = Wire.Sov v.
Proof.
  induction n as [|n IH]; intros v Hv Hn; [lia|].
  cbn [Wire.varintGroups]. unfold Wire.Sov.
  assert (Z.log2 (Z.lor v 1) = Z.max (Z.log2 v) 0) as El
    by (rewrite Z.log2_lor by lia; reflexivity).
  pose proof (Z.log2_nonneg v) as Hl0.
  destruct (Z.ltb_spec v 128) as [Hlt|Hge].
  - cbn [List.length]. rewrite El.
    assert (Z.log2 v < 7) as Hl7.
    { destruct (Z.eq_dec v 0) as [->|Hnz]; [reflexivity|].
      apply Z.log2_lt_pow2; [lia|]. change (2 ^ 7) with 128. lia. }
    rewrite Z.max_l by lia.
    change (Z.of_nat 1) with 1. apply Z.div_unique with (r := Z.log2 v); lia.
  - cbn [List.length]. rewrite Nat2Z.inj_succ.
    assert (7 <= Z.log2 v) as Hl7.
    { apply Z.log2_le_pow2; [lia|]. change (2 ^ 7) with 128. lia. }
    assert (0 < n)%nat as Hn'.
    { destruct n; [|lia]. change (2 ^ (7 * Z.of_nat 1)) with 128 in Hv. lia. }
    assert (Z.shiftr v 7 = v / 128) as Es
      by (rewrite Z.shiftr_div_pow2 by lia; reflexivity).
    assert (1 <= v / 128) as Hq.
    { apply Z.div_le_lower_bound; lia. }
    rewrite IH; [|rewrite Es|exact Hn'].
    + unfold Wire.Sov. rewrite Z.log2_lor by lia.
      rewrite Z.log2_shiftr by lia.
      change (Z.log2 1) with 0.
      rewrite El. rewrite !Z.max_l by lia. rewrite (Z.max_r 0) by lia.
      rewrite (Z.max_l (Z.log2 v) 0) by lia.
      replace (Z.log2 v + 1 + 6) with (Z.log2 v - 7 + 1 + 6 + 1 * 7) by lia.
      rewrite Z.div_add by lia. lia.
    + split; [lia|]. apply Z.div_lt_upper_bound; [lia|].
      replace (7 * Z.of_nat (S n)) with (7 + 7 * Z.of_nat n) in Hv by lia.
      rewrite Z.pow_add_r in Hv by lia. change (2 ^ 7) with 128 in Hv. lia.
Qed.

Lemma EncodeVarint_length (v : Z) :
  0 <= v < 2 ^ 64 ->
  Z.of_nat (List.length (Wire.EncodeVarint v)) = Wire.Sov v.
Proof.
  intros Hv. unfold Wire.EncodeVarint. apply varintGroups_length; [|lia].
  change (2 ^ (7 * Z.of_nat 10)) with (2 ^ 70). 
  assert (2 ^ 64 <= 2 ^ 70) by (apply Z.pow_le_mono_r; lia). lia.
Qed.

Lemma readTag_single (b : byte) (rest : bytes) :
  Wire.byteVal b < 128 -> Wire.readTag (b :: rest) 0 0 = (Wire.byteVal b, inl rest).
Proof.
  intros H. rewrite readTag_cons.
  change (64 <=? 0) with false. cbv iota.
  destruct (Z.ltb_spec (Wire.byteVal b) 128) as [_|F]; [|lia].
  pose proof (byteVal_range b) as R.
  rewrite land_127, Z.shiftl_0_r, Z.lor_0_l.
  rewrite (Z.mod_small (Wire.byteVal b) 128) by lia.
  rewrite Z.mod_small; [reflexivity|]. 
  assert (256 <= 2 ^ 64) by lia. lia.
Qed.

Section UnmarshalFacts.

Variable Skip : bytes -> Z + Wire.WireError.
Variable discardUnknown : bool.

Lemma unmarshalLoop_more (n : nat) :
  forall x i buf r,
    BlockParamsProto.unmarshalLoop Skip discardUnknown n x i buf = Some r ->
    forall m, (n <= m)%nat -> BlockParamsProto.unmarshalLoop Skip discardUnknown m x i buf = Some r.
Proof.
  induction n as [|n IH]; intros x i buf r H m Hm.
  - destruct buf; [|discriminate]. destruct m; exact H.
  - destruct buf as [|b buf]; [destruct m; exact H|].
    destruct m as [|m]; [lia|]. cbn [BlockParamsProto.unmarshalLoop] in *.
    destruct (BlockParamsProto.unmarshalRound Skip discardUnknown x i (b :: buf)) as [[x' e]|[[x' i'] buf']]; [exact H|].
    apply IH; [exact H | lia].
Qed.

Lemma unmarshalRound_MaxBytes (x : BlockParamsProto.Message) (i : Z) (rest : bytes) :
  BlockParamsProto.unmarshalRound Skip discardUnknown x i (x08 :: rest)
  = match Wire.readInt64 rest 0 0 with
    | (v, inr err) => inl (BlockParamsProto.setMaxBytes v x, err)
    | (v, inl rest') =>
        inr (BlockParamsProto.setMaxBytes v x,
             i + Z.of_nat (List.length (x08 :: rest)) - Z.of_nat (List.length rest'),
             rest')
    end.
Proof.
  unfold BlockParamsProto.unmarshalRound.
  rewrite readTag_single by (vm_compute; reflexivity). reflexivity.
Qed.

Lemma unmarshalRound_MaxGas (x : BlockParamsProto.Message) (i : Z) (rest : bytes) :
  BlockParamsProto.unmarshalRound Skip discardUnknown x i (x10 :: rest)
  = match Wire.readInt64 rest 0 0 with
    | (v, inr err) => inl (BlockParamsProto.setMaxGas v x, err)
    | (v, inl rest') =>
        inr (BlockParamsProto.setMaxGas v x,
             i + Z.of_nat (List.length (x10 :: rest)) - Z.of_nat (List.length rest'),
             rest')
    end.
Proof.
  unfold BlockParamsProto.unmarshalRound.
  rewrite readTag_single by (vm_compute; reflexivity). reflexivity.
Qed.

Lemma unmarshalRound_TimeIotaMs (x : BlockParamsProto.Message) (i : Z) (rest : bytes) :
  BlockParamsProto.unmarshalRound Skip discardUnknown x i (x18 :: rest)
  = match Wire.readInt64 rest 0 0 with
    | (v, inr err) => inl (BlockParamsProto.setTimeIotaMs v x, err)
    | (v, inl rest') =>
        inr (BlockParamsProto.setTimeIotaMs v x,
             i + Z.of_nat (List.length (x18 :: rest)) - Z.of_nat (List.length rest'),
             rest')
    end.
Proof.
  unfold BlockParamsProto.unmarshalRound.
  rewrite readTag_single by (vm_compute; reflexivity). reflexivity.
Qed.

Lemma unmarshalLoop_MaxBytes (n : nat) (x : BlockParamsProto.Message) (i v : Z)
    (rest : bytes) :
  Int64.in_range v ->
  exists i',
    BlockParamsProto.unmarshalLoop Skip discardUnknown (S n) x i (x08 :: Wire.EncodeVarint (Int64.to_uint64 v) ++ rest)
    = BlockParamsProto.unmarshalLoop Skip discardUnknown n (BlockParamsProto.setMaxBytes v x) i' rest.
Proof.
  intros Hv. cbn [BlockParamsProto.unmarshalLoop].
  rewrite unmarshalRound_MaxBytes, (@readInt64_EncodeVarint v rest Hv).
  eexists. reflexivity.
Qed.

Lemma unmarshalLoop_MaxGas (n : nat) (x : BlockParamsProto.Message) (i v : Z)
    (rest : bytes) :
  Int64.in_range v ->
  exists i',
    BlockParamsProto.unmarshalLoop Skip discardUnknown (S n) x i (x10 :: Wire.EncodeVarint (Int64.to_uint64 v) ++ rest)
    = BlockParamsProto.unmarshalLoop Skip discardUnknown n (BlockParamsProto.setMaxGas v x) i' rest.
Proof.
  intros Hv. cbn [BlockParamsProto.unmarshalLoop].
  rewrite unmarshalRound_MaxGas, (@readInt64_EncodeVarint v rest Hv).
  eexists. reflexivity.
Qed.

Lemma unmarshalLoop_TimeIotaMs (n : nat) (x : BlockParamsProto.Message) (i v : Z)
    (rest : bytes) :
  Int64.in_range v ->
  exists i',
    BlockParamsProto.unmarshalLoop Skip discardUnknown (S n) x i (x18 :: Wire.EncodeVarint (Int64.to_uint64 v) ++ rest)
    = BlockParamsProto.unmarshalLoop Skip discardUnknown n (BlockParamsProto.setTimeIotaMs v x) i' rest.
Proof.
  intros Hv. cbn [BlockParamsProto.unmarshalLoop].
  rewrite unmarshalRound_TimeIotaMs, (@readInt64_EncodeVarint v rest Hv).
  eexists. reflexivity.
Qed.

(** The three optional fields of an encoding, one after the other. *)
Lemma unmarshalLoop_fields (dst : BlockParamsProto.Message) (mb mg ti : Z) :
  Int64.in_range mb -> Int64.in_range mg -> Int64.in_range ti ->
  forall i,
  BlockParamsProto.unmarshalLoop Skip discardUnknown
    ((if negb (mb =? 0)%Z then 1 else 0) + (if negb (mg =? 0)%Z then 1 else 0)
     + (if negb (ti =? 0)%Z then 1 else 0))%nat dst i
    ((if negb (mb =? 0) then x08 :: Wire.EncodeVarint (Int64.to_uint64 mb) else [])
     ++ (if negb (mg =? 0) then x10 :: Wire.EncodeVarint (Int64.to_uint64 mg) else [])
     ++ (if negb (ti =? 0) then x18 :: Wire.EncodeVarint (Int64.to_uint64 ti) else []))
  = Some (BlockParamsProto.overlay dst
            {| BlockParamsProto.params :=
                 {| BlockParams.MaxBytes := mb; BlockParams.MaxGas := mg;
                    BlockParams.TimeIotaMs := ti |};
               BlockParamsProto.unknownFields := [] |}, None).
Proof.
  intros Hb Hg Ht i. unfold BlockParamsProto.overlay.
  cbn [BlockParamsProto.MaxBytes BlockParamsProto.MaxGas BlockParamsProto.TimeIotaMs
       BlockParamsProto.params BlockParams.MaxBytes BlockParams.MaxGas
       BlockParams.TimeIotaMs].
  destruct dst as [[b0 g0 t0] u0].
  assert (forall n x j, BlockParamsProto.unmarshalLoop Skip discardUnknown n x j [] = Some (x, None)) as Hnil
    by (intros [|n] x j; reflexivity).
  destruct (Z.eqb_spec mb 0) as [Eb|Nb]; destruct (Z.eqb_spec mg 0) as [Eg|Ng];
    destruct (Z.eqb_spec ti 0) as [Et|Nt]; cbn [negb app Nat.add];
    rewrite ?app_nil_r;
    repeat (first
      [ rewrite Hnil
      | match goal with
        | |- BlockParamsProto.unmarshalLoop Skip discardUnknown (S ?n) ?x ?j (x08 :: Wire.EncodeVarint _ ++ ?r) = _ =>
            destruct (@unmarshalLoop_MaxBytes n x j mb r Hb) as [? ->]
        | |- BlockParamsProto.unmarshalLoop Skip discardUnknown (S ?n) ?x ?j (x10 :: Wire.EncodeVarint _ ++ ?r) = _ =>
            destruct (@unmarshalLoop_MaxGas n x j mg r Hg) as [? ->]
        | |- BlockParamsProto.unmarshalLoop Skip discardUnknown (S ?n) ?x ?j (x18 :: Wire.EncodeVarint _ ++ ?r) = _ =>
            destruct (@unmarshalLoop_TimeIotaMs n x j ti r Ht) as [? ->]
        | |- BlockParamsProto.unmarshalLoop Skip discardUnknown (S ?n) ?x ?j (?t :: Wire.EncodeVarint ?u) = _ =>
            rewrite <- (app_nil_r (Wire.EncodeVarint u))
        end ]);
    reflexivity.
Qed.

Lemma marshal_fields (x : BlockParamsProto.Message) :
  BlockParamsProto.marshal [] x
  = ((if negb (BlockParamsProto.MaxBytes x =? 0)
      then x08 :: Wire.EncodeVarint (Int64.to_uint64 (BlockParamsProto.MaxBytes x))
      else [])
     ++ (if negb (BlockParamsProto.MaxGas x =? 0)
         then x10 :: Wire.EncodeVarint (Int64.to_uint64 (BlockParamsProto.MaxGas x))
         else [])
     ++ (if negb (BlockParamsProto.TimeIotaMs x =? 0)
         then x18 :: Wire.EncodeVarint (Int64.to_uint64 (BlockParamsProto.TimeIotaMs x))
         else [])
     ++ BlockParamsProto.unknownFields x)%list.
Proof.
  unfold BlockParamsProto.marshal. cbn [app].
  destruct (negb (BlockParamsProto.MaxBytes x =? 0));
    destruct (negb (BlockParamsProto.MaxGas x =? 0));
    destruct (negb (BlockParamsProto.TimeIotaMs x =? 0));
    cbn [app]; rewrite <- ?app_assoc; cbn [app]; reflexivity.
Qed.

Lemma marshal_size (x : BlockParamsProto.Message) :
  Z.of_nat (List.length (BlockParamsProto.marshal [] x)) = BlockParamsProto.size x.
Proof.
  rewrite marshal_fields. unfold BlockParamsProto.size.
  rewrite !length_app, !Nat2Z.inj_add.
  pose proof (@EncodeVarint_length _ (to_uint64_range (BlockParamsProto.MaxBytes x))) as E1.
  pose proof (@EncodeVarint_length _ (to_uint64_range (BlockParamsProto.MaxGas x))) as E2.
  pose proof (@EncodeVarint_length _ (to_uint64_range (BlockParamsProto.TimeIotaMs x))) as E3.
  destruct (negb (BlockParamsProto.MaxBytes x =? 0));
    destruct (negb (BlockParamsProto.MaxGas x =? 0));
    destruct (negb (BlockParamsProto.TimeIotaMs x =? 0));
    cbn [List.length]; rewrite ?Nat2Z.inj_succ; lia.
Qed.

Lemma readTag_consumes (buf : bytes) :
  forall shift wire v rest,
    Wire.readTag buf shift wire = (v, inl rest) ->
    (List.length rest < List.length buf)%nat.
Proof.
  induction buf as [|b buf IH]; intros shift wire v rest H.
  - simpl in H. destruct (64 <=? shift); discriminate.
  - rewrite readTag_cons in H.
    destruct (64 <=? shift); [discriminate|].
    destruct (Wire.byteVal b <? 128).
    + injection H as _ <-. simpl. lia.
    + apply IH in H. simpl. lia.
Qed.

Lemma readInt64_consumes (buf : bytes) :
  forall shift acc v rest,
    Wire.readInt64 buf shift acc = (v, inl rest) ->
    (List.length rest < List.length buf)%nat.
Proof.
  induction buf as [|b buf IH]; intros shift acc v rest H.
  - simpl in H. destruct (64 <=? shift); discriminate.
  - rewrite readInt64_cons in H.
    destruct (64 <=? shift); [discriminate|].
    destruct (Wire.byteVal b <? 128).
    + injection H as _ <-. simpl. lia.
    + apply IH in H. simpl. lia.
Qed.

(** A round that goes on has consumed at least one byte, provided [Skip]
    never reports a field of length 0. *)
Lemma unmarshalRound_progress (x x' : BlockParamsProto.Message) (i i' : Z)
    (buf buf' : bytes) :
  (forall b, Skip b <> inl 0) ->
  BlockParamsProto.unmarshalRound Skip discardUnknown x i buf = inr (x', i', buf') ->
  (List.length buf' < List.length buf)%nat.
Proof.
  intros Hskip H. unfold BlockParamsProto.unmarshalRound in H.
  destruct (Wire.readTag buf 0 0) as [wire [rest|e]] eqn:Et; [|discriminate].
  apply readTag_consumes in Et.
  destruct (Z.land wire 7 =? 4); [discriminate|].
  destruct (Wire.wrap32 (Z.shiftr wire 3) <=? 0); [discriminate|].
  destruct (Wire.wrap32 (Z.shiftr wire 3) =? 1).
  { destruct (negb (Z.land wire 7 =? 0)); [discriminate|].
    destruct (Wire.readInt64 rest 0 0) as [v [rest'|e]] eqn:Ev; [|discriminate].
    apply readInt64_consumes in Ev. injection H as _ _ <-. lia. }
  destruct (Wire.wrap32 (Z.shiftr wire 3) =? 2).
  { destruct (negb (Z.land wire 7 =? 0)); [discriminate|].
    destruct (Wire.readInt64 rest 0 0) as [v [rest'|e]] eqn:Ev; [|discriminate].
    apply readInt64_consumes in Ev. injection H as _ _ <-. lia. }
  destruct (Wire.wrap32 (Z.shiftr wire 3) =? 3).
  { destruct (negb (Z.land wire 7 =? 0)); [discriminate|].
    destruct (Wire.readInt64 rest 0 0) as [v [rest'|e]] eqn:Ev; [|discriminate].
    apply readInt64_consumes in Ev. injection H as _ _ <-. lia. }
  destruct (Skip buf) as [skippy|e] eqn:Es; [|discriminate].
  destruct (Z.ltb_spec skippy 0) as [F|Hge]; [discriminate|].
  cbn [orb] in H.
  destruct (Int64.add i skippy <? 0); [discriminate|].
  destruct (Z.ltb_spec (Z.of_nat (List.length buf)) skippy) as [F|Hle]; [discriminate|].
  injection H as _ _ <-. rewrite length_skipn.
  assert (skippy <> 0) by (intros ->; apply (Hskip buf); exact Es).
  lia.
Qed.

Lemma unmarshalLoop_total (n : nat) :
  (forall b, Skip b <> inl 0) ->
  forall x i buf,
    (List.length buf <= n)%nat ->
    exists r, BlockParamsProto.unmarshalLoop Skip discardUnknown n x i buf = Some r.
Proof.
  intros Hskip. induction n as [|n IH]; intros x i buf Hn.
  - destruct buf; [eexists; reflexivity | simpl in Hn; lia].
  - destruct buf as [|b buf]; [eexists; reflexivity|].
    cbn [BlockParamsProto.unmarshalLoop].
    destruct (BlockParamsProto.unmarshalRound Skip discardUnknown x i (b :: buf))
      as [[x' e]|[[x' i'] buf']] eqn:E; [eexists; reflexivity|].
    apply IH. apply (@unmarshalRound_progress _ _ _ _ _ _ Hskip) in E. simpl in *. lia.
Qed.

(** A run of bytes that all continue a varint: reading stops with an
    overflow once ten groups are read, and at the end of the buffer before. *)
Lemma readTag_continuation (l : bytes) :
  Forall (fun b => BlockParamsProto.continues b = true) l ->
  forall k wire,
    0 <= k ->
    exists v,
      Wire.readTag l (7 * k) wire
      = (v, inr (if 10 <=? k + Z.of_nat (List.length l)
                 then Wire.ErrIntOverflow else Wire.ErrUnexpectedEOF)).
Proof.
  intros HF. induction HF as [|b l Hb HF IH]; intros k wire Hk.
  - cbn [Wire.readTag List.length].
    destruct (Z.leb_spec 64 (7 * k)); destruct (Z.leb_spec 10 (k + Z.of_nat 0));
      try lia; eexists; reflexivity.
  - rewrite readTag_cons.
    unfold BlockParamsProto.continues in Hb. apply Z.leb_le in Hb.
    destruct (Z.leb_spec 64 (7 * k)).
    + destruct (Z.leb_spec 10 (k + Z.of_nat (List.length (b :: l))));
        [eexists; reflexivity | lia].
    + destruct (Z.ltb_spec (Wire.byteVal b) 128); [lia|].
      replace (7 * k + 7) with (7 * (k + 1)) by lia.
      edestruct (IH (k + 1)) as [v ->]; [lia|].
      replace (k + 1 + Z.of_nat (List.length l))
        with (k + Z.of_nat (List.length (b :: l)))
        by (cbn [List.length]; lia).
      eexists. reflexivity.
Qed.

Lemma readInt64_continuation (l : bytes) :
  Forall (fun b => BlockParamsProto.continues b = true) l ->
  forall k acc,
    0 <= k ->
    exists v,
      Wire.readInt64 l (7 * k) acc
      = (v, inr (if 10 <=? k + Z.of_nat (List.length l)
                 then Wire.ErrIntOverflow else Wire.ErrUnexpectedEOF)).
Proof.
  intros HF. induction HF as [|b l Hb HF IH]; intros k acc Hk.
  - cbn [Wire.readInt64 List.length].
    destruct (Z.leb_spec 64 (7 * k)); destruct (Z.leb_spec 10 (k + Z.of_nat 0));
      try lia; eexists; reflexivity.
  - rewrite readInt64_cons.
    unfold BlockParamsProto.continues in Hb. apply Z.leb_le in Hb.
    destruct (Z.leb_spec 64 (7 * k)).
    + destruct (Z.leb_spec 10 (k + Z.of_nat (List.length (b :: l))));
        [eexists; reflexivity | lia].
    + destruct (Z.ltb_spec (Wire.byteVal b) 128); [lia|].
      replace (7 * k + 7) with (7 * (k + 1)) by lia.
      edestruct (IH (k + 1)) as [v ->]; [lia|].
      replace (k + 1 + Z.of_nat (List.length l))
        with (k + Z.of_nat (List.length (b :: l)))
        by (cbn [List.length]; lia).
      eexists. reflexivity.
Qed.

(** X23.  Marshalling and unmarshalling the block parameters are inverse to
    one another.  For a message without unknown fields, whose parameters are
    in [int64]: unmarshalling its encoding into a message gives that message
    with every parameter the encoded message has set (non-zero) replaced,
    and its other parameters and unknown fields kept, so that unmarshalling
    into a new message gives the encoded message back; no error is
    reported.  For every message, the encoding has exactly the length
    [size] computes, so the buffer [marshal] allocates is filled exactly,
    and marshalling behind a buffer appends the encoding to it. *)
Theorem block_params_round_trip (dst m : BlockParamsProto.Message) :
  Int64.in_range (BlockParamsProto.MaxBytes m) ->
  Int64.in_range (BlockParamsProto.MaxGas m) ->
  Int64.in_range (BlockParamsProto.TimeIotaMs m) ->
  BlockParamsProto.unknownFields m = [] ->
  BlockParamsProto.unmarshal Skip discardUnknown dst (BlockParamsProto.marshal [] m)
  = Some (BlockParamsProto.overlay dst m, None)
  /\ BlockParamsProto.unmarshal Skip discardUnknown BlockParamsProto.New
       (BlockParamsProto.marshal [] m)
     = Some (m, None)
  /\ (forall x, Z.of_nat (List.length (BlockParamsProto.marshal [] x))
                = BlockParamsProto.size x)
  /\ (forall buf x, BlockParamsProto.marshal buf x
                    = (buf ++ BlockParamsProto.marshal [] x)%list).
Proof.
  intros Hb Hg Ht Hu.
  assert (forall d,
             BlockParamsProto.unmarshal Skip discardUnknown d
               (BlockParamsProto.marshal [] m)
             = Some (BlockParamsProto.overlay d m, None)) as Hmain.
  { intros d. unfold BlockParamsProto.unmarshal. rewrite marshal_fields, Hu, app_nil_r.
    destruct m as [[mb mg ti] uf].
    cbn [BlockParamsProto.MaxBytes BlockParamsProto.MaxGas BlockParamsProto.TimeIotaMs
         BlockParamsProto.params BlockParamsProto.unknownFields
         BlockParams.MaxBytes BlockParams.MaxGas BlockParams.TimeIotaMs] in *.
    subst uf.
    eapply unmarshalLoop_more; [apply unmarshalLoop_fields; assumption|].
    rewrite !length_app.
    destruct (negb (mb =? 0)); destruct (negb (mg =? 0)); destruct (negb (ti =? 0));
      cbn [List.length Nat.add]; lia. }
  split; [apply Hmain|]. split; [|split].
  - rewrite Hmain. f_equal. f_equal.
    destruct m as [[mb mg ti] uf]. unfold BlockParamsProto.overlay.
    cbn [BlockParamsProto.MaxBytes BlockParamsProto.MaxGas BlockParamsProto.TimeIotaMs
         BlockParamsProto.params BlockParamsProto.unknownFields BlockParamsProto.New
         BlockParams.MaxBytes BlockParams.MaxGas BlockParams.TimeIotaMs] in *.
    subst uf.
    destruct (Z.eqb_spec mb 0); destruct (Z.eqb_spec mg 0); destruct (Z.eqb_spec ti 0);
      subst; reflexivity.
  - exact marshal_size.
  - intros buf x. reflexivity.
Qed.

(** X24.  Unmarshalling the block parameters answers malformed input with an
    error, and always answers.  When [runtime.Skip] never reports a field of
    length 0, [unmarshal] returns on every buffer.  A non-empty buffer that
    ends inside its first tag is answered with the unexpected end of the
    input, and with an integer overflow when the tag runs over ten bytes;
    the message is unchanged.  After a one-byte tag: wire type 4 is refused
    as a group end, field number 0 as an illegal tag, and a wire type other
    than 0 on one of the three fields as the wrong wire type of that field,
    all three with the message unchanged; and a value of one of the three
    fields that continues to the end of the buffer, or over ten bytes, is
    an error as for the tag, with the field holding what was read. *)
Theorem unmarshal_malformed_input (x : BlockParamsProto.Message) :
  (forall b, Skip b <> inl 0) ->
  (forall buf, exists r, BlockParamsProto.unmarshal Skip discardUnknown x buf = Some r)
  /\ (forall l,
         l <> [] -> Forall (fun b => BlockParamsProto.continues b = true) l ->
         BlockParamsProto.unmarshal Skip discardUnknown x l
         = Some (x, Some (if 10 <=? Z.of_nat (List.length l)
                          then Wire.ErrIntOverflow else Wire.ErrUnexpectedEOF)))
  /\ (forall b rest,
         Wire.byteVal b < 128 ->
         (Wire.byteVal b mod 8 = 4 ->
          BlockParamsProto.unmarshal Skip discardUnknown x (b :: rest)
          = Some (x, Some Wire.ErrEndGroup))
         /\ (Wire.byteVal b mod 8 <> 4 -> Wire.byteVal b / 8 = 0 ->
             BlockParamsProto.unmarshal Skip discardUnknown x (b :: rest)
             = Some (x, Some (Wire.ErrIllegalTag 0 (Wire.byteVal b))))
         /\ (Wire.byteVal b mod 8 <> 4 -> Wire.byteVal b mod 8 <> 0 ->
             1 <= Wire.byteVal b / 8 <= 3 ->
             exists name,
               BlockParamsProto.unmarshal Skip discardUnknown x (b :: rest)
               = Some (x, Some (Wire.ErrWrongWireType (Wire.byteVal b mod 8) name)))
         /\ (Wire.byteVal b mod 8 = 0 -> 1 <= Wire.byteVal b / 8 <= 3 ->
             Forall (fun c => BlockParamsProto.continues c = true) rest ->
             exists x',
               BlockParamsProto.unmarshal Skip discardUnknown x (b :: rest)
               = Some (x', Some (if 10 <=? Z.of_nat (List.length rest)
                                 then Wire.ErrIntOverflow
                                 else Wire.ErrUnexpectedEOF)))).
Proof.
  intros Hskip. split; [|split].
  - intros buf. unfold BlockParamsProto.unmarshal.
    apply unmarshalLoop_total; [exact Hskip | lia].
  - intros l Hne HF. unfold BlockParamsProto.unmarshal.
    destruct l as [|b l]; [contradiction|].
    cbn [List.length BlockParamsProto.unmarshalLoop].
    unfold BlockParamsProto.unmarshalRound.
    destruct (@readTag_continuation (b :: l) HF 0 0 ltac:(lia)) as [v E].
    change (7 * 0) with 0 in E. rewrite E.
    rewrite Z.add_0_l. reflexivity.
  - intros b rest Hb.
    pose proof (byteVal_range b) as R.
    assert (Z.land (Wire.byteVal b) 7 = Wire.byteVal b mod 8) as Ew.
    { change 7 with (Z.ones 3). rewrite Z.land_ones by lia. reflexivity. }
    assert (Wire.wrap32 (Z.shiftr (Wire.byteVal b) 3) = Wire.byteVal b / 8) as Ef.
    { rewrite Z.shiftr_div_pow2 by lia. change (2 ^ 3) with 8.
      unfold Wire.wrap32.
      assert (0 <= Wire.byteVal b / 8 < 16) as Hq.
      { split; [apply Z.div_pos; lia | apply Z.div_lt_upper_bound; lia]. }
      rewrite Z.mod_small; lia. }
    assert (forall n, BlockParamsProto.unmarshalLoop Skip discardUnknown (S n) x 0 (b :: rest)
                      = match BlockParamsProto.unmarshalRound Skip discardUnknown x 0 (b :: rest) with
                        | inl (x', err) => Some (x', Some err)
                        | inr (x', i', buf') =>
                            BlockParamsProto.unmarshalLoop Skip discardUnknown n x' i' buf'
                        end) as Hloop by reflexivity.
    unfold BlockParamsProto.unmarshal. cbn [List.length]. rewrite Hloop.
    unfold BlockParamsProto.unmarshalRound.
    rewrite (@readTag_single b rest Hb). cbv zeta. rewrite Ew, Ef.
    split; [|split; [|split]].
    + intros H4. rewrite H4. reflexivity.
    + intros N4 H0. apply Z.eqb_neq in N4. rewrite N4, H0. reflexivity.
    + intros N4 N0 Hf. apply Z.eqb_neq in N4. apply Z.eqb_neq in N0. rewrite N4, N0.
      destruct (Z.leb_spec (Wire.byteVal b / 8) 0) as [F|_]; [lia|].
      destruct (Z.eqb_spec (Wire.byteVal b / 8) 1); [eexists; reflexivity|].
      destruct (Z.eqb_spec (Wire.byteVal b / 8) 2); [eexists; reflexivity|].
      destruct (Z.eqb_spec (Wire.byteVal b / 8) 3); [eexists; reflexivity|].
      lia.
    + intros H0 Hf HF. rewrite H0.
      change (0 =? 4) with false. change (negb (0 =? 0)) with false. cbv iota.
      destruct (Z.leb_spec (Wire.byteVal b / 8) 0) as [F|_]; [lia|].
      destruct (@readInt64_continuation rest HF 0 0 ltac:(lia)) as [v E].
      change (7 * 0) with 0 in E. rewrite Z.add_0_l in E. rewrite E.
      destruct (Z.eqb_spec (Wire.byteVal b / 8) 1); [eexists; reflexivity|].
      destruct (Z.eqb_spec (Wire.byteVal b / 8) 2); [eexists; reflexivity|].
      destruct (Z.eqb_spec (Wire.byteVal b / 8) 3); [eexists; reflexivity|].
      lia.
Qed.

End UnmarshalFacts.

End WireFacts.

(** The statement on the round trip at a message with a maximum block size
    of 200000 bytes and unlimited gas: its encoding has fifteen bytes, and
    unmarshalling it into a new message gives the message back. *)
Lemma block_params_round_trip_witness :
  BlockParamsProto.marshal []
    {| BlockParamsProto.params :=
         {| BlockParams.MaxBytes := 200000; BlockParams.MaxGas := -1;
            BlockParams.TimeIotaMs := 0 |};
       BlockParamsProto.unknownFields := [] |}
  = [x08; xc0; x9a; x0c; x10; xff; xff; xff; xff; xff; xff; xff; xff; xff; x01]
  /\ BlockParamsProto.unmarshal (fun _ => inr (Wire.ErrSkip "unknown field")) false
       BlockParamsProto.New
       (BlockParamsProto.marshal []
          {| BlockParamsProto.params :=
               {| BlockParams.MaxBytes := 200000; BlockParams.MaxGas := -1;
                  BlockParams.TimeIotaMs := 0 |};
             BlockParamsProto.unknownFields := [] |})
     = Some ({| BlockParamsProto.params :=
                  {| BlockParams.MaxBytes := 200000; BlockParams.MaxGas := -1;
                     BlockParams.TimeIotaMs := 0 |};
                BlockParamsProto.unknownFields := [] |}, None).
Proof.
  split; [vm_compute; reflexivity|].
  assert (Int64.in_range 200000) as R1 by (vm_compute; split; discriminate).
  assert (Int64.in_range (-1)) as R2 by (vm_compute; split; discriminate).
  assert (Int64.in_range 0) as R3 by (vm_compute; split; discriminate).
  destruct (@block_params_round_trip (fun _ => inr (Wire.ErrSkip "unknown field")) false
              BlockParamsProto.New
              {| BlockParamsProto.params :=
                   {| BlockParams.MaxBytes := 200000; BlockParams.MaxGas := -1;
                      BlockParams.TimeIotaMs := 0 |};
                 BlockParamsProto.unknownFields := [] |} R1 R2 R3 eq_refl)
    as [_ [H _]].
  exact H.
Defined.

(** The statement on malformed input for a runtime that skips one byte at a
    time: the single byte [0x80], a tag that does not end, is answered with
    the unexpected end of the input. *)
Lemma unmarshal_malformed_input_witness :
  BlockParamsProto.unmarshal (fun _ => inl 1) false BlockParamsProto.New [x80]
  = Some (BlockParamsProto.New, Some Wire.ErrUnexpectedEOF).
Proof.
  assert (forall b : bytes, @inl Z Wire.WireError 1 <> inl 0) as Hskip
    by (intros b F; discriminate F).
  destruct (@unmarshal_malformed_input (fun _ => inl 1) false BlockParamsProto.New Hskip)
    as [_ [H _]].
  apply (H [x80]); [discriminate|].
  constructor; [reflexivity | constructor].
Defined.

(* ------------------------------------------------------------------ *)
(** *** Application queries *)
(* ------------------------------------------------------------------ *)

Lemma resolveHeight_Data (app : BaseApp) (req : RequestQuery.t) :
  RequestQuery.Data (resolveHeight app req) = RequestQuery.Data req.
Proof. unfold resolveHeight. destruct (_ =? 0); reflexivity. Qed.

(** X25.  The answers of the [app] route, for a path that no gRPC route
    claims.  [/app/version] is answered with the version of the application
    at the resolved height.  [/app/simulate] runs the simulation on the data
    of the request: a result is answered with its encoding at the resolved
    height; an error of the simulation is answered as an error that keeps
    the code and the codespace of that error, its log prefixed with
    [failed to simulate tx]; a panic of the simulation becomes the
    [ErrPanic] response.  [/app] alone and any other second segment are
    answered with [ErrUnknownRequest]. *)
Theorem app_query_results (app : BaseApp) (req : RequestQuery.t) :
  grpcQueryRouter app (RequestQuery.Path req) = None ->
  (RequestQuery.Path req = "/app/version" ->
   Query app req
   = {| ResponseQuery.Code := 0; ResponseQuery.Log := "";
        ResponseQuery.Key := None;
        ResponseQuery.Value := Some (list_byte_of_string (version app));
        ResponseQuery.Height := RequestQuery.Height (resolveHeight app req);
        ResponseQuery.Codespace := RootCodespace |})
  /\ (RequestQuery.Path req = "/app/simulate" ->
      (forall err,
          Simulate app (RequestQuery.Data req) = Return (inr err) ->
          Query app req = QueryResult (Wrap err "failed to simulate tx") (trace app)
          /\ ResponseQuery.Code (Query app req) = abciCode err
          /\ ResponseQuery.Codespace (Query app req) = abciCodespace err
          /\ ResponseQuery.Log (Query app req)
             = ("failed to simulate tx: " ++ Error err)%string)
      /\ (forall gInfo res bz,
             Simulate app (RequestQuery.Data req) = Return (inl (gInfo, res)) ->
             interfaceRegistry app {| SimGasInfo := gInfo; SimResult := res |} = inl bz ->
             Query app req
             = {| ResponseQuery.Code := 0; ResponseQuery.Log := "";
                  ResponseQuery.Key := None; ResponseQuery.Value := bz;
                  ResponseQuery.Height := RequestQuery.Height (resolveHeight app req);
                  ResponseQuery.Codespace := RootCodespace |})
      /\ (forall v,
             Simulate app (RequestQuery.Data req) = Panic v ->
             Query app req = QueryResult (Wrap (Registered ErrPanic) v) (trace app)))
  /\ (RequestQuery.Path req = "/app"
      \/ (exists second,
            RequestQuery.Path req = ("/app/" ++ second)%string
            /\ noSlash second = true
            /\ second <> "simulate" /\ second <> "version") ->
      ResponseQuery.Code (Query app req) = registeredCode ErrUnknownRequest
      /\ ResponseQuery.Codespace (Query app req) = RootCodespace).
Proof.
  intros Hr. split; [|split].
  - intros Hp. unfold Query, queryBody. rewrite resolveHeight_Path, Hr, Hp.
    reflexivity.
  - intros Hp.
    assert (queryBody app req
            = handleQueryApp app ["app"; "simulate"] (resolveHeight app req)) as E.
    { unfold queryBody. rewrite resolveHeight_Path, Hr, Hp. reflexivity. }
    unfold Query. rewrite E. unfold handleQueryApp.
    change (("simulate" =? "simulate")%string) with true. cbv iota.
    rewrite resolveHeight_Data.
    split; [|split].
    + intros err Hs. rewrite Hs. cbn [obind recover_with].
      repeat split.
    + intros gInfo res bz Hs Hj. rewrite Hs. cbn [obind]. unfold ProtoMarshalJSON.
      rewrite Hj. reflexivity.
    + intros v Hs. rewrite Hs. reflexivity.
  - intros [Hp|[second [Hp [Hs [Hn1 Hn2]]]]].
    + unfold Query, queryBody. rewrite resolveHeight_Path, Hr, Hp.
      split; reflexivity.
    + assert (queryBody app req
              = handleQueryApp app ["app"; second] (resolveHeight app req)) as E.
      { unfold queryBody. rewrite resolveHeight_Path, Hr, Hp.
        unfold SplitABCIQueryPath, split_slash. cbn.
        rewrite (@split_slash_aux_noSlash second "" Hs). reflexivity. }
      unfold Query. rewrite E. unfold handleQueryApp.
      apply String.eqb_neq in Hn1, Hn2. rewrite Hn1, Hn2.
      split; reflexivity.
Qed.

(** The statement above at the running example, whose simulation reports
    that the transaction does not decode: the query is answered with code 2
    of the [sdk] codespace. *)
Lemma app_query_results_witness :
  ResponseQuery.Code (Query Example.running (Example.query "/app/simulate" 0 false)) = 2
  /\ ResponseQuery.Codespace
       (Query Example.running (Example.query "/app/simulate" 0 false)) = "sdk"
  /\ ResponseQuery.Value (Query Example.running (Example.query "/app/version" 0 false))
     = Some (list_byte_of_string "v1").
Proof.
  destruct (@app_query_results Example.running (Example.query "/app/simulate" 0 false)
              eq_refl) as [_ [Hs _]].
  destruct (Hs eq_refl) as [He _].
  destruct (He (Registered ErrTxDecode) eq_refl) as [_ [Hc [Hsp _]]].
  destruct (@app_query_results Example.running (Example.query "/app/version" 0 false)
              eq_refl) as [Hv _].
  split; [rewrite Hc; reflexivity|]. split; [rewrite Hsp; reflexivity|].
  rewrite (Hv eq_refl). reflexivity.
Defined.

(* ------------------------------------------------------------------ *)
(** *** Chain initialisation that cannot start *)
(* ------------------------------------------------------------------ *)

(** X26.  [InitChain] refuses a configuration on which the chain cannot
    start: it panics, naming both identifiers, when the chain identifier of
    the request is not the application's; it panics with the error of the
    store when the initial height is above 1 and the store refuses the
    initial version; and it panics when the request carries consensus
    parameters and the application has no parameter store. *)
Theorem initchain_refuses_bad_configuration
    (sortV : list ValidatorUpdate -> list ValidatorUpdate)
    (app : BaseApp) (req : RequestInitChain.t) :
  (RequestInitChain.ChainId req <> chainID app ->
   InitChain sortV app req
   = Panic ("invalid chain-id on InitChain; expected: " ++ chainID app
            ++ ", got: " ++ RequestInitChain.ChainId req))
  /\ (RequestInitChain.ChainId req = chainID app ->
      1 < RequestInitChain.InitialHeight req ->
      forall err,
        Store.setInitialVersionErr (cms app) = Some err ->
        InitChain sortV app req = Panic (Error err))
  /\ (RequestInitChain.ChainId req = chainID app ->
      (1 < RequestInitChain.InitialHeight req ->
       Store.setInitialVersionErr (cms app) = None) ->
      RequestInitChain.ConsensusParams req <> None ->
      paramStore app = None ->
      InitChain sortV app req
      = Panic "cannot store consensus params with no params store set").
Proof.
  split; [|split].
  - intros Hn. unfold InitChain. apply String.eqb_neq in Hn. rewrite Hn. reflexivity.
  - intros Hc Hi err He. unfold InitChain. rewrite Hc, String.eqb_refl.
    simpl negb. cbv iota. apply Z.ltb_lt in Hi. rewrite Hi.
    unfold Store.SetInitialVersion.
    change (cms (set_initialHeight (RequestInitChain.InitialHeight req) app))
      with (cms app).
    rewrite He. reflexivity.
  - intros Hc Hv Hcp Hps. unfold InitChain. rewrite Hc, String.eqb_refl.
    simpl negb. cbv iota.
    destruct (RequestInitChain.ConsensusParams req) as [cp|]; [|contradiction].
    destruct (1 <? RequestInitChain.InitialHeight req) eqn:Hi.
    + apply Z.ltb_lt in Hi. specialize (Hv Hi).
      unfold Store.SetInitialVersion.
      change (cms (set_initialHeight (RequestInitChain.InitialHeight req) app))
        with (cms app).
      rewrite Hv.
      cbn [obind setState deref finalizeBlockState set_finalizeBlockState
           set_checkState set_cms set_initialHeight].
      unfold StoreConsensusParams.
      cbn [paramStore set_finalizeBlockState set_checkState set_cms set_initialHeight].
      rewrite Hps. reflexivity.
    + cbn [obind setState deref finalizeBlockState set_finalizeBlockState
           set_checkState set_cms set_initialHeight].
      unfold StoreConsensusParams.
      cbn [paramStore set_finalizeBlockState set_checkState set_cms set_initialHeight].
      rewrite Hps. reflexivity.
Qed.

(** The statement above at the example application, whose chain identifier
    is [example-1], for a genesis of another chain. *)
Lemma initchain_refuses_bad_configuration_witness :
  InitChain Example.sortByPower Example.fresh
    {| RequestInitChain.Time := 0; RequestInitChain.ChainId := "other-9";
       RequestInitChain.ConsensusParams := None;
       RequestInitChain.Validators := [];
       RequestInitChain.AppStateBytes := None;
       RequestInitChain.InitialHeight := 1 |}
  = Panic "invalid chain-id on InitChain; expected: example-1, got: other-9".
Proof.
  destruct (initchain_refuses_bad_configuration Example.sortByPower Example.fresh
              {| RequestInitChain.Time := 0; RequestInitChain.ChainId := "other-9";
                 RequestInitChain.ConsensusParams := None;
                 RequestInitChain.Validators := [];
                 RequestInitChain.AppStateBytes := None;
                 RequestInitChain.InitialHeight := 1 |}) as [H _].
  rewrite H; [reflexivity | discriminate].
Defined.
